(** * Direct-messaging feature: chat service, chat controller and client hook

    A shallow embedding of
      - [services/chat.service.ts]  (saveChat, createMessage, addMessageToChat,
        getChat, getChatsByParticipants, addParticipantToChat),
      - [controllers/chat.controller.ts] (the five chat routes and the
        joinChat / leaveChat socket handlers),
      - [client/src/hooks/useDirectMessage.ts] (handleSendMessage,
        handleChatUpdate),
    together with the properties of the specification that concern them. *)

From stdpp Require Import base option list strings gmap.
From Stdlib Require Import ZArith NArith DecimalString DecimalNat.

Open Scope string_scope.
Open Scope list_scope.

(** ** Exceptions, promises and try/catch

    An awaited call either returns a value or throws; effects performed
    before a throw are kept.  [M S A] is a computation over a state [S]. *)

Record exn := Exn { exn_name : string; exn_message : string }.

(** [new Error(m)] *)
Definition Error (m : string) : exn := Exn "Error" m.

(** Template-literal rendering [`${error}`] of a thrown error, which is
    [Error.prototype.toString]: the message alone when the name is
    empty, the name alone when the message is empty, and otherwise both
    with [": "] in between. *)
Definition exn_to_string (e : exn) : string :=
  match exn_name e, exn_message e with
  | EmptyString, message => message
  | name, EmptyString => name
  | name, message => name +:+ ": " +:+ message
  end.

Inductive outcome (A : Type) : Type :=
  | Returned (a : A)
  | Threw (e : exn).
Arguments Returned {A} a.
Arguments Threw {A} e.

Definition M (S A : Type) : Type := S -> outcome A * S.

Definition ret {S A} (a : A) : M S A := fun s => (Returned a, s).

Definition throw {S A} (e : exn) : M S A := fun s => (Threw e, s).

Definition bind {S A B} (m : M S A) (k : A -> M S B) : M S B :=
  fun s =>
    match m s with
    | (Returned a, s') => k a s'
    | (Threw e, s') => (Threw e, s')
    end.

Definition try_catch {S A} (body : M S A) (handler : exn -> M S A) : M S A :=
  fun s =>
    match body s with
    | (Returned a, s') => (Returned a, s')
    | (Threw e, s') => handler e s'
    end.

Declare Scope js_scope.
Delimit Scope js_scope with js.
Notation "x <- c ;; k" := (bind c (fun x => k))
  (at level 100, c at next level, right associativity) : js_scope.
Notation "c ;;; k" := (bind c (fun _ => k))
  (at level 100, right associativity) : js_scope.
Open Scope js_scope.

(** [for (const x of l) { ... }] where the body updates a local
    accumulator (an array that is pushed to). *)
Fixpoint for_of {S A B} (l : list A) (acc : B) (body : B -> A -> M S B) : M S B :=
  match l with
  | [] => ret acc
  | x :: l' => acc' <- body acc x ;; for_of l' acc' body
  end.

(** ** Data model (types/chat, types/message, types/user)

    An ObjectId is represented by its hexadecimal string, so that
    [toString] and the cast mongoose applies to string ids are the
    identity.  Dates are milliseconds since the epoch. *)

Definition ObjectId := string.
Definition Date := Z.
Definition toString (x : string) : string := x.

(** A user document as the chat code sees it ([_id], [username]). *)
Record User := { user_id : ObjectId; username : string }.

(** [Message]: [_id] is optional. *)
Record Message := {
  msg_id : option ObjectId;
  msg : string;
  msgFrom : string;
  msgDateTime : Date;
  msg_type : string
}.

(** [Chat] with its messages populated: [_id] is optional, a participant
    is a user id or whatever string was supplied at creation. *)
Record Chat := {
  chat_id : option ObjectId;
  participants : list string;
  messages : list Message
}.

(** The object handed to [ChatModel.create]. *)
Record ChatData := {
  cd_participants : list string;
  cd_messages : list (option ObjectId)
}.

Record CreateChatPayload := {
  cp_participants : list string;
  cp_messages : list Message
}.

(** [T | { error: string }] *)
Inductive response (A : Type) : Type :=
  | Doc (a : A)
  | ErrorResponse (error : string).
Arguments Doc {A} a.
Arguments ErrorResponse {A} error.

Definition ChatResponse := response Chat.
Definition MessageResponse := response Message.

(** ** The database layer

    The mongoose models ([models/*.model.ts]) and [populateDocument]
    ([utils/database.util.ts]) are used by the chat code but are not part
    of the sources at hand; the services and routes are written against
    this interface and most properties are proved for every
    implementation of it.  A result is optional where the code tests it
    for null. *)
Class Models (D : Type) := {
  (** [UserModel.findOne({ username })] *)
  UserModel_findOne : string -> M D (option User);
  (** [UserModel.findById(id)] *)
  UserModel_findById : string -> M D (option User);
  (** [UserModel.find({ username: { $in: p } }).select('_id')] *)
  UserModel_find : list string -> M D (list User);
  (** [MessageModel.create(messageData)] *)
  MessageModel_create : Message -> M D (option Message);
  (** [ChatModel.create(chatData)] *)
  ChatModel_create : ChatData -> M D (option Chat);
  (** [ChatModel.findById(id).populate('messages')] *)
  ChatModel_findById : option ObjectId -> M D (option Chat);
  (** [ChatModel.findByIdAndUpdate(chatId, { $push: { messages: messageId } },
      { new: true }).populate('messages')] *)
  ChatModel_findByIdAndUpdate_push : string -> string -> M D (option Chat);
  (** [ChatModel.findByIdAndUpdate(chatId, { $addToSet: { participants: userId } },
      { new: true }).populate('messages')] *)
  ChatModel_findByIdAndUpdate_addToSet : string -> string -> M D (option Chat);
  (** [ChatModel.find({ participants: { $all: ids } }).populate('messages')] *)
  ChatModel_find : list ObjectId -> M D (option (list Chat));
  (** [populateDocument(id, type)] *)
  populateDocument : option string -> string -> M D (response Chat)
}.

(** ** services/chat.service.ts *)

Section Services.
Context {D : Type} `{!Models D}.

Definition saveChat (chatPayload : CreateChatPayload) : M D ChatResponse :=
  try_catch
    (participantIds <-
       for_of (cp_participants chatPayload) []
         (fun participantIds participant =>
            let participantStr := toString participant in
            user <- UserModel_findOne participantStr ;;
            match user with
            | Some user => ret (participantIds ++ [user_id user])
            | None => ret (participantIds ++ [participant])
            end) ;;
     messageIds <-
       for_of (cp_messages chatPayload) []
         (fun messageIds messageData =>
            message <- MessageModel_create messageData ;;
            match message with
            | None => throw (Error "Failed to create message")
            | Some message => ret (messageIds ++ [msg_id message])
            end) ;;
     let chatData :=
       {| cd_participants := participantIds; cd_messages := messageIds |} in
     result <- ChatModel_create chatData ;;
     match result with
     | None => throw (Error "Failed to create chat")
     | Some result =>
         populatedChat <- ChatModel_findById (chat_id result) ;;
         match populatedChat with
         | None => throw (Error "Failed to populate created chat")
         | Some populatedChat => ret (Doc populatedChat)
         end
     end)
    (fun error =>
       ret (ErrorResponse
              ("Error occurred when saving chat: " +:+ exn_to_string error))).

Definition createMessage (messageData : Message) : M D MessageResponse :=
  try_catch
    (result <- MessageModel_create messageData ;;
     match result with
     | None => throw (Error "Failed to create message")
     | Some result => ret (Doc result)
     end)
    (fun error =>
       ret (ErrorResponse
              ("Error occurred when creating message: " +:+ exn_to_string error))).

Definition addMessageToChat (chatId messageId : string) : M D ChatResponse :=
  try_catch
    (updatedChat <- ChatModel_findByIdAndUpdate_push chatId messageId ;;
     match updatedChat with
     | None => throw (Error "Chat not found or failed to update")
     | Some updatedChat => ret (Doc updatedChat)
     end)
    (fun error =>
       ret (ErrorResponse
              ("Error occurred when adding message to chat: "
               +:+ exn_to_string error))).

Definition getChat (chatId : string) : M D ChatResponse :=
  try_catch
    (chat <- ChatModel_findById (Some chatId) ;;
     match chat with
     | None => throw (Error "Chat not found")
     | Some chat => ret (Doc chat)
     end)
    (fun error =>
       ret (ErrorResponse
              ("Error occurred when retrieving chat: " +:+ exn_to_string error))).

Definition getChatsByParticipants (p : list string) : M D (list Chat) :=
  try_catch
    (users <- UserModel_find p ;;
     if negb (length users =? length p)%nat then ret []
     else
       let participantIds := map user_id users in
       chats <- ChatModel_find participantIds ;;
       ret (default [] chats))
    (fun error => ret []).

Definition addParticipantToChat (chatId userId : string) : M D ChatResponse :=
  try_catch
    (user <- UserModel_findById userId ;;
     match user with
     | None => throw (Error "User not found")
     | Some _ =>
         updatedChat <- ChatModel_findByIdAndUpdate_addToSet chatId userId ;;
         match updatedChat with
         | None => throw (Error "Chat not found or failed to update")
         | Some updatedChat => ret (Doc updatedChat)
         end
     end)
    (fun error =>
       ret (ErrorResponse
              ("Error occurred when adding participant to chat: "
               +:+ exn_to_string error))).

End Services.

(** ** The socket layer (socket.io server)

    [socket.emit(ev, payload)] on the server reaches every connected
    socket; [socket.to(room).emit(ev, payload)] reaches the sockets that
    are currently in [room]. *)

Inductive target :=
  | AllSockets
  | Room (room : string).

Record ChatUpdatePayload := { cu_chat : Chat; cu_type : string }.

Record Emission := {
  em_to : target;
  em_event : string;
  em_payload : ChatUpdatePayload
}.

(** Truthiness of a JavaScript string. *)
Definition truthy (s : string) : bool :=
  match s with
  | EmptyString => false
  | String _ _ => true
  end.

(** Truthiness of [string | undefined]. *)
Definition truthy_opt (s : option string) : bool :=
  match s with
  | None => false
  | Some s => truthy s
  end.

(** The rooms of one connection: [conn.on('joinChat', ...)] and
    [conn.on('leaveChat', ...)] of the controller. *)
Definition on_joinChat (chatId : string) (rooms : gset string) : gset string :=
  if truthy chatId then {[chatId]} ∪ rooms else rooms.

Definition on_leaveChat (chatId : option string) (rooms : gset string) : gset string :=
  match chatId with
  | Some c => if truthy c then rooms ∖ {[c]} else rooms
  | None => rooms
  end.

(** What clients do to the socket server.  Socket.io puts a new socket
    in the room named by its own socket id; the two chat handlers are
    registered on every connection. *)
Inductive client_event :=
  | Connect (sid : string)
  | JoinChat (sid : string) (chatId : string)
  | LeaveChat (sid : string) (chatId : option string)
  | Disconnect (sid : string).

(** The connected sockets, each with the rooms it is in. *)
Definition socket_step (io : gmap string (gset string)) (ev : client_event)
  : gmap string (gset string) :=
  match ev with
  | Connect sid => <[sid := {[sid]}]> io
  | JoinChat sid chatId => alter (on_joinChat chatId) sid io
  | LeaveChat sid chatId => alter (on_leaveChat chatId) sid io
  | Disconnect sid => delete sid io
  end.

Definition sockets_after (evs : list client_event) : gmap string (gset string) :=
  foldl socket_step ∅ evs.

(** Does the socket [sid] receive the emission [e]? *)
Definition receives (io : gmap string (gset string)) (sid : string) (e : Emission) : bool :=
  match io !! sid with
  | None => false
  | Some rooms =>
      match em_to e with
      | AllSockets => true
      | Room r => bool_decide (r ∈ rooms)
      end
  end.

(** ** controllers/chat.controller.ts *)

(** A request field that should hold an array: it may be undefined, hold
    something that is not an array, or hold an array. *)
Inductive array_field (A : Type) : Type :=
  | Undefined
  | NotAnArray
  | IsArray (items : list A).
Arguments Undefined {A}.
Arguments NotAnArray {A}.
Arguments IsArray {A} items.

Definition is_defined {A} (f : array_field A) : bool :=
  match f with Undefined => false | _ => true end.

(** [Array.isArray] *)
Definition Array_isArray {A} (f : array_field A) : bool :=
  match f with IsArray _ => true | _ => false end.

Definition array_items {A} (f : array_field A) : list A :=
  match f with IsArray l => l | _ => [] end.

Record CreateChatBody := {
  ccb_participants : array_field string;
  ccb_messages : array_field Message
}.
Record CreateChatRequest := { cc_body : option CreateChatBody }.

Record AddMessageBody := {
  amb_msg : option string;
  amb_msgFrom : option string;
  amb_msgDateTime : option Date
}.
Record AddMessageRequestToChat := {
  am_body : option AddMessageBody;
  am_chatId : option string
}.

Record ChatIdRequest := { ci_chatId : option string }.

Record GetChatByParticipantsRequest := { gc_username : option string }.

Record AddParticipantBody := { apb_participantId : option string }.
Record AddParticipantRequest := {
  ap_body : option AddParticipantBody;
  ap_chatId : option string
}.

(** What [res.status(code).send(text)] / [res.status(code).json(value)]
    put on the wire. *)
Inductive res_body :=
  | Text (s : string)
  | Json (c : Chat)
  | JsonList (cs : list Chat).

Record HttpResponse := { status : nat; sent : res_body }.

(** The controller acts on the database and on the socket server; the
    emissions made so far are kept in order. *)
Record World (D : Type) := { db : D; outbox : list Emission }.
Arguments db {D} w.
Arguments outbox {D} w.

(** An awaited service or [populateDocument] call: it acts on the
    database only. *)
Definition await {D A} (m : M D A) : M (World D) A :=
  fun w =>
    match m (db w) with
    | (r, d) => (r, {| db := d; outbox := outbox w |})
    end.

Definition emit_to {D} (t : target) (ev : string) (p : ChatUpdatePayload)
  : M (World D) unit :=
  fun w =>
    (Returned tt,
     {| db := db w;
        outbox := outbox w ++ [{| em_to := t; em_event := ev; em_payload := p |}] |}).

(** [socket.emit(ev, p)] *)
Definition socket_emit {D} := @emit_to D AllSockets.
(** [socket.to(room).emit(ev, p)] *)
Definition socket_to_emit {D} (room : string) := @emit_to D (Room room).

Definition res_send {S} (code : nat) (text : string) : M S HttpResponse :=
  ret {| status := code; sent := Text text |}.
Definition res_json {S} (code : nat) (c : Chat) : M S HttpResponse :=
  ret {| status := code; sent := Json c |}.
Definition res_json_list {S} (code : nat) (cs : list Chat) : M S HttpResponse :=
  ret {| status := code; sent := JsonList cs |}.

Definition isCreateChatRequestValid (req : CreateChatRequest) : bool :=
  match cc_body req with
  | None => false
  | Some body =>
      is_defined (ccb_participants body) &&
      Array_isArray (ccb_participants body) &&
      (0 <? length (array_items (ccb_participants body)))%nat &&
      is_defined (ccb_messages body) &&
      Array_isArray (ccb_messages body)
  end.

Definition isAddMessageRequestValid (req : AddMessageRequestToChat) : bool :=
  match am_body req with
  | None => false
  | Some body =>
      bool_decide (amb_msg body ≠ None) &&
      bool_decide (amb_msg body ≠ Some "") &&
      bool_decide (amb_msgFrom body ≠ None) &&
      bool_decide (am_chatId req ≠ None) &&
      bool_decide (am_chatId req ≠ Some "")
  end.

Definition isAddParticipantRequestValid (req : AddParticipantRequest) : bool :=
  match ap_body req with
  | None => false
  | Some body =>
      bool_decide (apb_participantId body ≠ None) &&
      bool_decide (ap_chatId req ≠ None) &&
      bool_decide (ap_chatId req ≠ Some "")
  end.

(** [req.body] of a validated create-chat request, as a [CreateChatPayload]. *)
Definition cc_payload (req : CreateChatRequest) : CreateChatPayload :=
  match cc_body req with
  | Some body =>
      {| cp_participants := array_items (ccb_participants body);
         cp_messages := array_items (ccb_messages body) |}
  | None => {| cp_participants := []; cp_messages := [] |}
  end.

(** A field that validation has found defined. *)
Definition field (f : option string) : string := default "" f.

Section Controller.
Context {D : Type} `{!Models D}.

Definition createChatRoute (req : CreateChatRequest) : M (World D) HttpResponse :=
  try_catch
    (if negb (isCreateChatRequestValid req) then
       res_send 400 "Invalid chat request body"
     else
       result <- await (saveChat (cc_payload req)) ;;
       match result with
       | ErrorResponse error => throw (Error error)
       | Doc result =>
           populatedResult <-
             await (populateDocument (toString <$> chat_id result) "chat") ;;
           match populatedResult with
           | ErrorResponse error => throw (Error error)
           | Doc populatedResult =>
               socket_emit "chatUpdate"
                 {| cu_chat := populatedResult; cu_type := "created" |} ;;;
               res_json 200 populatedResult
           end
       end)
    (fun error =>
       res_send 500 ("Error when creating chat: " +:+ exn_to_string error)).

(** [now] is what [new Date()] evaluates to while the request is
    processed. *)
Definition addMessageToChatRoute (now : Date) (req : AddMessageRequestToChat)
  : M (World D) HttpResponse :=
  try_catch
    (if negb (isAddMessageRequestValid req) then
       res_send 400 "Invalid message request body"
     else
       let chatId := field (am_chatId req) in
       let body := default (Build_AddMessageBody None None None) (am_body req) in
       let msg := field (amb_msg body) in
       let msgFrom := field (amb_msgFrom body) in
       let msgDateTime := amb_msgDateTime body in
       let messageData :=
         {| msg_id := None;
            msg := msg;
            msgFrom := toString msgFrom;
            msgDateTime := default now msgDateTime;
            msg_type := "direct" |} in
       messageResult <- await (createMessage messageData) ;;
       match messageResult with
       | ErrorResponse error => throw (Error error)
       | Doc createdMessage =>
           match msg_id createdMessage with
           | None => throw (Error "Created message missing ID")
           | Some createdMessage_id =>
               chatResult <-
                 await (addMessageToChat chatId (toString createdMessage_id)) ;;
               match chatResult with
               | ErrorResponse error => throw (Error error)
               | Doc chatResult =>
                   populatedResult <-
                     await (populateDocument
                              (toString <$> chat_id chatResult) "chat") ;;
                   match populatedResult with
                   | ErrorResponse error => throw (Error error)
                   | Doc _ =>
                       socket_to_emit chatId "chatUpdate"
                         {| cu_chat := chatResult; cu_type := "newMessage" |} ;;;
                       res_json 200 chatResult
                   end
               end
           end
       end)
    (fun error =>
       res_send 500
         ("Error when adding message to chat: " +:+ exn_to_string error)).

Definition getChatRoute (req : ChatIdRequest) : M (World D) HttpResponse :=
  try_catch
    (let chatId := ci_chatId req in
     if negb (truthy_opt chatId) then
       res_send 400 "Chat ID is required"
     else
       chatResult <- await (getChat (field chatId)) ;;
       match chatResult with
       | ErrorResponse error => throw (Error error)
       | Doc chatResult =>
           populatedResult <-
             await (populateDocument (toString <$> chat_id chatResult) "chat") ;;
           match populatedResult with
           | ErrorResponse error => throw (Error error)
           | Doc populatedResult => res_json 200 populatedResult
           end
       end)
    (fun error =>
       res_send 500 ("Error when retrieving chat: " +:+ exn_to_string error)).

(** The body of the loop of [getChatsByUserRoute], with its own
    try/catch. *)
Definition populate_into (populatedChats : list Chat) (chat : Chat)
  : M (World D) (list Chat) :=
  try_catch
    (populatedChat <-
       await (populateDocument (toString <$> chat_id chat) "chat") ;;
     match populatedChat with
     | ErrorResponse _ => throw (Error "Failed populating chats")
     | Doc populatedChat => ret (populatedChats ++ [populatedChat])
     end)
    (fun populationError => throw (Error "Failed populating chats")).

Definition getChatsByUserRoute (req : GetChatByParticipantsRequest)
  : M (World D) HttpResponse :=
  try_catch
    (let username := gc_username req in
     if negb (truthy_opt username) then
       res_send 400 "Username is required"
     else
       chats <- await (getChatsByParticipants [field username]) ;;
       populatedChats <- for_of chats [] populate_into ;;
       res_json_list 200 populatedChats)
    (fun error =>
       res_send 500 ("Error retrieving chat: " +:+ exn_to_string error)).

Definition addParticipantToChatRoute (req : AddParticipantRequest)
  : M (World D) HttpResponse :=
  try_catch
    (if negb (isAddParticipantRequestValid req) then
       res_send 400 "Invalid participant request body"
     else
       let chatId := field (ap_chatId req) in
       let participantId :=
         field (apb_participantId
                  (default (Build_AddParticipantBody None) (ap_body req))) in
       result <- await (addParticipantToChat chatId (toString participantId)) ;;
       match result with
       | ErrorResponse error => throw (Error error)
       | Doc result => res_json 200 result
       end)
    (fun error =>
       res_send 500
         ("Error when adding participant to chat: " +:+ exn_to_string error)).

End Controller.

(** ** An in-memory document store

    The document database under the chat service: the behaviour of the
    mongoose queries the service uses, on a database that holds the
    three collections.  Ids are unique within a collection: an insertion
    whose [_id] is taken fails with a duplicate-key error, as in
    MongoDB. *)

Module MemStore.

(** A chat as it is stored: messages are references. *)
Record ChatDoc := {
  doc_id : ObjectId;
  doc_participants : list string;
  doc_messages : list ObjectId
}.

(** Modelled from the spec: the collections behind [UserModel],
    [MessageModel] and [ChatModel], whose schemas ([models/*.model.ts])
    are not among the sources; documents are kept in insertion order. *)
Record Store := {
  users : list User;
  stored_messages : list Message;
  chats : list ChatDoc;
  next_oid : nat
}.

(** The id the driver generates for the [n]-th insertion. *)
Definition oid (n : nat) : ObjectId :=
  "oid" +:+ NilEmpty.string_of_uint (Nat.to_uint n).

Definition duplicate_key : exn :=
  Exn "MongoServerError" "E11000 duplicate key error".

Definition find_user_by_username (s : Store) (name : string) : option User :=
  List.find (fun u => bool_decide (username u = name)) (users s).

Definition find_user_by_id (s : Store) (id : string) : option User :=
  List.find (fun u => bool_decide (user_id u = id)) (users s).

Definition find_message (s : Store) (id : ObjectId) : option Message :=
  List.find (fun m => bool_decide (msg_id m = Some id)) (stored_messages s).

Definition find_chat (s : Store) (id : ObjectId) : option ChatDoc :=
  List.find (fun d => bool_decide (doc_id d = id)) (chats s).

(** [.populate('messages')]: references to messages that do not exist
    are dropped. *)
Definition populate (s : Store) (d : ChatDoc) : Chat :=
  {| chat_id := Some (doc_id d);
     participants := doc_participants d;
     messages := omap (find_message s) (doc_messages d) |}.

(** Update the first document that has the given id. *)
Fixpoint update_first (id : ObjectId) (f : ChatDoc -> ChatDoc) (l : list ChatDoc)
  : list ChatDoc :=
  match l with
  | [] => []
  | d :: l' =>
      if bool_decide (doc_id d = id) then f d :: l'
      else d :: update_first id f l'
  end.

Definition with_chats (s : Store) (cs : list ChatDoc) : Store :=
  {| users := users s; stored_messages := stored_messages s;
     chats := cs; next_oid := next_oid s |}.

(** [$push: { messages: messageId }] *)
Definition push_message (messageId : ObjectId) (d : ChatDoc) : ChatDoc :=
  {| doc_id := doc_id d;
     doc_participants := doc_participants d;
     doc_messages := doc_messages d ++ [messageId] |}.

(** [$addToSet: { participants: userId }] *)
Definition addToSet_participant (userId : string) (d : ChatDoc) : ChatDoc :=
  {| doc_id := doc_id d;
     doc_participants :=
       if bool_decide (userId ∈ doc_participants d) then doc_participants d
       else doc_participants d ++ [userId];
     doc_messages := doc_messages d |}.

Definition findByIdAndUpdate (chatId : string) (f : ChatDoc -> ChatDoc)
  : M Store (option Chat) :=
  fun s =>
    match find_chat s chatId with
    | None => (Returned None, s)
    | Some d =>
        let s' := with_chats s (update_first chatId f (chats s)) in
        (Returned (Some (populate s' (f d))), s')
    end.

Definition create_message (messageData : Message) : M Store (option Message) :=
  fun s =>
    let id := default (oid (next_oid s)) (msg_id messageData) in
    if bool_decide (Some id ∈ map msg_id (stored_messages s)) then
      (Threw duplicate_key, s)
    else
      let doc := {| msg_id := Some id;
                    msg := msg messageData;
                    msgFrom := msgFrom messageData;
                    msgDateTime := msgDateTime messageData;
                    msg_type := msg_type messageData |} in
      (Returned (Some doc),
       {| users := users s;
          stored_messages := stored_messages s ++ [doc];
          chats := chats s;
          next_oid := S (next_oid s) |}).

Definition create_chat (chatData : ChatData) : M Store (option Chat) :=
  fun s =>
    let new_id := oid (next_oid s) in
    if bool_decide (new_id ∈ map doc_id (chats s)) then
      (Threw duplicate_key, s)
    else
      let doc := {| doc_id := new_id;
                    doc_participants := cd_participants chatData;
                    doc_messages := omap id (cd_messages chatData) |} in
      let s' := {| users := users s;
                   stored_messages := stored_messages s;
                   chats := chats s ++ [doc];
                   next_oid := S (next_oid s) |} in
      (Returned (Some (populate s' doc)), s').

(** [$all]: every listed id is a participant; [$all: []] matches no
    document. *)
Definition has_all (ids : list ObjectId) (d : ChatDoc) : bool :=
  match ids with
  | [] => false
  | _ => forallb (fun i => bool_decide (i ∈ doc_participants d)) ids
  end.

(** Modelled from the spec: [populateDocument] of
    [utils/database.util.ts], which is not among the sources.  It reads
    the chat with the given id and returns it populated, or returns an
    error value. *)
Definition populate_document (id : option string) (type : string)
  : M Store (response Chat) :=
  fun s =>
    match id with
    | None => (Returned (ErrorResponse "Provided ID is undefined."), s)
    | Some i =>
        match find_chat s i with
        | None => (Returned (ErrorResponse "Failed to fetch and populate"), s)
        | Some d => (Returned (Doc (populate s d)), s)
        end
    end.

#[export] Instance models : Models Store := {|
  UserModel_findOne name := fun s => (Returned (find_user_by_username s name), s);
  UserModel_findById id := fun s => (Returned (find_user_by_id s id), s);
  UserModel_find p :=
    fun s => (Returned (List.filter (fun u => bool_decide (username u ∈ p)) (users s)), s);
  MessageModel_create := create_message;
  ChatModel_create := create_chat;
  ChatModel_findById id :=
    fun s => (Returned (populate s <$> (id ≫= find_chat s)), s);
  ChatModel_findByIdAndUpdate_push chatId messageId :=
    findByIdAndUpdate chatId (push_message messageId);
  ChatModel_findByIdAndUpdate_addToSet chatId userId :=
    findByIdAndUpdate chatId (addToSet_participant userId);
  ChatModel_find ids :=
    fun s => (Returned (Some (map (populate s) (List.filter (has_all ids) (chats s)))), s);
  populateDocument := populate_document
|}.

(** The database before anything is stored. *)
Definition initial : Store :=
  {| users := []; stored_messages := []; chats := []; next_oid := 0 |}.

End MemStore.

(** ** A database that stops answering

    [(n, d)] behaves as [d] for [n] more operations, each of which uses
    up one of them; every later operation throws. *)
Definition flaky {D A} (op : M D A) : M (nat * D) A :=
  fun '(n, d) =>
    match n with
    | O => (Threw (Exn "MongoNetworkError" "connection lost"), (O, d))
    | S k => match op d with (r, d') => (r, (k, d')) end
    end.

#[export] Instance Flaky {D} `{!Models D} : Models (nat * D) := {|
  UserModel_findOne name := flaky (UserModel_findOne name);
  UserModel_findById id := flaky (UserModel_findById id);
  UserModel_find p := flaky (UserModel_find p);
  MessageModel_create m := flaky (MessageModel_create m);
  ChatModel_create c := flaky (ChatModel_create c);
  ChatModel_findById id := flaky (ChatModel_findById id);
  ChatModel_findByIdAndUpdate_push c m := flaky (ChatModel_findByIdAndUpdate_push c m);
  ChatModel_findByIdAndUpdate_addToSet c u :=
    flaky (ChatModel_findByIdAndUpdate_addToSet c u);
  ChatModel_find ids := flaky (ChatModel_find ids);
  populateDocument id type := flaky (populateDocument id type)
|}.

(** ** client/src/hooks/useDirectMessage.ts *)

Module Client.

(** The text being typed, as its UTF-16 code units. *)
Definition js_string := list N.

(** ECMAScript WhiteSpace and LineTerminator code points, which are
    what [String.prototype.trim] strips. *)
Definition is_white_space (c : N) : bool :=
  ((9 <=? c) && (c <=? 13) || (c =? 32) || (c =? 160) || (c =? 5760)
   || (8192 <=? c) && (c <=? 8202) || (c =? 8232) || (c =? 8233)
   || (c =? 8239) || (c =? 8287) || (c =? 12288) || (c =? 65279))%N.

Fixpoint trimStart (s : js_string) : js_string :=
  match s with
  | [] => []
  | c :: s' => if is_white_space c then trimStart s' else s
  end.

Definition trimEnd (s : js_string) : js_string := rev (trimStart (rev s)).

Definition trim (s : js_string) : js_string := trimEnd (trimStart s).

(** Truthiness of a string: it is not empty. *)
Definition truthy_js (s : js_string) : bool :=
  match s with [] => false | _ => true end.

(** The state variables of the hook. *)
Record HookState := {
  st_showCreatePanel : bool;
  st_chatToCreate : string;
  st_selectedChat : option Chat;
  st_chats : list Chat;
  st_newMessage : js_string
}.

(** The argument of the [sendMessage] service. *)
Record MessagePayload := {
  mp_msg : js_string;
  mp_msgFrom : string;
  mp_msgDateTime : Date
}.

(** The browser side: the hook state and the add-message requests
    sent so far. *)
Record Browser := {
  hook : HookState;
  requests : list (MessagePayload * string)
}.

Definition setSelectedChat (c : option Chat) : M Browser unit :=
  fun w =>
    (Returned tt,
     {| hook := {| st_showCreatePanel := st_showCreatePanel (hook w);
                   st_chatToCreate := st_chatToCreate (hook w);
                   st_selectedChat := c;
                   st_chats := st_chats (hook w);
                   st_newMessage := st_newMessage (hook w) |};
        requests := requests w |}).

Definition setNewMessage (m : js_string) : M Browser unit :=
  fun w =>
    (Returned tt,
     {| hook := {| st_showCreatePanel := st_showCreatePanel (hook w);
                   st_chatToCreate := st_chatToCreate (hook w);
                   st_selectedChat := st_selectedChat (hook w);
                   st_chats := st_chats (hook w);
                   st_newMessage := m |};
        requests := requests w |}).

(** [setChats(prevChats => f(prevChats))] *)
Definition setChats (f : list Chat -> list Chat) : M Browser unit :=
  fun w =>
    (Returned tt,
     {| hook := {| st_showCreatePanel := st_showCreatePanel (hook w);
                   st_chatToCreate := st_chatToCreate (hook w);
                   st_selectedChat := st_selectedChat (hook w);
                   st_chats := f (st_chats (hook w));
                   st_newMessage := st_newMessage (hook w) |};
        requests := requests w |}).

Definition console_error : M Browser unit := ret tt.

Section Render.
(** The server's answer to an add-message request ([sendMessage] of
    services/chatService, not part of the sources at hand). *)
Variable server : MessagePayload -> string -> outcome Chat.
(** [user.username] of the user context and the value of
    [new Date()]. *)
Variable user_username : string.
Variable now : Date.
(** The state values the handlers of one render close over. *)
Variable selectedChat : option Chat.
Variable newMessage : js_string.

Definition sendMessage (p : MessagePayload) (chatID : string) : M Browser Chat :=
  fun w =>
    (server p chatID,
     {| hook := hook w; requests := requests w ++ [(p, chatID)] |}).

Definition handleSendMessage : M Browser unit :=
  if negb (truthy_js (trim newMessage))
     || negb (truthy_opt (selectedChat ≫= chat_id)) then
    ret tt
  else
    try_catch
      (updatedChat <-
         sendMessage
           {| mp_msg := newMessage;
              mp_msgFrom := user_username;
              mp_msgDateTime := now |}
           (toString (field (selectedChat ≫= chat_id))) ;;
       setSelectedChat (Some updatedChat) ;;;
       setNewMessage [])
      (fun error => console_error).

Definition handleChatUpdate (chatUpdate : ChatUpdatePayload) : M Browser unit :=
  let chat := cu_chat chatUpdate in
  let type := cu_type chatUpdate in
  if bool_decide (type = "created") then
    setChats (fun prevChats =>
                let exists_ :=
                  existsb (fun existingChat =>
                             bool_decide (chat_id existingChat = chat_id chat))
                          prevChats in
                if exists_ then prevChats else prevChats ++ [chat])
  else if bool_decide (type = "newMessage") then
    (match selectedChat with
     | Some sel =>
         if bool_decide (chat_id sel = chat_id chat)
         then setSelectedChat (Some chat) else ret tt
     | None => ret tt
     end) ;;;
    setChats (fun prevChats =>
                map (fun existingChat =>
                       if bool_decide (chat_id existingChat = chat_id chat)
                       then chat else existingChat)
                    prevChats)
  else
    throw (Error ("Invalid chatUpdate type: " +:+ type)).

End Render.

(** The handlers of the render of state [st]. *)
Definition send (server : MessagePayload -> string -> outcome Chat)
    (user_username : string) (now : Date) (w : Browser) : outcome unit * Browser :=
  handleSendMessage server user_username now
    (st_selectedChat (hook w)) (st_newMessage (hook w)) w.

Definition receive (chatUpdate : ChatUpdatePayload) (w : Browser)
  : outcome unit * Browser :=
  handleChatUpdate (st_selectedChat (hook w)) chatUpdate w.

End Client.


(** * What the specification talks about *)

(** How a call made by a route can fail, rendered as the route renders
    it: the call returned [{ error }], which the route rethrows as
    [new Error(error)], or the call itself threw. *)
Definition failure {A} (r : outcome (response A)) : option string :=
  match r with
  | Returned (Doc _) => None
  | Returned (ErrorResponse error) => Some (exn_to_string (Error error))
  | Threw e => Some (exn_to_string e)
  end.

(** [res.status(500).send(prefix + reason)] *)
Definition server_error (prefix reason : string) : HttpResponse :=
  {| status := 500; sent := Text (prefix +:+ reason) |}.

(** [res.status(400).send(text)] *)
Definition bad_request (text : string) : HttpResponse :=
  {| status := 400; sent := Text text |}.

(** A ['chatUpdate'] emission. *)
Definition chat_update (t : target) (chat : Chat) (type : string) : Emission :=
  {| em_to := t; em_event := "chatUpdate";
     em_payload := {| cu_chat := chat; cu_type := type |} |}.

(** The message an add-message request describes: type ['direct'], the
    given text and sender, the given time or else the current time. *)
Definition direct_message (now : Date) (req : AddMessageRequestToChat) : Message :=
  let body := default (Build_AddMessageBody None None None) (am_body req) in
  {| msg_id := None;
     msg := field (amb_msg body);
     msgFrom := field (amb_msgFrom body);
     msgDateTime := match amb_msgDateTime body with Some d => d | None => now end;
     msg_type := "direct" |}.

(** The shapes of a create-chat request that the specification lists
    as invalid. *)
Definition invalid_create_chat (req : CreateChatRequest) : Prop :=
  cc_body req = None
  \/ exists body, cc_body req = Some body
       /\ (ccb_participants body = Undefined
           \/ ccb_participants body = NotAnArray
           \/ ccb_participants body = IsArray []
           \/ ccb_messages body = Undefined
           \/ ccb_messages body = NotAnArray).

(** The shapes of an add-message request that the specification lists
    as invalid. *)
Definition invalid_add_message (req : AddMessageRequestToChat) : Prop :=
  am_body req = None
  \/ (exists body, am_body req = Some body
        /\ (amb_msg body = None \/ amb_msg body = Some "" \/ amb_msgFrom body = None))
  \/ am_chatId req = None
  \/ am_chatId req = Some "".

(** ASCII white space, and texts made of nothing else. *)
Definition is_space (c : Ascii.ascii) : bool :=
  let n := Ascii.nat_of_ascii c in ((9 <=? n) && (n <=? 13) || (n =? 32))%nat.

Definition whitespace_only (s : string) : bool :=
  forallb is_space (String.list_ascii_of_string s).

(** What [saveChat] stores for a given participant: the id of the user
    of that name if there is one, the given string otherwise. *)
Definition resolve (s : MemStore.Store) (participant : string) : string :=
  match MemStore.find_user_by_username s participant with
  | Some user => user_id user
  | None => participant
  end.

(** The participant entry is the id of an existing user document. *)
Definition references_user (s : MemStore.Store) (participant : string) : Prop :=
  exists user, user ∈ MemStore.users s /\ user_id user = participant.

(** Every participant of every stored chat is an existing user. *)
Definition referential_existence (s : MemStore.Store) : Prop :=
  forall d p, d ∈ MemStore.chats s -> p ∈ MemStore.doc_participants d ->
    references_user s p.

(** The ids the driver will generate from now on are not in use. *)
Definition fresh (s : MemStore.Store) : Prop :=
  forall n, MemStore.next_oid s <= n ->
    (Some (MemStore.oid n) ∉ map msg_id (MemStore.stored_messages s))
    /\ (MemStore.oid n ∉ map MemStore.doc_id (MemStore.chats s)).

(** A text that [trim] empties: it is empty or all white space. *)
Definition blank (s : Client.js_string) : bool := forallb Client.is_white_space s.

(** The request [handleSendMessage] sends. *)
Definition outgoing (user_username : string) (now : Date) (w : Client.Browser)
  : Client.MessagePayload :=
  {| Client.mp_msg := Client.st_newMessage (Client.hook w);
     Client.mp_msgFrom := user_username;
     Client.mp_msgDateTime := now |}.

(** The hook state with the selected chat, the chats list or the typed
    text replaced. *)
Definition hook_with (st : Client.HookState) (sel : option Chat) (cs : list Chat)
    (text : Client.js_string) : Client.HookState :=
  {| Client.st_showCreatePanel := Client.st_showCreatePanel st;
     Client.st_chatToCreate := Client.st_chatToCreate st;
     Client.st_selectedChat := sel;
     Client.st_chats := cs;
     Client.st_newMessage := text |}.

(** The entry [c] of the chats list after a ['newMessage'] update. *)
Definition reconciled (chat c : Chat) : Chat :=
  if decide (chat_id c = chat_id chat) then chat else c.


(** A message document as stored under the id [id]. *)
Definition stored_as (id : ObjectId) (m : Message) : Message :=
  {| msg_id := Some id; msg := msg m; msgFrom := msgFrom m;
     msgDateTime := msgDateTime m; msg_type := msg_type m |}.


(** ** Sample data *)

Definition alice : User := {| user_id := "u-alice"; username := "alice" |}.
Definition bob : User := {| user_id := "u-bob"; username := "bob" |}.

(** Two users and no chat. *)
Definition two_users : MemStore.Store :=
  {| MemStore.users := [alice; bob];
     MemStore.stored_messages := [];
     MemStore.chats := [];
     MemStore.next_oid := 0 |}.

(** Two users and the chat ["oid0"] between them. *)
Definition one_chat : MemStore.Store :=
  {| MemStore.users := [alice; bob];
     MemStore.stored_messages := [];
     MemStore.chats :=
       [{| MemStore.doc_id := "oid0";
           MemStore.doc_participants := ["u-alice"; "u-bob"];
           MemStore.doc_messages := [] |}];
     MemStore.next_oid := 1 |}.

Definition quiet {D} (d : D) : World D := {| db := d; outbox := [] |}.

(** [POST /oid0/addMessage] with [{ msg: "hello", msgFrom: "alice" }]. *)
Definition say_hello : AddMessageRequestToChat :=
  {| am_body := Some {| amb_msg := Some "hello";
                        amb_msgFrom := Some "alice";
                        amb_msgDateTime := None |};
     am_chatId := Some "oid0" |}.

(** [POST /createChat] with [{ participants: ["alice", "bob"], messages: [] }]. *)
Definition open_chat : CreateChatRequest :=
  {| cc_body := Some {| ccb_participants := IsArray ["alice"; "bob"];
                        ccb_messages := IsArray [] |} |}.


(** ** The rest of the hook and the chat card

    [handleJoinChat], [handleChatSelect], [handleUserSelect],
    [handleCreateChat], [fetchChats] and the clean-up of the effect of
    [useDirectMessage], and the names shown by [ChatsListCard].  The
    registration of the ['chatUpdate'] listener ([socket.on] /
    [socket.off]) is not part of the state. *)

Module Page.

(** A user as the client sees it: [_id] is optional. *)
Record SafeUser := { su_id : option string; su_username : string }.

(** What the client emits on its socket. *)
Inductive socket_message :=
  | EmitJoinChat (chatID : string)
  | EmitLeaveChat (chatID : string).

(** The calls of services/chatService and services/userService. *)
Inductive api_call :=
  | GetChatById (chatID : string)
  | GetUserByUsername (username : string)
  | CreateChat (participants : list string)
  | GetChatsByUser (username : string).

(** The server's answers to them (the services are not part of the
    sources at hand). *)
Record Api := {
  api_getChatById : string -> outcome Chat;
  api_getUserByUsername : string -> outcome SafeUser;
  api_createChat : list string -> outcome Chat;
  api_getChatsByUser : string -> outcome (list Chat)
}.

(** The browser with what it has emitted and called so far. *)
Record Page := {
  browser : Client.Browser;
  emitted : list socket_message;
  calls : list api_call
}.

(** A state update of the hook. *)
Definition in_browser {A} (m : M Client.Browser A) : M Page A :=
  fun p =>
    match m (browser p) with
    | (r, b) => (r, {| browser := b; emitted := emitted p; calls := calls p |})
    end.

Definition setShowCreatePanel (b : bool) : M Client.Browser unit :=
  fun w =>
    (Returned tt,
     {| Client.hook :=
          {| Client.st_showCreatePanel := b;
             Client.st_chatToCreate := Client.st_chatToCreate (Client.hook w);
             Client.st_selectedChat := Client.st_selectedChat (Client.hook w);
             Client.st_chats := Client.st_chats (Client.hook w);
             Client.st_newMessage := Client.st_newMessage (Client.hook w) |};
        Client.requests := Client.requests w |}).

Definition setChatToCreate (name : string) : M Client.Browser unit :=
  fun w =>
    (Returned tt,
     {| Client.hook :=
          {| Client.st_showCreatePanel := Client.st_showCreatePanel (Client.hook w);
             Client.st_chatToCreate := name;
             Client.st_selectedChat := Client.st_selectedChat (Client.hook w);
             Client.st_chats := Client.st_chats (Client.hook w);
             Client.st_newMessage := Client.st_newMessage (Client.hook w) |};
        Client.requests := Client.requests w |}).

(** [socket.emit(...)] on the client. *)
Definition emit (m : socket_message) : M Page unit :=
  fun p =>
    (Returned tt,
     {| browser := browser p; emitted := emitted p ++ [m]; calls := calls p |}).

(** A service call and the server's answer to it. *)
Definition call {A} (c : api_call) (answer : outcome A) : M Page A :=
  fun p =>
    (answer, {| browser := browser p; emitted := emitted p; calls := calls p ++ [c] |}).

Section Render.
Variable api : Api.
(** [socket] of the user context is not null. *)
Variable socket : bool.
(** [user] of the user context. *)
Variable user : SafeUser.
(** The state values the handlers of one render close over. *)
Variable chatToCreate : string.
Variable selectedChat : option Chat.

Definition getChatById (chatID : string) : M Page Chat :=
  call (GetChatById chatID) (api_getChatById api chatID).

Definition getUserByUsername (username : string) : M Page SafeUser :=
  call (GetUserByUsername username) (api_getUserByUsername api username).

Definition createChat (participants : list string) : M Page Chat :=
  call (CreateChat participants) (api_createChat api participants).

Definition getChatsByUser (username : string) : M Page (list Chat) :=
  call (GetChatsByUser username) (api_getChatsByUser api username).

Definition handleJoinChat (chatID : string) : M Page unit :=
  if socket then emit (EmitJoinChat chatID) else ret tt.

Definition handleChatSelect (chatID : option string) : M Page unit :=
  if negb (truthy_opt chatID) then ret tt
  else
    try_catch
      (chat <- getChatById (field chatID) ;;
       in_browser (Client.setSelectedChat (Some chat)) ;;;
       handleJoinChat (field chatID))
      (fun error => in_browser Client.console_error).

Definition handleUserSelect (selectedUser : SafeUser) : M Page unit :=
  in_browser (setChatToCreate (su_username selectedUser)).

Definition handleCreateChat : M Page unit :=
  if negb (truthy chatToCreate) || negb (truthy_opt (su_id user)) then ret tt
  else
    try_catch
      (selectedUser <- getUserByUsername chatToCreate ;;
       if negb (truthy_opt (su_id selectedUser)) then ret tt
       else
         newChat <-
           createChat [field (su_id user); toString (field (su_id selectedUser))] ;;
         in_browser (Client.setChats (fun prevChats => prevChats ++ [newChat])) ;;;
         in_browser (Client.setSelectedChat (Some newChat)) ;;;
         (if truthy_opt (chat_id newChat)
          then handleJoinChat (toString (field (chat_id newChat)))
          else ret tt) ;;;
         in_browser (setShowCreatePanel false) ;;;
         in_browser (setChatToCreate ""))
      (fun error => in_browser Client.console_error).

Definition fetchChats : M Page unit :=
  try_catch
    (userChats <- getChatsByUser (su_username user) ;;
     in_browser (Client.setChats (fun _ => userChats)))
    (fun error =>
       in_browser Client.console_error ;;;
       in_browser (Client.setChats (fun _ => []))).

(** The function the effect returns. *)
Definition cleanup : M Page unit :=
  if socket then
    if truthy_opt (selectedChat ≫= chat_id)
    then emit (EmitLeaveChat (toString (field (selectedChat ≫= chat_id))))
    else ret tt
  else ret tt.

End Render.

(** The handlers of the render of the current state. *)
Definition select (api : Api) (socket : bool) (chatID : option string) (p : Page)
  : outcome unit * Page :=
  handleChatSelect api socket chatID p.

Definition create (api : Api) (socket : bool) (user : SafeUser) (p : Page)
  : outcome unit * Page :=
  handleCreateChat api socket user
    (Client.st_chatToCreate (Client.hook (browser p))) p.

Definition unmount (socket : bool) (p : Page) : outcome unit * Page :=
  cleanup socket (Client.st_selectedChat (Client.hook (browser p))) p.

(** A ['chatUpdate'] event arriving at the page. *)
Definition on_chatUpdate (chatUpdate : ChatUpdatePayload) (p : Page)
  : outcome unit * Page :=
  in_browser (Client.receive chatUpdate) p.

(** What the client's emissions are to the socket server, for the
    socket [sid]. *)
Definition as_client_event (sid : string) (m : socket_message) : client_event :=
  match m with
  | EmitJoinChat chatID => JoinChat sid chatID
  | EmitLeaveChat chatID => LeaveChat sid (Some chatID)
  end.

(** *** components/.../chatsListCard *)

(** A message as the card reads it: [message.user]. *)
Record CardMessage := { card_user : option SafeUser }.

(** [array.indexOf(x)], with [-1] for an absent element. *)
Fixpoint indexOf (x : option string) (array : list (option string)) : Z :=
  match array with
  | [] => (-1)%Z
  | y :: rest =>
      if bool_decide (x = y) then 0%Z
      else let i := indexOf x rest in if (i =? -1)%Z then (-1)%Z else (i + 1)%Z
  end.

(** [array.filter((element, index, array) => f(element, index, array))] *)
Definition filter_indexed {A} (f : A -> Z -> list A -> bool) (array : list A) : list A :=
  omap (fun '(index, element) =>
          if f element (Z.of_nat index) array then Some element else None)
       (imap pair array).

(** [array.join(separator)]: an undefined element gives the empty string. *)
Definition join (separator : string) (array : list (option string)) : string :=
  String.concat separator (map (default "") array).

(** [message.user?.username] of every message. *)
Definition card_usernames (ms : list CardMessage) : list (option string) :=
  map (fun message => su_username <$> card_user message) ms.

(** The names kept by the filter. *)
Definition card_names (ms : list CardMessage) : list (option string) :=
  filter_indexed
    (fun username index array =>
       truthy_opt username && (indexOf username array =? index)%Z)
    (card_usernames ms).

Definition participantNames (ms : list CardMessage) : string :=
  join ", " (card_names ms).

End Page.


(** ** Further vocabulary *)

(** The statuses a chat route answers with. *)
Definition answered (resp : HttpResponse) : Prop :=
  status resp = 200 \/ status resp = 400 \/ status resp = 500.

(** The shapes of an add-participant request that validation refuses. *)
Definition invalid_add_participant (req : AddParticipantRequest) : Prop :=
  ap_body req = None
  \/ (exists body, ap_body req = Some body /\ apb_participantId body = None)
  \/ ap_chatId req = None
  \/ ap_chatId req = Some "".

(** A route parameter that is missing or empty. *)
Definition missing (param : option string) : Prop := param = None \/ param = Some "".

(** The chats [getChatsByParticipants] is after: every named user's id
    is among the participants. *)
Definition includes_all (s : MemStore.Store) (p : list string) (d : MemStore.ChatDoc)
  : bool :=
  forallb (fun name => bool_decide (resolve s name ∈ MemStore.doc_participants d)) p.


(** The store after the message [m] has been inserted. *)
Definition with_message (s : MemStore.Store) (m : Message) : MemStore.Store :=
  {| MemStore.users := MemStore.users s;
     MemStore.stored_messages := MemStore.stored_messages s ++ [m];
     MemStore.chats := MemStore.chats s;
     MemStore.next_oid := S (MemStore.next_oid s) |}.

(** The message document an add-message request creates in [s]. *)
Definition new_message (now : Date) (req : AddMessageRequestToChat) (s : MemStore.Store)
  : Message :=
  stored_as (MemStore.oid (MemStore.next_oid s)) (direct_message now req).

(** The store after the message [id] has been added to the chat
    [chatId]. *)
Definition with_reference (s : MemStore.Store) (chatId id : string) : MemStore.Store :=
  MemStore.with_chats s
    (MemStore.update_first chatId (MemStore.push_message id) (MemStore.chats s)).

(** The documents stored for the messages [ms] when the driver's next
    id is number [n]. *)
Fixpoint stored_from (n : nat) (ms : list Message) : list Message :=
  match ms with
  | [] => []
  | m :: ms' => stored_as (MemStore.oid n) m :: stored_from (S n) ms'
  end.

(** The store after the messages [ms] have been inserted. *)
Definition with_messages (s : MemStore.Store) (ms : list Message) : MemStore.Store :=
  {| MemStore.users := MemStore.users s;
     MemStore.stored_messages :=
       MemStore.stored_messages s ++ stored_from (MemStore.next_oid s) ms;
     MemStore.chats := MemStore.chats s;
     MemStore.next_oid := MemStore.next_oid s + length ms |}.

(** What [filter_indexed] keeps of [l], the part of the array that
    starts at index [k]. *)
Fixpoint kept_from {A} (f : A -> Z -> bool) (k : nat) (l : list A) : list A :=
  match l with
  | [] => []
  | x :: l' => (if f x (Z.of_nat k) then [x] else []) ++ kept_from f (S k) l'
  end.

(** The socket server after the socket [sid] has connected and has sent
    what the page has emitted. *)
Definition server_sockets (sid : string) (p : Page.Page) : gmap string (gset string) :=
  sockets_after (Connect sid :: map (Page.as_client_event sid) (Page.emitted p)).

(** [handleCreateChat] gets as far as a new chat: there is a name to
    create a chat with, both users have an id, and the server answers
    both calls. *)
Definition can_create (api : Page.Api) (user : Page.SafeUser) (name : string)
    (participants : list string) (newChat : Chat) : Prop :=
  truthy name = true
  /\ exists mine other theirs,
       Page.su_id user = Some mine /\ truthy mine = true
       /\ Page.api_getUserByUsername api name = Returned other
       /\ Page.su_id other = Some theirs /\ truthy theirs = true
       /\ participants = [mine; theirs]
       /\ Page.api_createChat api participants = Returned newChat.

(** The hook state of a page. *)
Definition hook_of (p : Page.Page) : Client.HookState := Client.hook (Page.browser p).

(** The update the server broadcasts for a new chat. *)
Definition created (chat : Chat) : ChatUpdatePayload :=
  {| cu_chat := chat; cu_type := "created" |}.

(** Nothing but the hook state, what was emitted and what was called
    can differ: the add-message requests sent and the text being typed
    are those of [p]. *)
Definition keeps_draft (p p' : Page.Page) : Prop :=
  Client.requests (Page.browser p') = Client.requests (Page.browser p)
  /\ Client.st_newMessage (hook_of p') = Client.st_newMessage (hook_of p).

(** ** Sample page

    alice's page with the create panel open and bob chosen; a server
    that knows bob and the chat ["oid0"], and creates the chat
    ["oid1"]. *)
Definition alice_user : Page.SafeUser :=
  {| Page.su_id := Some "u-alice"; Page.su_username := "alice" |}.

Definition alice_page : Page.Page :=
  {| Page.browser :=
       {| Client.hook := {| Client.st_showCreatePanel := true;
                            Client.st_chatToCreate := "bob";
                            Client.st_selectedChat := None;
                            Client.st_chats := [];
                            Client.st_newMessage := [] |};
          Client.requests := [] |};
     Page.emitted := [];
     Page.calls := [] |}.

Definition sample_api : Page.Api :=
  {| Page.api_getChatById := fun chatID =>
       if bool_decide (chatID = "oid0")
       then Returned {| chat_id := Some "oid0"; participants := ["u-alice"; "u-bob"];
                        messages := [] |}
       else Threw (Error "Request failed with status code 500");
     Page.api_getUserByUsername := fun name =>
       if bool_decide (name = "bob")
       then Returned {| Page.su_id := Some "u-bob"; Page.su_username := "bob" |}
       else Threw (Error "Error when fetching user");
     Page.api_createChat := fun participants =>
       Returned {| chat_id := Some "oid1"; participants := participants; messages := [] |};
     Page.api_getChatsByUser := fun _ => Returned [] |}.

(** Every chat of [chats] populated, one after the other from the
    database [d] on: the populated chats and the database after them,
    or nothing when [populateDocument] throws or returns an error for
    one of them. *)
Fixpoint populated_each {D} `{!Models D} (chats : list Chat) (d : D)
  : option (list Chat * D) :=
  match chats with
  | [] => Some ([], d)
  | chat :: rest =>
      match populateDocument (chat_id chat) "chat" d with
      | (Returned (Doc populated), d') =>
          match populated_each rest d' with
          | Some (l, d'') => Some (populated :: l, d'')
          | None => None
          end
      | _ => None
      end
  end.

(** ** More sample data *)






(** ** Proof automation *)

(** Run a route symbolically down to the calls it makes. *)
Ltac run :=
  unfold try_catch, bind, await, ret, throw, res_send, res_json, res_json_list,
    socket_emit, socket_to_emit, emit_to, server_error, bad_request, chat_update,
    toString in *;
  simpl in *;
  change (fun x : string => x) with (@id string) in *;
  rewrite ?option_fmap_id.

(** Case analysis on what a call returned. *)
Ltac by_cases c :=
  change (fun x : string => x) with (@id string) in *;
  rewrite ?option_fmap_id;
  destruct c as [[[?|?]|?] ?] eqn:?; simpl in *; simplify_eq; try done.

(** Close a goal "the route answers [resp], and [resp] is such and such". *)
Ltac answer :=
  do 2 eexists; split; [reflexivity|];
  first [ split; [unfold answered; simpl; auto|try done]
        | unfold answered; simpl; auto ].


(** * Proofs *)

Arguments MemStore.oid : simpl never.

(** An error with a message renders as its name and its message. *)
Lemma exn_to_string_Error (m : string) :
  m <> "" -> exn_to_string (Error m) = "Error: " +:+ m.
Proof. by destruct m. Qed.

Lemma fmap_toString (o : option string) : (fun x : string => x) <$> o = o.
Proof. by destruct o. Qed.

(** ** Control flow *)

Lemma for_of_app {S A B} (l1 l2 : list A) (acc : B) (body : B -> A -> M S B) s :
  for_of (l1 ++ l2) acc body s =
    (acc' <- for_of l1 acc body ;; for_of l2 acc' body) s.
Proof.
  revert acc s. induction l1 as [|x l1 IH]; intros acc s; simpl; [done|].
  unfold bind in *. destruct (body acc x s) as [[a|e] s']; [apply IH|done].
Qed.

(** A [try { ... } catch (error) { return h(error) }] never throws. *)
Lemma try_catch_returns {S A} (body : M S A) (h : exn -> A) s :
  exists a s', try_catch body (fun e => ret (h e)) s = (Returned a, s').
Proof. unfold try_catch, ret. destruct (body s) as [[?|?] ?]; eauto. Qed.

Section Generic.
Context {D : Type} `{!Models D}.

(** ** The services never throw *)

Lemma saveChat_returns p (d : D) : exists r d', saveChat p d = (Returned r, d').
Proof. apply try_catch_returns. Qed.

Lemma createMessage_returns m (d : D) :
  exists r d', createMessage m d = (Returned r, d').
Proof. apply try_catch_returns. Qed.

Lemma addMessageToChat_returns c m (d : D) :
  exists r d', addMessageToChat c m d = (Returned r, d').
Proof. apply try_catch_returns. Qed.

Lemma getChat_returns c (d : D) : exists r d', getChat c d = (Returned r, d').
Proof. apply try_catch_returns. Qed.


Lemma addParticipantToChat_returns c u (d : D) :
  exists r d', addParticipantToChat c u d = (Returned r, d').
Proof. apply try_catch_returns. Qed.

(** The error values of the services are not empty: each starts with
    the name of what failed. *)
Lemma saveChat_error p (d : D) error d' :
  saveChat p d = (Returned (ErrorResponse error), d') -> error <> "".
Proof.
  unfold saveChat, try_catch, bind, ret, throw. intros H.
  repeat case_match; simplify_eq; done.
Qed.

Lemma addParticipantToChat_error c u (d : D) error d' :
  addParticipantToChat c u d = (Returned (ErrorResponse error), d') -> error <> "".
Proof.
  unfold addParticipantToChat, try_catch, bind, ret, throw. intros H.
  repeat case_match; simplify_eq; done.
Qed.

(** ** Failing calls, route by route *)

Lemma createChatRoute_failure req (w : World D) reason :
  isCreateChatRequestValid req = true ->
  (failure (saveChat (cc_payload req) (db w)).1 = Some reason
   \/ exists chat d1,
        saveChat (cc_payload req) (db w) = (Returned (Doc chat), d1)
        /\ failure (populateDocument (chat_id chat) "chat" d1).1 = Some reason) ->
  (createChatRoute req w).1 =
    Returned (server_error "Error when creating chat: " reason).
Proof.
  intros Hv Hf. unfold createChatRoute. rewrite Hv. run.
  destruct Hf as [Hf | (chat & d1 & Hs & Hf)].
  - by_cases (saveChat (cc_payload req) (db w)).
  - rewrite Hs. simpl.
    by_cases (populateDocument (chat_id chat) "chat" d1).
Qed.

Lemma addMessageToChatRoute_failure now req (w : World D) reason :
  isAddMessageRequestValid req = true ->
  (failure (createMessage (direct_message now req) (db w)).1 = Some reason
   \/ (exists created d1,
         createMessage (direct_message now req) (db w) = (Returned (Doc created), d1)
         /\ msg_id created = None /\ reason = "Error: Created message missing ID")
   \/ (exists created id d1,
         createMessage (direct_message now req) (db w) = (Returned (Doc created), d1)
         /\ msg_id created = Some id
         /\ (failure (addMessageToChat (field (am_chatId req)) id d1).1 = Some reason
             \/ exists chat d2,
                  addMessageToChat (field (am_chatId req)) id d1
                    = (Returned (Doc chat), d2)
                  /\ failure (populateDocument (chat_id chat) "chat" d2).1
                     = Some reason))) ->
  (addMessageToChatRoute now req w).1 =
    Returned (server_error "Error when adding message to chat: " reason).
Proof.
  intros Hv Hf. unfold addMessageToChatRoute. rewrite Hv. run.
  change (createMessage _ (db w)) with (createMessage (direct_message now req) (db w)).
  destruct Hf as [Hf | [(cm & d1 & Hc & Hid & ->) | (cm & id & d1 & Hc & Hid & Hf)]].
  - by_cases (createMessage (direct_message now req) (db w)).
  - rewrite Hc. simpl. by rewrite Hid.
  - rewrite Hc. simpl. rewrite Hid. simpl.
    destruct Hf as [Hf | (chat & d2 & Ha & Hf)].
    + by_cases (addMessageToChat (field (am_chatId req)) id d1).
    + rewrite Ha. simpl.
      by_cases (populateDocument (chat_id chat) "chat" d2).
Qed.

Lemma getChatRoute_failure req (w : World D) reason :
  truthy_opt (ci_chatId req) = true ->
  (failure (getChat (field (ci_chatId req)) (db w)).1 = Some reason
   \/ exists chat d1,
        getChat (field (ci_chatId req)) (db w) = (Returned (Doc chat), d1)
        /\ failure (populateDocument (chat_id chat) "chat" d1).1 = Some reason) ->
  (getChatRoute req w).1 =
    Returned (server_error "Error when retrieving chat: " reason).
Proof.
  intros Hv Hf. unfold getChatRoute. rewrite Hv. run.
  destruct Hf as [Hf | (chat & d1 & Hs & Hf)].
  - by_cases (getChat (field (ci_chatId req)) (db w)).
  - rewrite Hs. simpl.
    by_cases (populateDocument (chat_id chat) "chat" d1).
Qed.

Lemma populate_into_failure acc chat (w : World D) reason :
  failure (populateDocument (chat_id chat) "chat" (db w)).1 = Some reason ->
  (populate_into acc chat w).1 = Threw (Error "Failed populating chats").
Proof.
  intros Hf. unfold populate_into. run.
  by_cases (populateDocument (chat_id chat) "chat" (db w)).
Qed.

Lemma getChatsByUserRoute_failure req (w : World D) reason before chat after d1 acc w2 :
  truthy_opt (gc_username req) = true ->
  getChatsByParticipants [field (gc_username req)] (db w)
    = (Returned (before ++ chat :: after), d1) ->
  for_of before [] populate_into {| db := d1; outbox := outbox w |}
    = (Returned acc, w2) ->
  failure (populateDocument (chat_id chat) "chat" (db w2)).1 = Some reason ->
  (getChatsByUserRoute req w).1 =
    Returned (server_error "Error retrieving chat: " "Error: Failed populating chats").
Proof.
  intros Hv Hg Hb Hf. unfold getChatsByUserRoute. rewrite Hv.
  unfold try_catch at 1. unfold bind at 1. unfold await at 1. simpl. rewrite Hg.
  unfold bind at 1. rewrite for_of_app. unfold bind at 1. rewrite Hb. simpl.
  unfold bind at 1. apply (populate_into_failure acc) in Hf.
  destruct (populate_into acc chat w2) as [r w3]. simpl in Hf. by subst r.
Qed.

Lemma addParticipantToChatRoute_failure req (w : World D) reason :
  isAddParticipantRequestValid req = true ->
  failure (addParticipantToChat (field (ap_chatId req))
             (field (apb_participantId
                       (default (Build_AddParticipantBody None) (ap_body req))))
             (db w)).1 = Some reason ->
  (addParticipantToChatRoute req w).1 =
    Returned (server_error "Error when adding participant to chat: " reason).
Proof.
  intros Hv Hf. unfold addParticipantToChatRoute. rewrite Hv. run.
  by_cases (addParticipantToChat (field (ap_chatId req))
              (field (apb_participantId
                        (default (Build_AddParticipantBody None) (ap_body req))))
              (db w)).
Qed.

End Generic.

(** ** Request validation *)

Lemma isCreateChatRequestValid_false req :
  isCreateChatRequestValid req = false <-> invalid_create_chat req.
Proof.
  unfold isCreateChatRequestValid, invalid_create_chat.
  destruct (cc_body req) as [[ps ms]|]; simpl; [|by split; [left|]].
  split.
  - intros Hv. right. eexists. split; [done|]. simpl.
    destruct ps as [| |[|p ps]], ms; simpl in Hv; try discriminate; tauto.
  - intros [?|(b & Hb' & Hb)]; [done|]. injection Hb' as <-. simpl in Hb.
    destruct Hb as [-> | [-> | [-> | [-> | ->]]]]; simpl; try done;
      by rewrite ?andb_false_r.
Qed.

Lemma isAddMessageRequestValid_false req :
  isAddMessageRequestValid req = false <-> invalid_add_message req.
Proof.
  unfold isAddMessageRequestValid, invalid_add_message.
  destruct req as [[[m f dt]|] c]; simpl; [|by split; [left|]].
  rewrite !andb_false_iff, !bool_decide_eq_false. split.
  - intros [[[[H|H]|H]|H]|H].
    + right; left. eexists. split; [done|]. simpl. left. by destruct m; [destruct H|].
    + right; left. eexists. split; [done|]. simpl. right; left.
      destruct (decide (m = Some "")); [done|by destruct H].
    + right; left. eexists. split; [done|]. simpl. right; right.
      by destruct f; [destruct H|].
    + right; right; left. by destruct c; [destruct H|].
    + right; right; right. destruct (decide (c = Some "")); [done|by destruct H].
  - intros [?|[(b & Hb' & Hb) | [-> | ->]]]; [done| |naive_solver..].
    injection Hb' as <-. simpl in Hb. destruct Hb as [-> | [-> | ->]]; naive_solver.
Qed.

Lemma valid_or_invalid_create_chat req :
  isCreateChatRequestValid req = true <-> ~ invalid_create_chat req.
Proof.
  rewrite <- isCreateChatRequestValid_false. by destruct (isCreateChatRequestValid req).
Qed.

Lemma valid_or_invalid_add_message req :
  isAddMessageRequestValid req = true <-> ~ invalid_add_message req.
Proof.
  rewrite <- isAddMessageRequestValid_false. by destruct (isAddMessageRequestValid req).
Qed.

Section Routes.
Context {D : Type} `{!Models D}.

(** ** What the create-chat and add-message routes do *)

Lemma createChatRoute_invalid req (w : World D) :
  isCreateChatRequestValid req = false ->
  createChatRoute req w = (Returned (bad_request "Invalid chat request body"), w).
Proof. intros Hv. unfold createChatRoute. by rewrite Hv. Qed.

Lemma createChatRoute_valid req (w : World D) :
  isCreateChatRequestValid req = true ->
  exists result d1,
    saveChat (cc_payload req) (db w) = (Returned result, d1)
    /\ match result with
       | ErrorResponse error =>
           createChatRoute req w =
             (Returned (server_error "Error when creating chat: "
                          ("Error: " +:+ error)),
              {| db := d1; outbox := outbox w |})
       | Doc chat =>
           match populateDocument (chat_id chat) "chat" d1 with
           | (Returned (Doc populated), d2) =>
               createChatRoute req w =
                 (Returned {| status := 200; sent := Json populated |},
                  {| db := d2;
                     outbox := outbox w
                               ++ [chat_update AllSockets populated "created"] |})
           | (r, d2) =>
               exists reason,
                 failure r = Some reason
                 /\ createChatRoute req w =
                      (Returned (server_error "Error when creating chat: " reason),
                       {| db := d2; outbox := outbox w |})
           end
       end.
Proof.
  intros Hv. destruct (saveChat_returns (cc_payload req) (db w)) as (r & d1 & Hs).
  exists r, d1. split; [done|]. unfold createChatRoute. rewrite Hv. run. rewrite Hs. simpl.
  destruct r as [chat|e]; simpl;
    [|by rewrite (exn_to_string_Error e) by apply (saveChat_error _ _ _ _ Hs)].
  rewrite fmap_toString.
  destruct (populateDocument (chat_id chat) "chat" d1) as [[[p|e]|x] d2]; simpl;
    [done | by eexists..].
Qed.

Lemma createChatRoute_emits req (w : World D) :
  exists resp w',
    createChatRoute req w = (Returned resp, w')
    /\ ((status resp = 200
         /\ exists chat, sent resp = Json chat
              /\ outbox w' = outbox w ++ [chat_update AllSockets chat "created"])
        \/ (status resp <> 200 /\ outbox w' = outbox w)).
Proof.
  destruct (isCreateChatRequestValid req) eqn:Hv.
  - destruct (createChatRoute_valid req w Hv) as (r & d1 & Hs & Hr).
    destruct r as [chat|e]; [|by rewrite Hr; do 2 eexists; split; [done|right]].
    destruct (populateDocument (chat_id chat) "chat" d1) as [[[p|e]|x] d2].
    + rewrite Hr. do 2 eexists. split; [done|]. left. split; [done|]. by exists p.
    + destruct Hr as (? & _ & ->). by do 2 eexists; split; [done|right].
    + destruct Hr as (? & _ & ->). by do 2 eexists; split; [done|right].
  - rewrite createChatRoute_invalid by done. by do 2 eexists; split; [done|right].
Qed.

Lemma addMessageToChatRoute_invalid now req (w : World D) :
  isAddMessageRequestValid req = false ->
  addMessageToChatRoute now req w
    = (Returned (bad_request "Invalid message request body"), w).
Proof. intros Hv. unfold addMessageToChatRoute. by rewrite Hv. Qed.

Lemma addMessageToChatRoute_valid now req (w : World D) :
  isAddMessageRequestValid req = true ->
  exists result d1,
    createMessage (direct_message now req) (db w) = (Returned result, d1)
    /\ exists resp w',
         addMessageToChatRoute now req w = (Returned resp, w')
         /\ ((status resp = 500 /\ outbox w' = outbox w
              /\ exists reason,
                   sent resp = Text ("Error when adding message to chat: " +:+ reason))
             \/ exists created id chat d2 populated,
                  result = Doc created /\ msg_id created = Some id
                  /\ addMessageToChat (field (am_chatId req)) id d1
                     = (Returned (Doc chat), d2)
                  /\ populateDocument (chat_id chat) "chat" d2
                     = (Returned (Doc populated), db w')
                  /\ resp = {| status := 200; sent := Json chat |}
                  /\ outbox w' =
                       outbox w
                       ++ [chat_update (Room (field (am_chatId req))) chat "newMessage"]).
Proof.
  intros Hv.
  destruct (createMessage_returns (direct_message now req) (db w)) as (r & d1 & Hs).
  exists r, d1. split; [done|]. unfold addMessageToChatRoute. rewrite Hv. run.
  change (createMessage _ (db w)) with (createMessage (direct_message now req) (db w)).
  rewrite Hs. simpl.
  destruct r as [cm|e]; simpl; [|by eauto 10].
  destruct (msg_id cm) as [id|] eqn:Hid; simpl; [|by eauto 10].
  destruct (addMessageToChat (field (am_chatId req)) id d1) as [[[chat|e]|x] d2] eqn:Ha;
    simpl; [|by eauto 10..].
  rewrite ?fmap_toString.
  destruct (populateDocument (chat_id chat) "chat" d2) as [[[p|e]|x] d3] eqn:Hp;
    simpl; [|by eauto 10..].
  do 2 eexists. split; [done|]. right. exists cm, id, chat, d2, p. simpl. by rewrite Hp.
Qed.

Lemma addMessageToChatRoute_emits now req (w : World D) :
  exists resp w',
    addMessageToChatRoute now req w = (Returned resp, w')
    /\ ((status resp = 200
         /\ exists chat, sent resp = Json chat
              /\ outbox w' =
                   outbox w
                   ++ [chat_update (Room (field (am_chatId req))) chat "newMessage"])
        \/ (status resp <> 200 /\ outbox w' = outbox w)).
Proof.
  destruct (isAddMessageRequestValid req) eqn:Hv.
  - destruct (addMessageToChatRoute_valid now req w Hv)
      as (r & d1 & _ & resp & w' & Hr & Hcase).
    exists resp, w'. split; [done|].
    destruct Hcase as [(Hst & Hout & _) | (cm & id & chat & d2 & p & _ & _ & _ & _ & -> & Hout)].
    + right. split; [by rewrite Hst|done].
    + left. split; [done|]. by exists chat.
  - rewrite addMessageToChatRoute_invalid by done. by do 2 eexists; split; [done|right].
Qed.

End Routes.

(** ** Rooms *)

Lemma receives_all io sid chat type :
  receives io sid (chat_update AllSockets chat type) = true <-> is_Some (io !! sid).
Proof.
  unfold receives. by destruct (io !! sid); simpl; split; try done; intros [? ?].
Qed.

Lemma receives_room io sid room chat type :
  receives io sid (chat_update (Room room) chat type) = true
  <-> exists rooms, io !! sid = Some rooms /\ room ∈ rooms.
Proof.
  unfold receives. destruct (io !! sid) as [rooms|]; simpl.
  - rewrite bool_decide_eq_true. split; [by exists rooms|]. by intros (? & [= <-] & ?).
  - split; [done|]. by intros (? & ? & ?).
Qed.

(** A socket is in a room only if it is its own room or it has asked to
    join it with a non-empty chat id. *)
Lemma rooms_come_from_joinChat evs sid rooms room :
  sockets_after evs !! sid = Some rooms -> room ∈ rooms ->
  room = sid \/ (JoinChat sid room ∈ evs /\ truthy room = true).
Proof.
  unfold sockets_after. revert rooms.
  induction evs as [|ev evs IH] using rev_ind; intros rooms; simpl.
  - by rewrite lookup_empty.
  - rewrite foldl_app. simpl.
    assert (Hweak : forall rs, foldl socket_step ∅ evs !! sid = Some rs -> room ∈ rs ->
              room = sid \/ (JoinChat sid room ∈ evs ++ [ev] /\ truthy room = true)).
    { intros rs Hrs Hin. destruct (IH rs Hrs Hin) as [?|[? ?]]; [by left|right].
      split; [|done]. apply elem_of_app. by left. }
    destruct ev as [s|s c|s c|s]; simpl.
    + destruct (decide (s = sid)) as [->|Hne].
      * rewrite lookup_insert_eq. intros [= <-] Hin. left. by apply elem_of_singleton in Hin.
      * rewrite lookup_insert_ne by done. exact (Hweak rooms).
    + destruct (decide (s = sid)) as [->|Hne];
        [|rewrite lookup_alter_ne by done; exact (Hweak rooms)].
      rewrite lookup_alter_eq. destruct (foldl socket_step ∅ evs !! sid) as [rs|] eqn:E;
        simpl; [|done].
      intros [= <-]. unfold on_joinChat. destruct (truthy c) eqn:Ht; [|by apply Hweak].
      intros [Hin|Hin]%elem_of_union; [|by apply (Hweak rs)].
      apply elem_of_singleton in Hin as ->. right. split; [|done].
      apply elem_of_app. right. by left.
    + destruct (decide (s = sid)) as [->|Hne];
        [|rewrite lookup_alter_ne by done; exact (Hweak rooms)].
      rewrite lookup_alter_eq. destruct (foldl socket_step ∅ evs !! sid) as [rs|] eqn:E;
        simpl; [|done].
      intros [= <-]. unfold on_leaveChat. destruct c as [c|]; [|by apply Hweak].
      destruct (truthy c); [|by apply Hweak].
      intros [Hin _]%elem_of_difference. by apply (Hweak rs).
    + destruct (decide (s = sid)) as [->|Hne].
      * by rewrite lookup_delete_eq.
      * rewrite lookup_delete_ne by done. exact (Hweak rooms).
Qed.

(** Joining with a non-empty chat id puts a connected socket in the
    room; an empty chat id is ignored. *)
Lemma joinChat_joins io sid rooms chatId :
  io !! sid = Some rooms ->
  socket_step io (JoinChat sid chatId) !! sid
    = Some (if truthy chatId then {[chatId]} ∪ rooms else rooms).
Proof. intros H. simpl. by rewrite lookup_alter_eq, H. Qed.

(** ** The chat service on the in-memory store *)

Import MemStore.

Lemma with_chats_same s : with_chats s (chats s) = s.
Proof. by destruct s. Qed.

Lemma oid_inj n m : oid n = oid m -> n = m.
Proof.
  unfold oid. intros H. cbn [String.append] in H. injection H as H.
  change (NilEmpty.string_of_uint (Nat.to_uint n)
          = NilEmpty.string_of_uint (Nat.to_uint m)) in H.
  apply (f_equal NilEmpty.uint_of_string) in H. rewrite !NilEmpty.usu in H.
  injection H as H. by apply Unsigned.to_uint_inj.
Qed.

Lemma fresh_initial : fresh initial.
Proof. intros n _. simpl. split; apply not_elem_of_nil. Qed.

(** The first loop of [saveChat] only reads: it resolves every
    participant. *)
Lemma save_participants_loop (s : Store) ps acc :
  for_of ps acc
    (fun participantIds participant =>
       user <- UserModel_findOne (toString participant) ;;
       match user with
       | Some user => ret (participantIds ++ [user_id user])
       | None => ret (participantIds ++ [participant])
       end) s
  = (Returned (acc ++ map (resolve s) ps), s).
Proof.
  revert acc. induction ps as [|p ps IH]; intros acc; simpl.
  - by rewrite app_nil_r.
  - unfold bind at 1. simpl. unfold bind at 1. simpl. unfold toString, resolve at 1.
    destruct (find_user_by_username s p) eqn:E; simpl;
      (etrans; [apply IH|]); by rewrite <- app_assoc.
Qed.

Lemma create_message_frame m s r s' :
  create_message m s = (r, s') -> users s' = users s /\ chats s' = chats s.
Proof.
  unfold create_message. destruct (bool_decide _); intros [= <- <-]; by split.
Qed.

Lemma save_messages_loop (s : Store) ms acc r s' :
  for_of ms acc
    (fun messageIds messageData =>
       message <- MessageModel_create messageData ;;
       match message with
       | None => throw (Error "Failed to create message")
       | Some message => ret (messageIds ++ [msg_id message])
       end) s = (r, s') ->
  users s' = users s /\ chats s' = chats s.
Proof.
  revert acc s. induction ms as [|m ms IH]; intros acc s; simpl.
  - intros [= <- <-]. by split.
  - unfold bind at 1. simpl. unfold bind at 1.
    destruct (create_message m s) as [[[m'|]|e] s1] eqn:E;
      destruct (create_message_frame _ _ _ _ E) as [Eu Ec]; unfold throw, ret; simpl.
    + intros H. apply IH in H. destruct H. split; congruence.
    + intros [= <- <-]. by split.
    + intros [= <- <-]. by split.
Qed.

Lemma find_new_chat (l : list ChatDoc) (d : ChatDoc) (i : ObjectId) :
  (i ∉ map doc_id l) -> doc_id d = i ->
  List.find (fun c => bool_decide (doc_id c = i)) (l ++ [d]) = Some d.
Proof.
  induction l as [|c l IH]; simpl; intros Hn Hd.
  - by rewrite bool_decide_eq_true_2.
  - apply not_elem_of_cons in Hn as [Hc Hn].
    rewrite bool_decide_eq_false_2 by done. by apply IH.
Qed.

(** A chat returned by [saveChat] is the populated view of a document
    that was appended to the collection, with the resolved participants. *)
Lemma saveChat_result (s : Store) payload chat s' :
  saveChat payload s = (Returned (Doc chat), s') ->
  exists doc,
    chats s' = chats s ++ [doc]
    /\ users s' = users s
    /\ doc_participants doc = map (resolve s) (cp_participants payload)
    /\ (doc_id doc ∉ map doc_id (chats s))
    /\ chat = populate s' doc.
Proof.
  unfold saveChat. unfold try_catch. unfold bind at 1.
  rewrite save_participants_loop. simpl. unfold bind at 1.
  match goal with |- context [for_of ?ms ?acc ?b s] =>
    destruct (for_of ms acc b s) as [[ids|e] s1] eqn:E;
    destruct (save_messages_loop _ _ _ _ _ E) as [Eu Ec]
  end; [|by unfold ret].
  unfold bind at 1. simpl. unfold create_chat.
  destruct (bool_decide _) eqn:Hdup; [by unfold ret|].
  apply bool_decide_eq_false in Hdup. unfold bind. simpl. rewrite Ec.
  set (doc := {| doc_id := oid (next_oid s1); doc_participants := _; doc_messages := _ |}).
  unfold find_chat. simpl.
  rewrite (find_new_chat (chats s) doc) by (done || by rewrite Ec in Hdup). simpl. unfold ret.
  intros [= <- <-]. exists doc. simpl. repeat split; try done. by rewrite <- Ec.
Qed.

Lemma create_message_fresh (s : Store) m :
  fresh s -> msg_id m = None ->
  exists doc s', create_message m s = (Returned (Some doc), s') /\ fresh s'.
Proof.
  intros Hf Hm. unfold create_message. rewrite Hm. simpl.
  destruct (Hf (next_oid s)) as [Hn _]; [done|].
  rewrite bool_decide_eq_false_2 by done.
  do 2 eexists. split; [done|].
  intros n Hle. simpl in *. destruct (Hf n) as [H1 H2]; [lia|]. split; [|done].
  rewrite map_app. simpl. intros [Hin|Hin]%elem_of_app; [done|].
  apply list_elem_of_singleton in Hin.
  assert (E : oid n = oid (next_oid s)) by congruence. apply oid_inj in E. lia.
Qed.

Lemma save_messages_loop_fresh (s : Store) ms acc :
  fresh s -> Forall (fun m => msg_id m = None) ms ->
  exists ids s',
    for_of ms acc
      (fun messageIds messageData =>
         message <- MessageModel_create messageData ;;
         match message with
         | None => throw (Error "Failed to create message")
         | Some message => ret (messageIds ++ [msg_id message])
         end) s = (Returned ids, s')
    /\ fresh s'.
Proof.
  intros Hf Hms. revert acc s Hf.
  induction Hms as [|m ms Hm Hms IH]; intros acc s Hf; simpl.
  - by exists acc, s.
  - destruct (create_message_fresh s m Hf Hm) as (doc & s1 & Hc & Hf1).
    unfold bind at 1. simpl. unfold bind at 1. rewrite Hc. simpl.
    apply (IH _ _ Hf1).
Qed.

(** On a database whose generated ids are fresh, [saveChat] succeeds for
    messages that carry no id of their own. *)
Lemma saveChat_saves (s : Store) payload :
  fresh s -> Forall (fun m => msg_id m = None) (cp_messages payload) ->
  exists chat s', saveChat payload s = (Returned (Doc chat), s').
Proof.
  intros Hf Hms. unfold saveChat. unfold try_catch. unfold bind at 1.
  rewrite save_participants_loop. cbv beta iota zeta. unfold bind at 1.
  destruct (save_messages_loop_fresh s (cp_messages payload) [] Hf Hms)
    as (ids & s1 & Hloop & Hf1).
  rewrite Hloop. unfold bind at 1. simpl. unfold create_chat.
  destruct (Hf1 (next_oid s1)) as [_ Hn]; [done|].
  rewrite bool_decide_eq_false_2 by done. unfold bind. simpl.
  set (doc := {| doc_id := oid (next_oid s1); doc_participants := _; doc_messages := _ |}).
  unfold find_chat. simpl.
  rewrite (find_new_chat (chats s1) doc) by done. simpl. unfold ret. by do 2 eexists.
Qed.

Lemma createMessage_run (s : Store) m :
  msg_id m = None ->
  createMessage m s =
    if bool_decide (Some (oid (next_oid s)) ∈ map msg_id (stored_messages s)) then
      (Returned (ErrorResponse
         ("Error occurred when creating message: " +:+ exn_to_string duplicate_key)), s)
    else
      (Returned (Doc (stored_as (oid (next_oid s)) m)),
       {| users := users s;
          stored_messages := stored_messages s ++ [stored_as (oid (next_oid s)) m];
          chats := chats s;
          next_oid := S (next_oid s) |}).
Proof.
  intros Hm. unfold createMessage, try_catch, bind. simpl. unfold create_message.
  rewrite Hm. simpl. by destruct (bool_decide _).
Qed.

Lemma addMessageToChat_frame (s : Store) chatId messageId :
  stored_messages (addMessageToChat chatId messageId s).2 = stored_messages s.
Proof.
  unfold addMessageToChat, try_catch, bind. simpl. unfold findByIdAndUpdate.
  by destruct (find_chat s chatId).
Qed.

Lemma populate_document_frame (s : Store) id type :
  (populate_document id type s).2 = s.
Proof.
  unfold populate_document. destruct id as [i|]; [|done]. by destruct (find_chat s i).
Qed.

(** What the add-message route leaves in the messages collection. *)
Lemma addMessageToChatRoute_stores now req (w : World Store) :
  isAddMessageRequestValid req = true ->
  stored_messages (db (addMessageToChatRoute now req w).2) =
    stored_messages (db w)
    ++ (if bool_decide (Some (oid (next_oid (db w)))
                          ∈ map msg_id (stored_messages (db w)))
        then []
        else [stored_as (oid (next_oid (db w))) (direct_message now req)]).
Proof.
  intros Hv. unfold addMessageToChatRoute. rewrite Hv.
  unfold try_catch at 1. unfold bind at 1. unfold await at 1. cbn [negb]. cbv beta iota.
  change (createMessage _ (db w)) with (createMessage (direct_message now req) (db w)).
  rewrite createMessage_run by done.
  destruct (bool_decide _); [by rewrite app_nil_r|].
  cbv beta iota zeta. unfold stored_as at 1. cbn [msg_id].
  set (s1 := {| users := _; stored_messages := _ ++ _; chats := _; next_oid := _ |}).
  unfold bind at 1. unfold await at 1. cbn [db].
  pose proof (addMessageToChat_frame s1 (field (am_chatId req))
                (toString (oid (next_oid (db w))))) as Hframe.
  destruct (addMessageToChat _ _ s1) as [[[chat|e]|x] s2]; simpl in Hframe;
    cbv beta iota zeta; try (unfold throw, res_send, ret; simpl; by rewrite Hframe).
  unfold bind at 1. unfold await at 1. cbn [db].
  pose proof (populate_document_frame s2 (toString <$> chat_id chat) "chat") as Hp.
  change (@populateDocument Store models) with populate_document.
  destruct (populate_document _ _ s2) as [[[p|e]|x] s3]; simpl in Hp; subst s3;
    cbv beta iota zeta; unfold throw, res_send, ret, bind, socket_to_emit, emit_to,
      res_json; simpl; by rewrite Hframe.
Qed.

(** ** Adding a participant *)

Lemma find_update_first id f l :
  (forall d, doc_id (f d) = doc_id d) ->
  List.find (fun d => bool_decide (doc_id d = id)) (update_first id f l)
  = f <$> List.find (fun d => bool_decide (doc_id d = id)) l.
Proof.
  intros Hid. induction l as [|d l IH]; simpl; [done|].
  destruct (bool_decide (doc_id d = id)) eqn:E; simpl.
  - apply bool_decide_eq_true in E. by rewrite Hid, bool_decide_eq_true_2.
  - by rewrite E.
Qed.

Lemma update_first_twice id f l :
  (forall d, doc_id (f d) = doc_id d) -> (forall d, f (f d) = f d) ->
  update_first id f (update_first id f l) = update_first id f l.
Proof.
  intros Hid Hff. induction l as [|d l IH]; simpl; [done|].
  destruct (bool_decide (doc_id d = id)) eqn:E; simpl.
  - apply bool_decide_eq_true in E. by rewrite Hid, bool_decide_eq_true_2, Hff.
  - by rewrite E, IH.
Qed.

Lemma update_first_fixed id f l d :
  List.find (fun d => bool_decide (doc_id d = id)) l = Some d -> f d = d ->
  update_first id f l = l.
Proof.
  intros Hf Hd. induction l as [|c l IH]; simpl in *; [done|].
  destruct (bool_decide (doc_id c = id)); [by simplify_eq; rewrite Hd|].
  by rewrite IH.
Qed.

Lemma update_first_messages id f l :
  (forall d, doc_messages (f d) = doc_messages d) ->
  map doc_messages (update_first id f l) = map doc_messages l.
Proof.
  intros Hm. induction l as [|c l IH]; simpl; [done|].
  destruct (bool_decide _); simpl; by rewrite ?Hm, ?IH.
Qed.

(** Every document of the updated collection is an old one or the
    updated one. *)
Lemma elem_of_update_first id f l c :
  c ∈ update_first id f l ->
  c ∈ l \/ exists d, List.find (fun d => bool_decide (doc_id d = id)) l = Some d /\ c = f d.
Proof.
  induction l as [|d l IH]; simpl; [by left|].
  destruct (bool_decide (doc_id d = id)) eqn:E.
  - intros [->|Hin]%elem_of_cons; [right; by exists d|]. left. by right.
  - intros [->|Hin]%elem_of_cons; [left; by left|].
    destruct (IH Hin) as [?|?]; [left; by right|by right].
Qed.

Lemma addToSet_participant_twice u d :
  addToSet_participant u (addToSet_participant u d) = addToSet_participant u d.
Proof.
  unfold addToSet_participant. simpl. f_equal.
  destruct (bool_decide (u ∈ doc_participants d)) eqn:E; [by rewrite E|].
  rewrite bool_decide_eq_true_2; [done|]. apply elem_of_app. right. by left.
Qed.

Lemma addToSet_participant_present u d :
  u ∈ doc_participants d -> addToSet_participant u d = d.
Proof.
  intros Hin. unfold addToSet_participant. rewrite bool_decide_eq_true_2 by done.
  by destruct d.
Qed.

Lemma elem_of_addToSet_participant u d p :
  p ∈ doc_participants (addToSet_participant u d) <-> p ∈ doc_participants d \/ p = u.
Proof.
  unfold addToSet_participant. simpl.
  destruct (bool_decide (u ∈ doc_participants d)) eqn:E.
  - apply bool_decide_eq_true in E. split; [by left|]. by intros [?| ->].
  - rewrite elem_of_app, list_elem_of_singleton. tauto.
Qed.

Lemma addParticipantToChat_run (s : Store) chatId userId :
  addParticipantToChat chatId userId s =
    match find_user_by_id s userId with
    | None =>
        (Returned (ErrorResponse
           "Error occurred when adding participant to chat: Error: User not found"), s)
    | Some _ =>
        match find_chat s chatId with
        | None =>
            (Returned (ErrorResponse
               "Error occurred when adding participant to chat: Error: Chat not found or failed to update"),
             s)
        | Some d =>
            (Returned
               (Doc (populate
                       (with_chats s
                          (update_first chatId (addToSet_participant userId) (chats s)))
                       (addToSet_participant userId d))),
             with_chats s (update_first chatId (addToSet_participant userId) (chats s)))
        end
    end.
Proof.
  unfold addParticipantToChat, try_catch, bind. simpl. unfold findByIdAndUpdate.
  destruct (find_user_by_id s userId); simpl; [|done].
  by destruct (find_chat s chatId).
Qed.

Lemma addParticipantToChat_idempotent (s : Store) chatId userId :
  addParticipantToChat chatId userId (addParticipantToChat chatId userId s).2
  = addParticipantToChat chatId userId s.
Proof.
  rewrite (addParticipantToChat_run s).
  destruct (find_user_by_id s userId) as [u|] eqn:Hu; simpl;
    [|by rewrite addParticipantToChat_run, Hu].
  destruct (find_chat s chatId) as [d|] eqn:Hd; simpl;
    [|by rewrite addParticipantToChat_run, Hu, Hd].
  rewrite addParticipantToChat_run. unfold find_user_by_id, find_chat in *. simpl.
  rewrite Hu, find_update_first, Hd by done. simpl.
  rewrite addToSet_participant_twice.
  assert (E : with_chats
                (with_chats s (update_first chatId (addToSet_participant userId) (chats s)))
                (update_first chatId (addToSet_participant userId)
                   (update_first chatId (addToSet_participant userId) (chats s)))
              = with_chats s (update_first chatId (addToSet_participant userId) (chats s))).
  { unfold with_chats. simpl. f_equal. apply update_first_twice; [done|].
    apply addToSet_participant_twice. }
  unfold with_chats in *. simpl in *. by rewrite E.
Qed.

Lemma addParticipantToChat_present (s : Store) chatId userId d :
  find_chat s chatId = Some d -> userId ∈ doc_participants d ->
  (addParticipantToChat chatId userId s).2 = s.
Proof.
  intros Hd Hin. rewrite addParticipantToChat_run.
  destruct (find_user_by_id s userId); [|done]. rewrite Hd. simpl.
  rewrite (update_first_fixed _ _ _ d Hd) by by apply addToSet_participant_present.
  apply with_chats_same.
Qed.

Lemma addParticipantToChat_messages (s : Store) chatId userId :
  stored_messages (addParticipantToChat chatId userId s).2 = stored_messages s
  /\ map doc_messages (chats (addParticipantToChat chatId userId s).2)
     = map doc_messages (chats s).
Proof.
  rewrite addParticipantToChat_run.
  destruct (find_user_by_id s userId); [|done].
  destruct (find_chat s chatId); [|done]. simpl. split; [done|].
  by apply update_first_messages.
Qed.

Lemma find_user_by_id_Some s id u :
  find_user_by_id s id = Some u -> references_user s id.
Proof.
  intros [Hin Hu]%find_some. apply bool_decide_eq_true in Hu.
  exists u. split; [by apply list_elem_of_In|done].
Qed.

Lemma find_user_by_username_Some s name u :
  find_user_by_username s name = Some u -> u ∈ users s /\ username u = name.
Proof.
  intros [Hin Hu]%find_some. apply bool_decide_eq_true in Hu.
  split; [by apply list_elem_of_In|done].
Qed.

Lemma find_chat_Some s id d : find_chat s id = Some d -> d ∈ chats s /\ doc_id d = id.
Proof.
  intros [Hin Hd]%find_some. apply bool_decide_eq_true in Hd.
  split; [by apply list_elem_of_In|done].
Qed.

(** ** Chats by participants *)

Lemma NoDup_map_filter {A B} (f : A -> B) (g : A -> bool) (l : list A) :
  NoDup (map f l) -> NoDup (map f (List.filter g l)).
Proof.
  induction l as [|a l IH]; simpl; [done|].
  intros [Hn Hd]%NoDup_cons. destruct (g a); simpl; [|by apply IH].
  apply NoDup_cons. split; [|by apply IH].
  intros (b & Hb & Hin)%list_elem_of_fmap. apply Hn.
  apply list_elem_of_fmap. exists b. split; [done|].
  apply list_elem_of_In. apply list_elem_of_In, filter_In in Hin. tauto.
Qed.




Lemma getChatsByParticipants_no_match (s : Store) (p : list string) :
  (forall d, d ∈ chats s ->
     has_all (map user_id
                (List.filter (fun u => bool_decide (username u ∈ p)) (users s))) d
       = false) ->
  getChatsByParticipants p s = (Returned [], s).
Proof.
  intros Hno. unfold getChatsByParticipants, try_catch, bind. simpl.
  destruct (_ =? _)%nat; simpl; [|done]. unfold ret. do 2 f_equal.
  set (ids := map user_id _) in *. clearbody ids.
  induction (chats s) as [|d l IH]; simpl; [done|].
  rewrite Hno by apply list_elem_of_here. apply IH. intros d' Hd'. apply Hno. by right.
Qed.

Section ChatsByParticipants.
Context {D : Type} `{!Models D}.

(** A database error in either query is swallowed. *)
Lemma getChatsByParticipants_db_error p (d : D) :
  (exists e, (UserModel_find p d).1 = Threw e)
  \/ (exists users d1 e,
        UserModel_find p d = (Returned users, d1)
        /\ (ChatModel_find (map user_id users) d1).1 = Threw e) ->
  (getChatsByParticipants p d).1 = Returned [].
Proof.
  unfold getChatsByParticipants, try_catch, bind.
  intros [(e & H) | (users & d1 & e & H1 & H2)].
  - destruct (UserModel_find p d) as [r d1]. simpl in H. by subst r.
  - rewrite H1. destruct (_ =? _)%nat; simpl; [|done].
    destruct (ChatModel_find (map user_id users) d1) as [r d2]. simpl in H2. by subst r.
Qed.


End ChatsByParticipants.

(** ** The client hook *)

Lemma trimStart_nil s : Client.trimStart s = [] <-> blank s = true.
Proof.
  induction s as [|c s IH]; simpl; [done|].
  destruct (Client.is_white_space c); simpl; [done|]. split; discriminate.
Qed.

Lemma trimStart_head s c s' :
  Client.trimStart s = c :: s' -> Client.is_white_space c = false.
Proof.
  induction s as [|a s IH]; simpl; [done|].
  destruct (Client.is_white_space a) eqn:E; [done|]. by intros [= <- _].
Qed.

Lemma blank_rev s : blank (rev s) = blank s.
Proof.
  unfold blank. induction s as [|c s IH]; simpl; [done|].
  rewrite forallb_app, IH. simpl. rewrite andb_true_r. apply andb_comm.
Qed.

(** [trim] leaves nothing exactly of the texts that are empty or all
    white space. *)
Lemma trim_nil s : Client.trim s = [] <-> blank s = true.
Proof.
  unfold Client.trim, Client.trimEnd. split.
  - intros H. apply (f_equal (@rev N)) in H. rewrite rev_involutive in H. simpl in H.
    apply trimStart_nil in H. rewrite blank_rev in H.
    destruct (Client.trimStart s) as [|c s'] eqn:E; [by apply trimStart_nil|].
    apply trimStart_head in E. simpl in H. by rewrite E in H.
  - intros H. apply trimStart_nil in H. by rewrite H.
Qed.

Lemma truthy_trim s : Client.truthy_js (Client.trim s) = negb (blank s).
Proof.
  destruct (blank s) eqn:E.
  - apply trim_nil in E. by rewrite E.
  - destruct (Client.trim s) eqn:T; [|done]. apply trim_nil in T. congruence.
Qed.

Lemma existsb_same_id chat cs :
  existsb (fun c => bool_decide (chat_id c = chat_id chat)) cs = true
  <-> exists c, c ∈ cs /\ chat_id c = chat_id chat.
Proof.
  rewrite existsb_exists. split.
  - intros (c & Hin & Hc). exists c. split; [by apply list_elem_of_In|].
    by apply bool_decide_eq_true in Hc.
  - intros (c & Hin & Hc). exists c. split; [by apply list_elem_of_In|].
    by apply bool_decide_eq_true.
Qed.

Lemma map_reconciled chat cs :
  map (fun c => if bool_decide (chat_id c = chat_id chat) then chat else c) cs
  = map (reconciled chat) cs.
Proof.
  apply map_ext. intros c. unfold reconciled.
  by destruct (decide _); [rewrite bool_decide_eq_true_2|rewrite bool_decide_eq_false_2].
Qed.


Lemma fresh_two_users : fresh two_users.
Proof. intros n _. simpl. split; apply not_elem_of_nil. Qed.

Lemma fresh_one_chat : fresh one_chat.
Proof.
  intros n Hle. split; [apply not_elem_of_nil|]. simpl.
  intros Hin%list_elem_of_singleton.
  change "oid0" with (oid 0) in Hin. apply oid_inj in Hin. simpl in Hle. lia.
Qed.


(** ** Saving a chat on a working database *)

Lemma find_new_message (l : list Message) (m : Message) (i : ObjectId) :
  (Some i ∉ map msg_id l) -> msg_id m = Some i ->
  List.find (fun x => bool_decide (msg_id x = Some i)) (l ++ [m]) = Some m.
Proof.
  induction l as [|c l IH]; simpl; intros Hn Hd.
  - by rewrite bool_decide_eq_true_2.
  - apply not_elem_of_cons in Hn as [Hc Hn].
    rewrite bool_decide_eq_false_2 by done. by apply IH.
Qed.

Lemma length_stored_from n ms : length (stored_from n ms) = length ms.
Proof. revert n. induction ms; intros n; simpl; [done|]. by rewrite IHms. Qed.

Lemma stored_from_ids n ms i :
  Some i ∈ map msg_id (stored_from n ms) -> exists k, n <= k /\ i = oid k.
Proof.
  revert n. induction ms as [|m ms IH]; intros n; simpl.
  - by intros ?%elem_of_nil.
  - intros [[= ->]|Hin]%elem_of_cons; [by exists n|].
    destruct (IH _ Hin) as (k & Hk & ->). exists k. split; [lia|done].
Qed.

(** The second loop of [saveChat] on a store whose generated ids are
    not in use, for messages that bring no id: every message is stored,
    in order, under the next ids. *)
Lemma save_messages_loop_run (s : Store) ms acc :
  fresh s -> Forall (fun m => msg_id m = None) ms ->
  exists s',
    for_of ms acc
      (fun messageIds messageData =>
         message <- MessageModel_create messageData ;;
         match message with
         | None => throw (Error "Failed to create message")
         | Some message => ret (messageIds ++ [msg_id message])
         end) s
    = (Returned (acc ++ map msg_id (stored_from (next_oid s) ms)), s')
    /\ users s' = users s /\ chats s' = chats s
    /\ stored_messages s' = stored_messages s ++ stored_from (next_oid s) ms
    /\ next_oid s' = next_oid s + length ms
    /\ fresh s'.
Proof.
  intros Hf Hms. revert acc s Hf.
  induction Hms as [|m ms Hm Hms IH]; intros acc s Hf; simpl.
  - exists s. rewrite !app_nil_r, Nat.add_0_r. by unfold ret.
  - unfold bind at 1. simpl. unfold bind at 1. unfold create_message. rewrite Hm. simpl.
    destruct (Hf (next_oid s)) as [Hn _]; [done|].
    rewrite bool_decide_eq_false_2 by done. unfold ret at 1.
    destruct (create_message_fresh s m Hf Hm) as (doc & s1 & Hrun & Hf1).
    unfold create_message in Hrun. rewrite Hm in Hrun. simpl in Hrun.
    rewrite bool_decide_eq_false_2 in Hrun by done. injection Hrun as <- <-.
    edestruct (IH (acc ++ [Some (oid (next_oid s))])) as (s' & Hloop & Hu & Hc & Hm' & Hn' & Hf');
      [exact Hf1|].
    exists s'. split; [etrans; [exact Hloop|]; simpl; by rewrite <- app_assoc|].
    simpl in *. rewrite Hu, Hc, Hm', Hn', <- app_assoc. simpl.
    split; [done|]. split; [done|]. split; [reflexivity|]. split; [lia|done].
Qed.

Lemma find_app_found {A} (f : A -> bool) (l1 l2 : list A) x :
  List.find f l1 = Some x -> List.find f (l1 ++ l2) = Some x.
Proof. induction l1 as [|a l1 IH]; simpl; [done|]. by destruct (f a). Qed.

(** In a store whose generated ids are not in use, the documents stored
    for new messages are found again under their ids. *)
Lemma find_stored_from (s s' : Store) ms :
  fresh s -> stored_messages s' = stored_messages s ++ stored_from (next_oid s) ms ->
  omap (find_message s') (omap id (map msg_id (stored_from (next_oid s) ms)))
  = stored_from (next_oid s) ms.
Proof.
  intros Hf Hs'. unfold find_message. rewrite Hs'. clear Hs'.
  assert (Hold : forall k, next_oid s <= k ->
            Some (oid k) ∉ map msg_id (stored_messages s)) by (intros k Hk; by apply Hf).
  revert Hold. generalize (next_oid s) as n, (stored_messages s) as old. clear s s' Hf.
  induction ms as [|m ms IH]; intros n old Hold; simpl; [done|].
  rewrite (cons_middle _ old), app_assoc.
  assert (Hfind : List.find (fun x => bool_decide (msg_id x = Some (oid n)))
                    ((old ++ [stored_as (oid n) m]) ++ stored_from (S n) ms)
                  = Some (stored_as (oid n) m)).
  { apply find_app_found, find_new_message; [by apply Hold|done]. }
  rewrite Hfind. simpl. f_equal. apply IH. intros k Hk.
  rewrite map_app. simpl. intros [Hin|Hin%list_elem_of_singleton]%elem_of_app.
  - by apply (Hold k); [lia|].
  - assert (E : oid k = oid n) by congruence. apply oid_inj in E. lia.
Qed.

(** [saveChat] up to the creation of the chat document, on a store
    whose generated ids are not in use and for messages that bring no
    id. *)
Lemma saveChat_run (s : Store) payload :
  fresh s -> Forall (fun m => msg_id m = None) (cp_messages payload) ->
  exists s',
    saveChat payload s
    = (Returned
         (Doc {| chat_id := Some (oid (next_oid s + length (cp_messages payload)));
                 participants := map (resolve s) (cp_participants payload);
                 messages := stored_from (next_oid s) (cp_messages payload) |}), s')
    /\ users s' = users s
    /\ stored_messages s'
       = stored_messages s ++ stored_from (next_oid s) (cp_messages payload)
    /\ exists doc, chats s' = chats s ++ [doc].
Proof.
  intros Hf Hms. unfold saveChat. unfold try_catch. unfold bind at 1.
  rewrite save_participants_loop. cbv beta iota zeta. unfold bind at 1.
  destruct (save_messages_loop_run s (cp_messages payload) [] Hf Hms)
    as (s1 & Hloop & Hu & Hc & Hm & Hn & Hf1).
  rewrite Hloop. unfold bind at 1. simpl. unfold create_chat.
  destruct (Hf1 (next_oid s1)) as [_ Hnew]; [done|].
  rewrite bool_decide_eq_false_2 by done. unfold bind. simpl.
  set (doc := {| doc_id := oid (next_oid s1); doc_participants := _; doc_messages := _ |}).
  unfold find_chat. simpl.
  rewrite (find_new_chat (chats s1) doc) by done. simpl. unfold ret.
  eexists. split.
  { do 3 f_equal. unfold populate. simpl. rewrite Hn. f_equal.
    apply (find_stored_from s); [done|]. simpl. exact Hm. }
  simpl. split; [exact Hu|]. split; [exact Hm|]. exists doc. by rewrite Hc.
Qed.


(** * The claims *)

(** When its calls succeed, the create-chat route answers 200 and
    broadcasts the populated chat. *)
Lemma createChatRoute_succeeds {D} `{!Models D} req (w : World D) chat d1 populated d2 :
  isCreateChatRequestValid req = true ->
  saveChat (cc_payload req) (db w) = (Returned (Doc chat), d1) ->
  populateDocument (chat_id chat) "chat" d1 = (Returned (Doc populated), d2) ->
  createChatRoute req w
  = (Returned {| status := 200; sent := Json populated |},
     {| db := d2; outbox := outbox w ++ [chat_update AllSockets populated "created"] |}).
Proof.
  intros Hv Hsave Hpop. destruct (createChatRoute_valid req w Hv) as (r & d & Hs & Hr).
  rewrite Hsave in Hs. injection Hs as <- <-. by rewrite Hpop in Hr.
Qed.

(** When its calls succeed, the add-message route answers 200 with the
    updated chat and emits it to the room named by the [chatId]
    parameter. *)
Lemma addMessageToChatRoute_succeeds {D} `{!Models D} now req (w : World D)
    created id d1 chat d2 populated d3 :
  isAddMessageRequestValid req = true ->
  createMessage (direct_message now req) (db w) = (Returned (Doc created), d1) ->
  msg_id created = Some id ->
  addMessageToChat (field (am_chatId req)) id d1 = (Returned (Doc chat), d2) ->
  populateDocument (chat_id chat) "chat" d2 = (Returned (Doc populated), d3) ->
  addMessageToChatRoute now req w
  = (Returned {| status := 200; sent := Json chat |},
     {| db := d3;
        outbox := outbox w
                  ++ [chat_update (Room (field (am_chatId req))) chat "newMessage"] |}).
Proof.
  intros Hv Hs Hid Ha Hp. unfold addMessageToChatRoute. rewrite Hv. run.
  change (createMessage _ (db w)) with (createMessage (direct_message now req) (db w)).
  rewrite Hs. simpl. rewrite Hid. simpl. rewrite Ha. simpl.
  rewrite ?fmap_toString. by rewrite Hp.
Qed.

(** On the store, the chat that [addMessageToChat] returns has the id
    it was asked to update. *)
Lemma addMessageToChat_id (s : Store) chatId messageId chat s' :
  addMessageToChat chatId messageId s = (Returned (Doc chat), s') ->
  chat_id chat = Some chatId.
Proof.
  unfold addMessageToChat, try_catch, bind. simpl. unfold findByIdAndUpdate.
  destruct (find_chat s chatId) as [d|] eqn:Hd; simpl; [|done].
  intros [= <- _]. simpl. by destruct (find_chat_Some s chatId d Hd) as [_ ->].
Qed.

(** On the store, the room the add-message route emits to is the room
    named by the id of the chat it emits. *)
Lemma addMessageToChatRoute_room now req (w : World Store) chat w' :
  addMessageToChatRoute now req w
  = (Returned {| status := 200; sent := Json chat |}, w') ->
  chat_id chat = Some (field (am_chatId req)).
Proof.
  intros Hrun. destruct (isAddMessageRequestValid req) eqn:Hv.
  - destruct (addMessageToChatRoute_valid now req w Hv)
      as (r & d1 & _ & resp & w1 & Hr & Hcase).
    rewrite Hrun in Hr. injection Hr as <- <-.
    destruct Hcase as [(? & _) | (cm & id & c & d2 & p & _ & _ & Ha & _ & [= <-] & _)];
      [done|].
    by apply addMessageToChat_id in Ha.
  - by rewrite addMessageToChatRoute_invalid in Hrun.
Qed.

(** C1: chat-update propagation is room-based.  The add-message route
    always answers; when it answers 200 it has emitted exactly one
    ['chatUpdate'] of type ['newMessage'], addressed to the room named
    by the chat id of the request, and a socket receives it exactly if
    it is currently in that room; when it answers anything else it has
    emitted nothing.  The create-chat route always answers; when it
    answers 200 it has emitted exactly one ['chatUpdate'] of type
    ['created'] to the server itself, which every connected socket
    receives, and otherwise nothing.  A socket is in a room other than
    its own only after a ['joinChat'] with that, non-empty, chat id,
    and such a ['joinChat'] puts it there.  Both routes do answer 200
    and emit: the create-chat route whenever the request is valid and
    [saveChat] and [populateDocument] return a chat, the add-message
    route whenever the request is valid and [createMessage],
    [addMessageToChat] and [populateDocument] return their documents.
    On the store, where an id is the string that names it, the room of
    a ['newMessage'] update is the room named by the id of the chat
    that the update carries. *)
Theorem chat_update_propagation_is_room_based :
  (forall D (HD : Models D) now req (w : World D),
     exists resp w',
       addMessageToChatRoute now req w = (Returned resp, w')
       /\ (status resp = 200 ->
           exists chat,
             sent resp = Json chat
             /\ outbox w' =
                  outbox w
                  ++ [chat_update (Room (field (am_chatId req))) chat "newMessage"]
             /\ forall io sid,
                  receives io sid
                    (chat_update (Room (field (am_chatId req))) chat "newMessage")
                  = true
                  <-> exists rooms,
                        io !! sid = Some rooms /\ field (am_chatId req) ∈ rooms)
       /\ (status resp <> 200 -> outbox w' = outbox w))
  /\ (forall D (HD : Models D) req (w : World D),
        exists resp w',
          createChatRoute req w = (Returned resp, w')
          /\ (status resp = 200 ->
              exists chat,
                sent resp = Json chat
                /\ outbox w' = outbox w ++ [chat_update AllSockets chat "created"]
                /\ forall io sid,
                     receives io sid (chat_update AllSockets chat "created") = true
                     <-> is_Some (io !! sid))
          /\ (status resp <> 200 -> outbox w' = outbox w))
  /\ (forall evs sid rooms room,
        sockets_after evs !! sid = Some rooms -> room ∈ rooms -> room <> sid ->
        JoinChat sid room ∈ evs /\ truthy room = true)
  /\ (forall io sid rooms chatId,
        io !! sid = Some rooms ->
        socket_step io (JoinChat sid chatId) !! sid
          = Some (if truthy chatId then {[chatId]} ∪ rooms else rooms))
  /\ (forall D (HD : Models D) req (w : World D) chat d1 populated d2,
        ~ invalid_create_chat req ->
        saveChat (cc_payload req) (db w) = (Returned (Doc chat), d1) ->
        populateDocument (chat_id chat) "chat" d1 = (Returned (Doc populated), d2) ->
        createChatRoute req w
        = (Returned {| status := 200; sent := Json populated |},
           {| db := d2;
              outbox := outbox w ++ [chat_update AllSockets populated "created"] |}))
  /\ (forall D (HD : Models D) now req (w : World D) created id d1 chat d2 populated d3,
        ~ invalid_add_message req ->
        createMessage (direct_message now req) (db w) = (Returned (Doc created), d1) ->
        msg_id created = Some id ->
        addMessageToChat (field (am_chatId req)) id d1 = (Returned (Doc chat), d2) ->
        populateDocument (chat_id chat) "chat" d2 = (Returned (Doc populated), d3) ->
        addMessageToChatRoute now req w
        = (Returned {| status := 200; sent := Json chat |},
           {| db := d3;
              outbox := outbox w
                        ++ [chat_update (Room (field (am_chatId req))) chat
                              "newMessage"] |}))
  /\ (forall now req (w : World Store) chat w',
        addMessageToChatRoute now req w
        = (Returned {| status := 200; sent := Json chat |}, w') ->
        chat_id chat = Some (field (am_chatId req))).
Proof.
  split; [|split; [|split; [|split; [|split; [|split]]]]].
  - intros D HD now req w.
    destruct (addMessageToChatRoute_emits now req w) as (resp & w' & Hrun & Hcase).
    exists resp, w'. split; [done|].
    destruct Hcase as [(H200 & chat & Hsent & Hout) | (Hne & Hout)]; split; try done.
    intros _. exists chat. repeat split; try done; apply receives_room.
  - intros D HD req w.
    destruct (createChatRoute_emits req w) as (resp & w' & Hrun & Hcase).
    exists resp, w'. split; [done|].
    destruct Hcase as [(H200 & chat & Hsent & Hout) | (Hne & Hout)]; split; try done.
    intros _. exists chat. repeat split; try done; apply receives_all.
  - intros evs sid rooms room Hs Hin Hne.
    by destruct (rooms_come_from_joinChat evs sid rooms room Hs Hin).
  - apply joinChat_joins.
  - intros D HD req w chat d1 populated d2 Hv%valid_or_invalid_create_chat.
    by apply createChatRoute_succeeds.
  - intros D HD now req w created id d1 chat d2 populated d3
      Hv%valid_or_invalid_add_message.
    by apply addMessageToChatRoute_succeeds.
  - apply addMessageToChatRoute_room.
Qed.

(** C1, on examples.  ["hello"] is added to chat ["oid0"]: the update
    carries the chat ["oid0"], and of the two connected sockets the one
    that joined ["oid0"] receives it and the other does not.  A chat
    between alice and bob is created: the route answers 200 and the
    one emission is a ['created'] update that both sockets receive. *)
Lemma chat_update_propagation_witness :
  (exists chat,
     outbox (addMessageToChatRoute 7%Z say_hello (quiet one_chat)).2
       = [] ++ [chat_update (Room "oid0") chat "newMessage"]
     /\ chat_id chat = Some "oid0"
     /\ receives (sockets_after [Connect "s1"; Connect "s2"; JoinChat "s1" "oid0"]) "s1"
          (chat_update (Room "oid0") chat "newMessage") = true
     /\ receives (sockets_after [Connect "s1"; Connect "s2"; JoinChat "s1" "oid0"]) "s2"
          (chat_update (Room "oid0") chat "newMessage") = false)
  /\ (exists chat s',
        createChatRoute open_chat (quiet two_users)
        = (Returned {| status := 200; sent := Json chat |},
           {| db := s'; outbox := [] ++ [chat_update AllSockets chat "created"] |})
        /\ participants chat = ["u-alice"; "u-bob"]
        /\ receives (sockets_after [Connect "s1"; Connect "s2"; JoinChat "s1" "oid0"])
             "s1" (chat_update AllSockets chat "created") = true
        /\ receives (sockets_after [Connect "s1"; Connect "s2"; JoinChat "s1" "oid0"])
             "s2" (chat_update AllSockets chat "created") = true).
Proof.
  destruct chat_update_propagation_is_room_based
    as (Hadd & _ & _ & _ & Hcreate & _ & Hroom).
  split.
  - destruct (Hadd _ _ 7%Z say_hello (quiet one_chat)) as (resp & w' & Hrun & H200 & _).
    pose proof Hrun as Hrun'. lazy in Hrun. injection Hrun as <- <-.
    destruct (H200 eq_refl) as (chat & Hsent & Hout & _).
    exists chat. split; [exact Hout|]. injection Hsent as <-.
    split; [exact (Hroom _ _ _ _ _ Hrun')|]. by vm_compute.
  - eexists _, _. split.
    + eapply (Hcreate _ _ open_chat (quiet two_users)).
      * intros [Hb | (b & Hb & Hcase)]; [done|]. injection Hb as <-. simpl in Hcase.
        by destruct Hcase as [?|[?|[?|[?|?]]]].
      * by lazy.
      * by lazy.
    + by vm_compute.
Defined.

(** C2, as stated, fails: [saveChat] keeps a participant that names no
    user.  On the database with no user at all, creating a chat for
    ["ghost"] returns a chat whose only participant is ["ghost"], which
    is the id of no user document. *)
Lemma saveChat_keeps_unknown_participant :
  saveChat {| cp_participants := ["ghost"]; cp_messages := [] |} initial
  = (Returned (Doc {| chat_id := Some "oid0";
                      participants := ["ghost"];
                      messages := [] |}),
     {| users := [];
        stored_messages := [];
        chats := [{| doc_id := "oid0";
                     doc_participants := ["ghost"];
                     doc_messages := [] |}];
        next_oid := 1 |})
  /\ ~ references_user
         {| users := [];
            stored_messages := [];
            chats := [{| doc_id := "oid0";
                         doc_participants := ["ghost"];
                         doc_messages := [] |}];
            next_oid := 1 |}
         "ghost".
Proof.
  split; [by vm_compute|]. intros (u & Hin & _). simpl in Hin. by apply elem_of_nil in Hin.
Qed.

(** C2, amended: a chat produced by [saveChat] lists, for each given
    participant in order, the id of the user of that name when there is
    one and the given value itself otherwise; the entries that resolved
    reference existing users.  [addParticipantToChat] returns an error
    and leaves the database as it was when the user id does not exist;
    when it produces a chat, the added id is a participant and
    references an existing user, every other participant was one
    before, and referential existence of the stored chats is kept. *)
Theorem participants_are_resolved_or_kept :
  (forall (s : Store) payload chat s',
     saveChat payload s = (Returned (Doc chat), s') ->
     participants chat = map (resolve s) (cp_participants payload)
     /\ users s' = users s
     /\ forall p user,
          p ∈ cp_participants payload -> find_user_by_username s p = Some user ->
          user_id user ∈ participants chat /\ references_user s' (user_id user))
  /\ (forall (s : Store) chatId userId,
        find_user_by_id s userId = None ->
        exists error,
          addParticipantToChat chatId userId s = (Returned (ErrorResponse error), s))
  /\ (forall (s : Store) chatId userId chat s',
        addParticipantToChat chatId userId s = (Returned (Doc chat), s') ->
        userId ∈ participants chat
        /\ references_user s' userId
        /\ (forall p, p ∈ participants chat ->
              p = userId
              \/ exists d, find_chat s chatId = Some d /\ p ∈ doc_participants d)
        /\ (referential_existence s -> referential_existence s')).
Proof.
  split; [|split].
  - intros s payload chat s' Hsave.
    destruct (saveChat_result s payload chat s' Hsave) as (doc & Hc & Hu & Hp & _ & ->).
    simpl. rewrite Hp. split; [done|]. split; [done|]. intros p user Hin Hfind. split.
    + apply list_elem_of_fmap. exists p. split; [|done]. unfold resolve. by rewrite Hfind.
    + apply find_user_by_username_Some in Hfind as [Hfound _]. exists user. by rewrite Hu.
  - intros s chatId userId Hn. rewrite addParticipantToChat_run, Hn. by eexists.
  - intros s chatId userId chat s'. rewrite addParticipantToChat_run.
    destruct (find_user_by_id s userId) as [u|] eqn:Hu; [|done].
    destruct (find_chat s chatId) as [d|] eqn:Hd; [|done].
    intros [= <- <-]. simpl. repeat split.
    + apply elem_of_addToSet_participant. by right.
    + by apply (find_user_by_id_Some s userId u).
    + intros p [Hp| ->]%elem_of_addToSet_participant; [right; by exists d|by left].
    + intros Hre c p Hc Hp. simpl in Hc.
      apply elem_of_update_first in Hc as [Hc | (d' & Hd' & ->)].
      * destruct (Hre c p Hc Hp) as (v & Hv & Hvid). by exists v.
      * apply elem_of_addToSet_participant in Hp as [Hp | ->].
        -- destruct (find_chat_Some s chatId d' Hd') as [Hin _].
           destruct (Hre d' p Hin Hp) as (v & Hv & Hvid). by exists v.
        -- by apply (find_user_by_id_Some s userId u).
Qed.

(** C2, on an example: ["alice"] resolves to her id, ["ghost"] is kept. *)
Lemma participants_are_resolved_or_kept_witness :
  participants
    {| chat_id := Some "oid0"; participants := ["u-alice"; "ghost"]; messages := [] |}
  = map (resolve two_users) ["alice"; "ghost"]
  /\ references_user two_users "u-alice".
Proof.
  destruct participants_are_resolved_or_kept as [H _].
  edestruct (H two_users {| cp_participants := ["alice"; "ghost"]; cp_messages := [] |})
    as (Hp & Hu & Hres); [by lazy|].
  split; [exact Hp|].
  destruct (Hres "alice" alice) as [_ Hr]; [by left|done|].
  destruct Hr as (u & Hin & Hid). exists u. split; [|done]. by rewrite Hu in Hin.
Defined.

(** C3: in every chat route, a service or [populateDocument] call that
    returns an error value or throws makes the route answer 500 with a
    text made of the route's prefix and the error; this covers
    [saveChat] and [populateDocument] (create chat), [createMessage], a
    created message without id, [addMessageToChat] and
    [populateDocument] (add message), [getChat] and [populateDocument]
    (get chat), [populateDocument] for any chat of the list (chats by
    user) and [addParticipantToChat] (add participant).  In particular a
    chat id that is not in the database makes the get-chat route answer
    500. *)
Theorem chat_routes_answer_500_on_failure :
  (forall D (HD : Models D) req (w : World D) reason,
     isCreateChatRequestValid req = true ->
     (failure (saveChat (cc_payload req) (db w)).1 = Some reason
      \/ exists chat d1,
           saveChat (cc_payload req) (db w) = (Returned (Doc chat), d1)
           /\ failure (populateDocument (chat_id chat) "chat" d1).1 = Some reason) ->
     (createChatRoute req w).1 =
       Returned (server_error "Error when creating chat: " reason))
  /\ (forall D (HD : Models D) now req (w : World D) reason,
        isAddMessageRequestValid req = true ->
        (failure (createMessage (direct_message now req) (db w)).1 = Some reason
         \/ (exists created d1,
               createMessage (direct_message now req) (db w)
                 = (Returned (Doc created), d1)
               /\ msg_id created = None
               /\ reason = "Error: Created message missing ID")
         \/ (exists created id d1,
               createMessage (direct_message now req) (db w)
                 = (Returned (Doc created), d1)
               /\ msg_id created = Some id
               /\ (failure (addMessageToChat (field (am_chatId req)) id d1).1
                     = Some reason
                   \/ exists chat d2,
                        addMessageToChat (field (am_chatId req)) id d1
                          = (Returned (Doc chat), d2)
                        /\ failure (populateDocument (chat_id chat) "chat" d2).1
                           = Some reason))) ->
        (addMessageToChatRoute now req w).1 =
          Returned (server_error "Error when adding message to chat: " reason))
  /\ (forall D (HD : Models D) req (w : World D) reason,
        truthy_opt (ci_chatId req) = true ->
        (failure (getChat (field (ci_chatId req)) (db w)).1 = Some reason
         \/ exists chat d1,
              getChat (field (ci_chatId req)) (db w) = (Returned (Doc chat), d1)
              /\ failure (populateDocument (chat_id chat) "chat" d1).1 = Some reason) ->
        (getChatRoute req w).1 =
          Returned (server_error "Error when retrieving chat: " reason))
  /\ (forall D (HD : Models D) req (w : World D) reason before chat after d1 acc w2,
        truthy_opt (gc_username req) = true ->
        getChatsByParticipants [field (gc_username req)] (db w)
          = (Returned (before ++ chat :: after), d1) ->
        for_of before [] populate_into {| db := d1; outbox := outbox w |}
          = (Returned acc, w2) ->
        failure (populateDocument (chat_id chat) "chat" (db w2)).1 = Some reason ->
        (getChatsByUserRoute req w).1 =
          Returned (server_error "Error retrieving chat: "
                      "Error: Failed populating chats"))
  /\ (forall D (HD : Models D) req (w : World D) reason,
        isAddParticipantRequestValid req = true ->
        failure (addParticipantToChat (field (ap_chatId req))
                   (field (apb_participantId
                             (default (Build_AddParticipantBody None) (ap_body req))))
                   (db w)).1 = Some reason ->
        (addParticipantToChatRoute req w).1 =
          Returned (server_error "Error when adding participant to chat: " reason))
  /\ (forall (s : Store) out chatId,
        truthy chatId = true -> find_chat s chatId = None ->
        (getChatRoute {| ci_chatId := Some chatId |} {| db := s; outbox := out |}).1 =
          Returned (server_error "Error when retrieving chat: "
                      "Error: Error occurred when retrieving chat: Error: Chat not found")).
Proof.
  split; [|split; [|split; [|split; [|split]]]].
  - intros D HD. apply createChatRoute_failure.
  - intros D HD. apply addMessageToChatRoute_failure.
  - intros D HD. apply getChatRoute_failure.
  - intros D HD. apply getChatsByUserRoute_failure.
  - intros D HD. apply addParticipantToChatRoute_failure.
  - intros s out chatId Ht Hnone. apply getChatRoute_failure; [done|]. left. simpl.
    unfold getChat, try_catch, bind. simpl. by rewrite Hnone.
Qed.

(** C3, on examples: the database stops answering while a chat is
    created; a message is added to a chat that does not exist; a chat
    that does not exist is asked for. *)
Lemma chat_routes_answer_500_witness :
  (createChatRoute open_chat (quiet (0, two_users))).1 =
    Returned (server_error "Error when creating chat: "
                "Error: Error occurred when saving chat: MongoNetworkError: connection lost")
  /\ (addMessageToChatRoute 7%Z say_hello (quiet two_users)).1 =
       Returned (server_error "Error when adding message to chat: "
                   "Error: Error occurred when adding message to chat: Error: Chat not found or failed to update")
  /\ (getChatRoute {| ci_chatId := Some "oid9" |} (quiet one_chat)).1 =
       Returned (server_error "Error when retrieving chat: "
                   "Error: Error occurred when retrieving chat: Error: Chat not found").
Proof.
  destruct chat_routes_answer_500_on_failure as (Hcreate & Hadd & _ & _ & _ & Hmissing).
  split; [|split].
  - apply Hcreate; [done|]. by left.
  - apply Hadd; [done|]. right; right. do 3 eexists. split; [by lazy|].
    split; [done|]. by left.
  - by apply Hmissing.
Defined.

(** C4: state reconciliation on a ['chatUpdate'] event.  For type
    ['created'] the state is unchanged when a chat with the same [_id]
    is already in the list, and otherwise the chat is appended and
    nothing else changes.  For type ['newMessage'] the selected chat
    becomes the update's chat exactly when there is a selected chat and
    its [_id] equals that of the update's chat, every entry of the chats
    list with that [_id] becomes the update's chat, every other entry
    and everything else is unchanged.  For any other type the handler
    throws and the state is unchanged. *)
Theorem handleChatUpdate_reconciles (w : Client.Browser) (chat : Chat) (type : string) :
  (type = "created" ->
     ((exists c, c ∈ Client.st_chats (Client.hook w) /\ chat_id c = chat_id chat) ->
        Client.receive {| cu_chat := chat; cu_type := type |} w = (Returned tt, w))
     /\ ((forall c, c ∈ Client.st_chats (Client.hook w) -> chat_id c <> chat_id chat) ->
        Client.receive {| cu_chat := chat; cu_type := type |} w =
          (Returned tt,
           {| Client.hook :=
                hook_with (Client.hook w)
                  (Client.st_selectedChat (Client.hook w))
                  (Client.st_chats (Client.hook w) ++ [chat])
                  (Client.st_newMessage (Client.hook w));
              Client.requests := Client.requests w |})))
  /\ (type = "newMessage" ->
      Client.receive {| cu_chat := chat; cu_type := type |} w =
        (Returned tt,
         {| Client.hook :=
              hook_with (Client.hook w)
                (match Client.st_selectedChat (Client.hook w) with
                 | Some sel =>
                     if decide (chat_id sel = chat_id chat) then Some chat else Some sel
                 | None => None
                 end)
                (map (reconciled chat) (Client.st_chats (Client.hook w)))
                (Client.st_newMessage (Client.hook w));
            Client.requests := Client.requests w |})
      /\ forall i c,
           Client.st_chats (Client.hook w) !! i = Some c ->
           map (reconciled chat) (Client.st_chats (Client.hook w)) !! i
           = Some (if decide (chat_id c = chat_id chat) then chat else c))
  /\ (type <> "created" -> type <> "newMessage" ->
      Client.receive {| cu_chat := chat; cu_type := type |} w =
        (Threw (Error ("Invalid chatUpdate type: " +:+ type)), w)).
Proof.
  unfold Client.receive, Client.handleChatUpdate. simpl. split; [|split].
  - intros ->. simpl. unfold Client.setChats. split.
    + intros (c & Hin & Hc).
      assert (E : existsb (fun c => bool_decide (chat_id c = chat_id chat))
                    (Client.st_chats (Client.hook w)) = true)
        by (apply existsb_same_id; eauto).
      rewrite E. f_equal. by destruct w as [[] ?].
    + intros Hno. destruct (existsb _ _) eqn:E; [|done].
      apply existsb_same_id in E as (c & Hin & Hc). by destruct (Hno c).
  - intros ->. simpl. split.
    + unfold bind, Client.setChats, Client.setSelectedChat, ret.
      rewrite <- map_reconciled.
      unfold hook_with.
      destruct (Client.st_selectedChat (Client.hook w)) as [sel|] eqn:Hsel;
        [|by rewrite Hsel].
      destruct (decide (chat_id sel = chat_id chat));
        [rewrite bool_decide_eq_true_2 by done|rewrite bool_decide_eq_false_2 by done];
        simpl; by rewrite ?Hsel.
    + intros i c Hi. by rewrite list_lookup_fmap, Hi.
  - intros H1 H2. by rewrite !bool_decide_eq_false_2.
Qed.

(** C4, on an example: a ['newMessage'] update for the second of two
    chats, which is the selected one. *)
Lemma handleChatUpdate_witness :
  Client.receive
    {| cu_chat := {| chat_id := Some "c2"; participants := ["u-bob"]; messages := [] |};
       cu_type := "newMessage" |}
    {| Client.hook :=
         {| Client.st_showCreatePanel := false;
            Client.st_chatToCreate := "";
            Client.st_selectedChat :=
              Some {| chat_id := Some "c2"; participants := []; messages := [] |};
            Client.st_chats :=
              [{| chat_id := Some "c1"; participants := []; messages := [] |};
               {| chat_id := Some "c2"; participants := []; messages := [] |}];
            Client.st_newMessage := [] |};
       Client.requests := [] |}
  = (Returned tt,
     {| Client.hook :=
          {| Client.st_showCreatePanel := false;
             Client.st_chatToCreate := "";
             Client.st_selectedChat :=
               Some {| chat_id := Some "c2"; participants := ["u-bob"]; messages := [] |};
             Client.st_chats :=
               [{| chat_id := Some "c1"; participants := []; messages := [] |};
                {| chat_id := Some "c2"; participants := ["u-bob"]; messages := [] |}];
             Client.st_newMessage := [] |};
        Client.requests := [] |}).
Proof.
  destruct (handleChatUpdate_reconciles
              {| Client.hook :=
                   {| Client.st_showCreatePanel := false;
                      Client.st_chatToCreate := "";
                      Client.st_selectedChat :=
                        Some {| chat_id := Some "c2"; participants := []; messages := [] |};
                      Client.st_chats :=
                        [{| chat_id := Some "c1"; participants := []; messages := [] |};
                         {| chat_id := Some "c2"; participants := []; messages := [] |}];
                      Client.st_newMessage := [] |};
                 Client.requests := [] |}
              {| chat_id := Some "c2"; participants := ["u-bob"]; messages := [] |}
              "newMessage") as (_ & Hnew & _).
  destruct (Hnew eq_refl) as [Hrun _]. exact Hrun.
Defined.







Lemma nonempty_text_is_valid req body text sender :
  am_body req = Some body -> amb_msg body = Some text -> text <> "" ->
  amb_msgFrom body = Some sender -> truthy_opt (am_chatId req) = true ->
  isAddMessageRequestValid req = true.
Proof.
  intros Hb Hm Ht Hf Hc. unfold isAddMessageRequestValid. rewrite Hb, Hm, Hf.
  destruct (am_chatId req) as [[|a c]|]; try done.
  by rewrite !bool_decide_eq_true_2 by congruence.
Qed.

(** C6: add-message request validation.  The route answers 400 with
    ['Invalid message request body'] exactly when the body is missing,
    [msg] is missing or is the empty string, [msgFrom] is missing, or the
    [chatId] parameter is missing or empty; in that case it makes no
    call and emits nothing, so that no message is created and no chat is
    modified.  Otherwise [createMessage] is run on the message the
    request describes.  A text made of white space only, not being
    empty, passes, and on a working database it is stored as given. *)
Theorem add_message_request_validation :
  (forall D (HD : Models D) now req (w : World D),
     ((addMessageToChatRoute now req w).1
        = Returned (bad_request "Invalid message request body")
      <-> invalid_add_message req)
     /\ (invalid_add_message req ->
         addMessageToChatRoute now req w
           = (Returned (bad_request "Invalid message request body"), w))
     /\ (~ invalid_add_message req ->
         exists result d1 resp w',
           createMessage (direct_message now req) (db w) = (Returned result, d1)
           /\ addMessageToChatRoute now req w = (Returned resp, w')
           /\ (status resp = 500 \/ status resp = 200)))
  /\ (forall req body text sender,
        am_body req = Some body -> amb_msg body = Some text ->
        text <> "" -> whitespace_only text = true ->
        amb_msgFrom body = Some sender -> truthy_opt (am_chatId req) = true ->
        ~ invalid_add_message req
        /\ forall now (w : World Store),
             fresh (db w) ->
             exists stored,
               stored_messages (db (addMessageToChatRoute now req w).2)
                 = stored_messages (db w) ++ [stored]
               /\ msg stored = text).
Proof.
  split.
  - intros D HD now req w. split; [|split].
    + split.
      * intros Hresp. apply isAddMessageRequestValid_false.
        destruct (isAddMessageRequestValid req) eqn:Hv; [|done].
        destruct (addMessageToChatRoute_valid now req w Hv)
          as (r & d1 & _ & resp & w' & Hr & Hcase).
        rewrite Hr in Hresp. injection Hresp as ->.
        by destruct Hcase as [(? & _) | (? & ? & ? & ? & ? & _ & _ & _ & _ & ? & _)].
      * intros Hi%isAddMessageRequestValid_false.
        by rewrite addMessageToChatRoute_invalid.
    + intros Hi%isAddMessageRequestValid_false. by apply addMessageToChatRoute_invalid.
    + intros Hv%valid_or_invalid_add_message.
      destruct (addMessageToChatRoute_valid now req w Hv)
        as (r & d1 & Hc & resp & w' & Hr & Hcase).
      exists r, d1, resp, w'. split; [done|]. split; [done|].
      destruct Hcase as [(? & _) | (? & ? & ? & ? & ? & _ & _ & _ & _ & -> & _)];
        [by left|by right].
  - intros req body text sender Hb Hm Ht _ Hf Hc.
    pose proof (nonempty_text_is_valid req body text sender Hb Hm Ht Hf Hc) as Hv.
    split; [by apply valid_or_invalid_add_message|].
    intros now w Hfresh. rewrite addMessageToChatRoute_stores by done.
    destruct (Hfresh (next_oid (db w))) as [Hn _]; [done|].
    rewrite bool_decide_eq_false_2 by done. eexists. split; [done|].
    unfold stored_as, direct_message. cbn [msg]. rewrite Hb. simpl. by rewrite Hm.
Qed.

(** C6, on examples: an empty text is refused and nothing changes, not
    even the number of operations the database will still answer; three
    spaces are a valid text and are stored. *)
Lemma add_message_request_validation_witness :
  addMessageToChatRoute 7%Z
    {| am_body := Some {| amb_msg := Some ""; amb_msgFrom := Some "alice";
                          amb_msgDateTime := None |};
       am_chatId := Some "oid0" |}
    (quiet (3, one_chat))
  = (Returned (bad_request "Invalid message request body"), quiet (3, one_chat))
  /\ exists stored,
    stored_messages
      (db (addMessageToChatRoute 7%Z
             {| am_body := Some {| amb_msg := Some "   "; amb_msgFrom := Some "alice";
                                   amb_msgDateTime := None |};
                am_chatId := Some "oid0" |}
             (quiet one_chat)).2)
    = stored_messages one_chat ++ [stored]
    /\ msg stored = "   ".
Proof.
  destruct add_message_request_validation as [Hgen Hws]. split.
  { apply Hgen. right; left. eexists. split; [done|]. right; by left. }
  edestruct (Hws {| am_body := Some {| amb_msg := Some "   "; amb_msgFrom := Some "alice";
                                        amb_msgDateTime := None |};
                    am_chatId := Some "oid0" |}) as [_ Hstored]; try done.
  apply (Hstored 7%Z (quiet one_chat)). apply fresh_one_chat.
Defined.

(** C7: what the add-message route stores.  For a request that passes
    validation the route adds at most one document to the messages
    collection, and a document it adds has type ['direct'], the text and
    the sender of the request, and as its time the [msgDateTime] of the
    body when there is one and otherwise the time of processing; on a
    working database the document is added. *)
Theorem added_message_is_direct now req (w : World Store) body text sender :
  am_body req = Some body -> amb_msg body = Some text -> text <> "" ->
  amb_msgFrom body = Some sender -> truthy_opt (am_chatId req) = true ->
  exists created,
    stored_messages (db (addMessageToChatRoute now req w).2)
      = stored_messages (db w) ++ created
    /\ (created = []
        \/ exists id,
             created =
               [{| msg_id := Some id;
                   msg := text;
                   msgFrom := sender;
                   msgDateTime :=
                     match amb_msgDateTime body with Some d => d | None => now end;
                   msg_type := "direct" |}])
    /\ (fresh (db w) -> created <> []).
Proof.
  intros Hb Hm Ht Hf Hc.
  pose proof (nonempty_text_is_valid req body text sender Hb Hm Ht Hf Hc) as Hv.
  rewrite addMessageToChatRoute_stores by done. eexists. split; [done|].
  destruct (bool_decide _) eqn:Hdup.
  - split; [by left|]. intros Hfresh. apply bool_decide_eq_true in Hdup.
    by destruct (Hfresh (next_oid (db w))) as [Hn _].
  - split; [|done]. right. exists (oid (next_oid (db w))).
    unfold stored_as, direct_message. simpl. rewrite Hb. simpl. by rewrite Hm, Hf.
Qed.

(** C7, on examples: once without and once with a time in the body. *)
Lemma added_message_is_direct_witness :
  (exists id,
     stored_messages (db (addMessageToChatRoute 7%Z say_hello (quiet one_chat)).2)
     = [] ++ [{| msg_id := Some id; msg := "hello"; msgFrom := "alice";
                 msgDateTime := 7%Z; msg_type := "direct" |}])
  /\ (exists id,
        stored_messages
          (db (addMessageToChatRoute 7%Z
                 {| am_body := Some {| amb_msg := Some "hello";
                                       amb_msgFrom := Some "alice";
                                       amb_msgDateTime := Some 3%Z |};
                    am_chatId := Some "oid0" |}
                 (quiet one_chat)).2)
        = [] ++ [{| msg_id := Some id; msg := "hello"; msgFrom := "alice";
                    msgDateTime := 3%Z; msg_type := "direct" |}]).
Proof.
  split.
  - destruct (added_message_is_direct 7%Z say_hello (quiet one_chat)
                {| amb_msg := Some "hello"; amb_msgFrom := Some "alice";
                   amb_msgDateTime := None |} "hello" "alice"
                eq_refl eq_refl ltac:(done) eq_refl eq_refl)
      as (created & Hstored & [-> | (id & ->)] & Hfresh).
    + by destruct (Hfresh fresh_one_chat eq_refl).
    + by exists id.
  - destruct (added_message_is_direct 7%Z
                {| am_body := Some {| amb_msg := Some "hello"; amb_msgFrom := Some "alice";
                                      amb_msgDateTime := Some 3%Z |};
                   am_chatId := Some "oid0" |}
                (quiet one_chat)
                {| amb_msg := Some "hello"; amb_msgFrom := Some "alice";
                   amb_msgDateTime := Some 3%Z |} "hello" "alice"
                eq_refl eq_refl ltac:(done) eq_refl eq_refl)
      as (created & Hstored & [-> | (id & ->)] & Hfresh).
    + by destruct (Hfresh fresh_one_chat eq_refl).
    + by exists id.
Defined.





(** C9: [addParticipantToChat] is idempotent.  A second call with the
    same chat id and user id returns what the first returned and leaves
    the database as the first left it; when the user id already is a
    participant of the chat the database is not changed at all; the
    update is a set insertion into the participants of the chat; and in
    every case the messages collection and the message references of
    every chat are unchanged, the chat returned having the messages it
    had before. *)
Theorem addParticipantToChat_is_idempotent (s : Store) (chatId userId : string) :
  addParticipantToChat chatId userId (addParticipantToChat chatId userId s).2
    = addParticipantToChat chatId userId s
  /\ (forall d, find_chat s chatId = Some d -> userId ∈ doc_participants d ->
        (addParticipantToChat chatId userId s).2 = s)
  /\ (forall user d, find_user_by_id s userId = Some user -> find_chat s chatId = Some d ->
        find_chat (addParticipantToChat chatId userId s).2 chatId
          = Some (addToSet_participant userId d)
        /\ forall p, p ∈ doc_participants (addToSet_participant userId d)
                     <-> p ∈ doc_participants d \/ p = userId)
  /\ stored_messages (addParticipantToChat chatId userId s).2 = stored_messages s
  /\ map doc_messages (chats (addParticipantToChat chatId userId s).2)
     = map doc_messages (chats s)
  /\ (forall chat d,
        (addParticipantToChat chatId userId s).1 = Returned (Doc chat) ->
        find_chat s chatId = Some d ->
        messages chat = messages (populate s d)).
Proof.
  split; [apply addParticipantToChat_idempotent|].
  split; [apply addParticipantToChat_present|].
  split; [|split; [apply addParticipantToChat_messages|
                   split; [apply addParticipantToChat_messages|]]].
  - intros user d Hu Hd. rewrite addParticipantToChat_run, Hu, Hd. simpl.
    unfold find_chat in *. simpl. rewrite find_update_first, Hd by done.
    split; [done|]. intros p. apply elem_of_addToSet_participant.
  - intros chat d. rewrite addParticipantToChat_run.
    destruct (find_user_by_id s userId); [|done]. intros Hrun Hd. rewrite Hd in Hrun.
    simpl in Hrun. by injection Hrun as <-.
Qed.

(** C9, on an example: bob, already in the chat, is added to it. *)
Lemma addParticipantToChat_witness :
  addParticipantToChat "oid0" "u-bob" (addParticipantToChat "oid0" "u-bob" one_chat).2
    = addParticipantToChat "oid0" "u-bob" one_chat
  /\ (addParticipantToChat "oid0" "u-bob" one_chat).2 = one_chat.
Proof.
  destruct (addParticipantToChat_is_idempotent one_chat "oid0" "u-bob")
    as (Htwice & Hpresent & _).
  split; [exact Htwice|].
  apply (Hpresent {| doc_id := "oid0"; doc_participants := ["u-alice"; "u-bob"];
                     doc_messages := [] |}); [done|]. right. by left.
Defined.

(** C10: [handleSendMessage].  When the typed text is empty or all
    white space, or no chat is selected, or the selected chat has no
    [_id] (or an empty one), nothing is sent and the whole state is
    unchanged.  Otherwise exactly one add-message request is sent, to
    the selected chat, with the typed text, the user's name and the
    current time; if it succeeds the selected chat becomes the chat the
    service returned and the typed text becomes empty, the chats list
    and the rest of the state being unchanged; if it fails the state is
    unchanged. *)
Theorem handleSendMessage_frame
    (server : Client.MessagePayload -> string -> outcome Chat)
    (user_username : string) (now : Date) (w : Client.Browser) :
  (blank (Client.st_newMessage (Client.hook w)) = true
   \/ Client.st_selectedChat (Client.hook w) = None
   \/ (exists c, Client.st_selectedChat (Client.hook w) = Some c
                 /\ (chat_id c = None \/ chat_id c = Some "")) ->
   Client.send server user_username now w = (Returned tt, w))
  /\ (forall c id,
        blank (Client.st_newMessage (Client.hook w)) = false ->
        Client.st_selectedChat (Client.hook w) = Some c ->
        chat_id c = Some id -> id <> "" ->
        (forall updatedChat,
           server (outgoing user_username now w) id = Returned updatedChat ->
           Client.send server user_username now w =
             (Returned tt,
              {| Client.hook :=
                   hook_with (Client.hook w) (Some updatedChat)
                     (Client.st_chats (Client.hook w)) [];
                 Client.requests :=
                   Client.requests w ++ [(outgoing user_username now w, id)] |}))
        /\ (forall e,
              server (outgoing user_username now w) id = Threw e ->
              Client.send server user_username now w =
                (Returned tt,
                 {| Client.hook := Client.hook w;
                    Client.requests :=
                      Client.requests w ++ [(outgoing user_username now w, id)] |}))).
Proof.
  unfold Client.send, Client.handleSendMessage. rewrite truthy_trim, negb_involutive.
  split.
  - intros [Hb | [Hs | (c & Hs & [Hc | Hc])]].
    + by rewrite Hb.
    + rewrite Hs. simpl. by rewrite orb_true_r.
    + rewrite Hs. simpl. rewrite Hc. simpl. by rewrite orb_true_r.
    + rewrite Hs. simpl. rewrite Hc. simpl. by rewrite orb_true_r.
  - intros c id Hb Hs Hid Hne. rewrite Hb, Hs. simpl. rewrite Hid. simpl.
    assert (Ht : truthy id = true) by by destruct id.
    rewrite Ht. simpl.
    unfold try_catch, bind, Client.sendMessage, field, toString, outgoing. simpl.
    split.
    + intros upd Hsrv. by rewrite Hsrv.
    + intros e Hsrv. by rewrite Hsrv.
Qed.

(** C10, on an example: ["hi"] is typed while chat ["c1"] is selected,
    and the service answers with the updated chat. *)
Lemma handleSendMessage_witness :
  Client.send
    (fun _ _ => Returned {| chat_id := Some "c1"; participants := ["u-alice"];
                            messages := [] |})
    "alice" 7%Z
    {| Client.hook :=
         {| Client.st_showCreatePanel := false;
            Client.st_chatToCreate := "";
            Client.st_selectedChat :=
              Some {| chat_id := Some "c1"; participants := []; messages := [] |};
            Client.st_chats := [];
            Client.st_newMessage := [104%N; 105%N] |};
       Client.requests := [] |}
  = (Returned tt,
     {| Client.hook :=
          {| Client.st_showCreatePanel := false;
             Client.st_chatToCreate := "";
             Client.st_selectedChat :=
               Some {| chat_id := Some "c1"; participants := ["u-alice"];
                       messages := [] |};
             Client.st_chats := [];
             Client.st_newMessage := [] |};
        Client.requests :=
          [({| Client.mp_msg := [104%N; 105%N];
               Client.mp_msgFrom := "alice";
               Client.mp_msgDateTime := 7%Z |}, "c1")] |})
  /\ Client.send (fun _ _ => Threw (Error "unreachable")) "alice" 7%Z
       {| Client.hook :=
            {| Client.st_showCreatePanel := false;
               Client.st_chatToCreate := "";
               Client.st_selectedChat :=
                 Some {| chat_id := Some "c1"; participants := []; messages := [] |};
               Client.st_chats := [];
               Client.st_newMessage := [32%N; 9%N; 8195%N] |};
          Client.requests := [] |}
     = (Returned tt,
        {| Client.hook :=
             {| Client.st_showCreatePanel := false;
                Client.st_chatToCreate := "";
                Client.st_selectedChat :=
                  Some {| chat_id := Some "c1"; participants := []; messages := [] |};
                Client.st_chats := [];
                Client.st_newMessage := [32%N; 9%N; 8195%N] |};
           Client.requests := [] |}).
Proof.
  split.
  - destruct (handleSendMessage_frame
                (fun _ _ => Returned {| chat_id := Some "c1"; participants := ["u-alice"];
                                        messages := [] |})
                "alice" 7%Z
                {| Client.hook :=
                     {| Client.st_showCreatePanel := false;
                        Client.st_chatToCreate := "";
                        Client.st_selectedChat :=
                          Some {| chat_id := Some "c1"; participants := [];
                                  messages := [] |};
                        Client.st_chats := [];
                        Client.st_newMessage := [104%N; 105%N] |};
                   Client.requests := [] |}) as [_ Hsend].
    destruct (Hsend {| chat_id := Some "c1"; participants := []; messages := [] |} "c1"
                eq_refl eq_refl eq_refl ltac:(done)) as [Hok _].
    exact (Hok _ eq_refl).
  - apply handleSendMessage_frame. by left.
Defined.


(** * Further properties of the code *)

Section MoreRoutes.
Context {D : Type} `{!Models D}.

Lemma createChatRoute_answers req (w : World D) :
  exists resp w', createChatRoute req w = (Returned resp, w') /\ answered resp.
Proof.
  unfold createChatRoute. destruct (isCreateChatRequestValid req); run; [|answer].
  destruct (saveChat _ (db w)) as [[[c|e]|x] d1]; simpl; [|answer..].
  rewrite ?option_fmap_id.
  destruct (populateDocument (chat_id c) "chat" d1) as [[[p|e]|x] d2]; simpl; answer.
Qed.

Lemma addMessageToChatRoute_answers now req (w : World D) :
  exists resp w',
    addMessageToChatRoute now req w = (Returned resp, w') /\ answered resp.
Proof.
  unfold addMessageToChatRoute. destruct (isAddMessageRequestValid req); run; [|answer].
  destruct (createMessage _ (db w)) as [[[m|e]|x] d1]; simpl; [|answer..].
  destruct (msg_id m) as [i|]; simpl; [|answer].
  destruct (addMessageToChat _ i d1) as [[[c|e]|x] d2]; simpl; [|answer..].
  rewrite ?option_fmap_id.
  destruct (populateDocument (chat_id c) "chat" d2) as [[[p|e]|x] d3]; simpl; answer.
Qed.

Lemma getChatRoute_answers req (w : World D) :
  exists resp w',
    getChatRoute req w = (Returned resp, w') /\ answered resp /\ outbox w' = outbox w.
Proof.
  unfold getChatRoute. destruct (truthy_opt (ci_chatId req)); run; [|answer].
  destruct (getChat _ (db w)) as [[[c|e]|x] d1]; simpl; [|answer..].
  rewrite ?option_fmap_id.
  destruct (populateDocument (chat_id c) "chat" d1) as [[[p|e]|x] d2]; simpl; answer.
Qed.

Lemma addParticipantToChatRoute_answers req (w : World D) :
  exists resp w',
    addParticipantToChatRoute req w = (Returned resp, w')
    /\ answered resp /\ outbox w' = outbox w.
Proof.
  unfold addParticipantToChatRoute.
  destruct (isAddParticipantRequestValid req); run; [|answer].
  destruct (addParticipantToChat _ _ (db w)) as [[[c|e]|x] d1]; simpl; answer.
Qed.

Lemma populate_into_outbox acc chat (w : World D) r w' :
  populate_into acc chat w = (r, w') -> outbox w' = outbox w.
Proof.
  unfold populate_into. run.
  destruct (populateDocument _ _ (db w)) as [[[p|e]|x] d1]; simpl; by intros [= <- <-].
Qed.

Lemma populate_loop_outbox chats acc (w : World D) r w' :
  for_of chats acc populate_into w = (r, w') -> outbox w' = outbox w.
Proof.
  revert acc w. induction chats as [|c cs IH]; intros acc w; simpl.
  - by intros [= <- <-].
  - unfold bind. destruct (populate_into acc c w) as [[a|e] w1] eqn:E;
      apply populate_into_outbox in E.
    + intros H. apply IH in H. congruence.
    + by intros [= <- <-].
Qed.

Lemma getChatsByUserRoute_answers req (w : World D) :
  exists resp w',
    getChatsByUserRoute req w = (Returned resp, w')
    /\ answered resp /\ outbox w' = outbox w.
Proof.
  unfold getChatsByUserRoute.
  destruct (truthy_opt (gc_username req)); simpl; [|run; answer].
  unfold try_catch, bind at 1, await.
  destruct (getChatsByParticipants _ (db w)) as [[chats|e] d1]; simpl; [|run; answer].
  unfold bind.
  destruct (for_of chats [] populate_into _) as [[ps|e] w1] eqn:E;
    apply populate_loop_outbox in E; simpl in E; run; answer.
Qed.

(** X1: every chat route always answers, whatever the database does: it
    never throws, and its status is 200, 400 or 500. *)
Theorem chat_routes_always_answer now (w : World D) :
  (forall req, exists resp w',
     createChatRoute req w = (Returned resp, w') /\ answered resp)
  /\ (forall req, exists resp w',
        addMessageToChatRoute now req w = (Returned resp, w') /\ answered resp)
  /\ (forall req, exists resp w',
        getChatRoute req w = (Returned resp, w') /\ answered resp)
  /\ (forall req, exists resp w',
        getChatsByUserRoute req w = (Returned resp, w') /\ answered resp)
  /\ (forall req, exists resp w',
        addParticipantToChatRoute req w = (Returned resp, w') /\ answered resp).
Proof.
  repeat split; intros req.
  - apply createChatRoute_answers.
  - apply addMessageToChatRoute_answers.
  - destruct (getChatRoute_answers req w) as (r & w' & ? & ? & _); eauto.
  - destruct (getChatsByUserRoute_answers req w) as (r & w' & ? & ? & _); eauto.
  - destruct (addParticipantToChatRoute_answers req w) as (r & w' & ? & ? & _); eauto.
Qed.

(** X2: the get-chat, chats-by-user and add-participant routes never
    emit anything on the socket server, whatever they answer; in
    particular nobody is told that a participant was added. *)
Theorem only_two_routes_emit (w : World D) :
  (forall req, outbox (getChatRoute req w).2 = outbox w)
  /\ (forall req, outbox (getChatsByUserRoute req w).2 = outbox w)
  /\ (forall req, outbox (addParticipantToChatRoute req w).2 = outbox w).
Proof.
  repeat split; intros req.
  - destruct (getChatRoute_answers req w) as (r & w' & -> & _ & ?); eauto.
  - destruct (getChatsByUserRoute_answers req w) as (r & w' & -> & _ & ?); eauto.
  - destruct (addParticipantToChatRoute_answers req w) as (r & w' & -> & _ & ?); eauto.
Qed.

End MoreRoutes.

Lemma isAddParticipantRequestValid_false req :
  isAddParticipantRequestValid req = false <-> invalid_add_participant req.
Proof.
  unfold isAddParticipantRequestValid, invalid_add_participant.
  destruct req as [[[pid]|] c]; simpl; [|by split; [left|]].
  rewrite !andb_false_iff, !bool_decide_eq_false. split.
  - intros [[H|H]|H].
    + right; left. eexists. split; [done|]. simpl. by destruct pid; [destruct H|].
    + right; right; left. by destruct c; [destruct H|].
    + right; right; right. destruct (decide (c = Some "")); [done|by destruct H].
  - intros [?|[(b & Hb' & Hb) | [-> | ->]]]; [done| |naive_solver..].
    injection Hb' as <-. simpl in Hb. subst pid. naive_solver.
Qed.

Lemma truthy_opt_false param : truthy_opt param = false <-> missing param.
Proof.
  unfold missing. destruct param as [[|a s]|]; simpl; split; try done; try tauto.
  - by intros [?|?].
Qed.

Section MoreValidation.
Context {D : Type} `{!Models D}.

(** X3: add-participant request validation.  The route answers 400
    with ['Invalid participant request body'], leaving database and
    socket server as they were, exactly when the body or its
    [participantId] is missing or the [chatId] parameter is missing or
    empty (an empty [participantId] is let through).  Otherwise it runs
    [addParticipantToChat] on the two ids and answers 200 with the chat
    it returns, or 500 with the error it returns. *)
Theorem add_participant_request_validation req (w : World D) :
  ((addParticipantToChatRoute req w).1
     = Returned (bad_request "Invalid participant request body")
   <-> invalid_add_participant req)
  /\ (invalid_add_participant req ->
      addParticipantToChatRoute req w
        = (Returned (bad_request "Invalid participant request body"), w))
  /\ (forall body participantId chatId,
        ap_body req = Some body -> apb_participantId body = Some participantId ->
        ap_chatId req = Some chatId -> chatId <> "" ->
        exists result d1,
          addParticipantToChat chatId participantId (db w) = (Returned result, d1)
          /\ addParticipantToChatRoute req w =
               (Returned
                  match result with
                  | Doc chat => {| status := 200; sent := Json chat |}
                  | ErrorResponse error =>
                      server_error "Error when adding participant to chat: "
                        ("Error: " +:+ error)
                  end,
                {| db := d1; outbox := outbox w |})).
Proof.
  assert (Hinv : invalid_add_participant req ->
            addParticipantToChatRoute req w
              = (Returned (bad_request "Invalid participant request body"), w)).
  { intros Hi%isAddParticipantRequestValid_false.
    unfold addParticipantToChatRoute. by rewrite Hi. }
  split; [|split; [done|]].
  - split; [|by intros Hi; rewrite Hinv].
    intros Hresp. apply isAddParticipantRequestValid_false.
    destruct (isAddParticipantRequestValid req) eqn:Hv; [|done].
    unfold addParticipantToChatRoute in Hresp. rewrite Hv in Hresp. run.
    by destruct (addParticipantToChat _ _ (db w)) as [[[c|e]|x] d1].
  - intros body pid chatId Hb Hp Hc Hne.
    destruct (addParticipantToChat_returns chatId pid (db w)) as (r & d1 & Hr).
    exists r, d1. split; [done|].
    assert (Hv : isAddParticipantRequestValid req = true).
    { destruct (isAddParticipantRequestValid req) eqn:Hv; [done|].
      apply isAddParticipantRequestValid_false in Hv.
      destruct Hv as [?|[(b & ? & ?) | [?|?]]]; congruence. }
    unfold addParticipantToChatRoute. rewrite Hv, Hb, Hc. run. rewrite Hp. simpl.
    rewrite Hr. destruct r as [chat|error]; [done|]. simpl.
    by rewrite (exn_to_string_Error error)
      by apply (addParticipantToChat_error _ _ _ _ _ Hr).
Qed.

(** X4: the get-chat route answers 400 with ['Chat ID is required']
    exactly when the [chatId] parameter is missing or empty, and the
    chats-by-user route answers 400 with ['Username is required']
    exactly when the [username] parameter is missing or empty; in both
    cases nothing is called and nothing changes. *)
Theorem missing_parameter_is_a_bad_request (w : World D) :
  (forall req,
     ((getChatRoute req w).1 = Returned (bad_request "Chat ID is required")
      <-> missing (ci_chatId req))
     /\ (missing (ci_chatId req) ->
         getChatRoute req w = (Returned (bad_request "Chat ID is required"), w)))
  /\ (forall req,
        ((getChatsByUserRoute req w).1 = Returned (bad_request "Username is required")
         <-> missing (gc_username req))
        /\ (missing (gc_username req) ->
            getChatsByUserRoute req w
              = (Returned (bad_request "Username is required"), w))).
Proof.
  split; intros req.
  - assert (Hm : missing (ci_chatId req) ->
              getChatRoute req w = (Returned (bad_request "Chat ID is required"), w)).
    { intros Hi%truthy_opt_false. unfold getChatRoute. by rewrite Hi. }
    split; [|done]. split; [|by intros Hi; rewrite Hm].
    intros Hresp. apply truthy_opt_false.
    destruct (truthy_opt (ci_chatId req)) eqn:Ht; [|done].
    destruct (getChatRoute_answers req w) as (r & w' & Hrun & _).
    unfold getChatRoute in Hresp. rewrite Ht in Hresp. run.
    destruct (getChat _ (db w)) as [[[c|e]|x] d1]; simpl in *; try done.
    rewrite ?option_fmap_id in Hresp.
    by destruct (populateDocument (chat_id c) "chat" d1) as [[[p|e]|x] d2].
  - assert (Hm : missing (gc_username req) ->
              getChatsByUserRoute req w
                = (Returned (bad_request "Username is required"), w)).
    { intros Hi%truthy_opt_false. unfold getChatsByUserRoute. by rewrite Hi. }
    split; [|done]. split; [|by intros Hi; rewrite Hm].
    intros Hresp. apply truthy_opt_false.
    destruct (truthy_opt (gc_username req)) eqn:Ht; [|done].
    unfold getChatsByUserRoute in Hresp. rewrite Ht in Hresp. simpl in Hresp.
    unfold try_catch, bind at 1, await in Hresp.
    destruct (getChatsByParticipants _ (db w)) as [[chats|e] d1]; simpl in Hresp;
      [|by run].
    unfold bind in Hresp.
    by destruct (for_of chats [] populate_into _) as [[ps|e] w1].
Qed.

(** When [getChatsByParticipants] finds nothing, the chats-by-user
    route answers 200 with the empty list. *)
Lemma getChatsByUserRoute_nothing req (w : World D) :
  truthy_opt (gc_username req) = true ->
  (getChatsByParticipants [field (gc_username req)] (db w)).1 = Returned [] ->
  (getChatsByUserRoute req w).1 = Returned {| status := 200; sent := JsonList [] |}.
Proof.
  intros Ht Hg. unfold getChatsByUserRoute. rewrite Ht. simpl.
  unfold try_catch, bind at 1, await.
  destruct (getChatsByParticipants _ (db w)) as [r d1]. simpl in Hg. by subst r.
Qed.

(** X5: the chats-by-user route hides database errors.  When the user
    query or the chat query throws, the route still answers 200, with
    the empty list. *)
Theorem chats_by_user_hides_database_errors req (w : World D) :
  truthy_opt (gc_username req) = true ->
  (exists e, (UserModel_find [field (gc_username req)] (db w)).1 = Threw e)
  \/ (exists users d1 e,
        UserModel_find [field (gc_username req)] (db w) = (Returned users, d1)
        /\ (ChatModel_find (map user_id users) d1).1 = Threw e) ->
  (getChatsByUserRoute req w).1 = Returned {| status := 200; sent := JsonList [] |}.
Proof.
  intros Ht Herr. apply getChatsByUserRoute_nothing; [done|].
  by apply getChatsByParticipants_db_error.
Qed.

End MoreValidation.

(** X5, on an example: the database has stopped answering. *)
Lemma chats_by_user_hides_database_errors_witness :
  (getChatsByUserRoute {| gc_username := Some "alice" |} (quiet (0, one_chat))).1
  = Returned {| status := 200; sent := JsonList [] |}.
Proof.
  apply chats_by_user_hides_database_errors; [done|]. left. by eexists.
Defined.

(** ** More on the chat service over the in-memory store *)

Lemma find_update_first_ne id other f l :
  (forall d, doc_id (f d) = doc_id d) -> other <> id ->
  List.find (fun d => bool_decide (doc_id d = other)) (update_first id f l)
  = List.find (fun d => bool_decide (doc_id d = other)) l.
Proof.
  intros Hid Hne. induction l as [|d l IH]; simpl; [done|].
  destruct (bool_decide (doc_id d = id)) eqn:E; simpl.
  - apply bool_decide_eq_true in E. rewrite Hid.
    by rewrite !bool_decide_eq_false_2 by congruence.
  - by rewrite IH.
Qed.

Lemma length_update_first id f l : length (update_first id f l) = length l.
Proof.
  induction l as [|d l IH]; simpl; [done|].
  destruct (bool_decide _); simpl; by rewrite ?IH.
Qed.

Lemma addMessageToChat_run (s : Store) chatId messageId :
  addMessageToChat chatId messageId s =
    match find_chat s chatId with
    | None =>
        (Returned (ErrorResponse
           "Error occurred when adding message to chat: Error: Chat not found or failed to update"),
         s)
    | Some d =>
        (Returned
           (Doc (populate
                   (with_chats s (update_first chatId (push_message messageId) (chats s)))
                   (push_message messageId d))),
         with_chats s (update_first chatId (push_message messageId) (chats s)))
    end.
Proof.
  unfold addMessageToChat, try_catch, bind. simpl. unfold findByIdAndUpdate.
  by destruct (find_chat s chatId).
Qed.

Lemma getChat_run (s : Store) chatId :
  getChat chatId s =
    (Returned match find_chat s chatId with
              | Some d => Doc (populate s d)
              | None =>
                  ErrorResponse
                    "Error occurred when retrieving chat: Error: Chat not found"
              end, s).
Proof.
  unfold getChat, try_catch, bind. simpl. by destruct (find_chat s chatId).
Qed.

(** X6: [addMessageToChat] on the store.  For a chat id that is not in
    the database it returns an error and changes nothing.  Otherwise it
    appends the message id at the end of the message references of that
    chat, also when the id is already listed, and changes nothing else:
    users, messages, the number of chats and every other chat are as
    before. *)
Theorem addMessageToChat_appends (s : Store) (chatId messageId : string) :
  (find_chat s chatId = None ->
   exists error,
     addMessageToChat chatId messageId s = (Returned (ErrorResponse error), s))
  /\ (forall d, find_chat s chatId = Some d ->
      exists chat s',
        addMessageToChat chatId messageId s = (Returned (Doc chat), s')
        /\ chat_id chat = Some chatId
        /\ participants chat = doc_participants d
        /\ (exists d', find_chat s' chatId = Some d'
                       /\ doc_messages d' = doc_messages d ++ [messageId]
                       /\ doc_participants d' = doc_participants d)
        /\ users s' = users s
        /\ stored_messages s' = stored_messages s
        /\ length (chats s') = length (chats s)
        /\ forall other, other <> chatId -> find_chat s' other = find_chat s other).
Proof.
  rewrite addMessageToChat_run. split.
  - intros ->. by eexists.
  - intros d Hd. rewrite Hd. do 2 eexists. split; [done|].
    destruct (find_chat_Some s chatId d Hd) as [_ Hid].
    simpl. repeat split; try done.
    + by rewrite Hid.
    + exists (push_message messageId d). unfold find_chat in *. simpl.
      by rewrite find_update_first, Hd.
    + apply length_update_first.
    + intros other Hne. unfold find_chat. simpl. by apply find_update_first_ne.
Qed.

(** X6, on an example: the same message id is added twice to the chat
    ["oid0"], and is then listed twice. *)
Lemma addMessageToChat_appends_witness :
  chats (addMessageToChat "oid0" "m1" (addMessageToChat "oid0" "m1" one_chat).2).2
  = [{| doc_id := "oid0";
        doc_participants := ["u-alice"; "u-bob"];
        doc_messages := ["m1"; "m1"] |}]
  /\ exists chat s',
       addMessageToChat "oid0" "m1" one_chat = (Returned (Doc chat), s')
       /\ chat_id chat = Some "oid0".
Proof.
  split; [done|].
  destruct (addMessageToChat_appends one_chat "oid0" "m1") as [_ H].
  destruct (H {| doc_id := "oid0"; doc_participants := ["u-alice"; "u-bob"];
                 doc_messages := [] |} eq_refl)
    as (chat & s' & Hrun & Hid & _).
  by exists chat, s'.
Defined.

(** X7: what a service returns is what [getChat] returns next.  After
    [saveChat], [addMessageToChat] or [addParticipantToChat] has
    returned a chat, [getChat] with the id of that chat returns the same
    chat and leaves the database as it is. *)
Theorem getChat_returns_what_was_written (s s' : Store) (chat : Chat) :
  (forall payload, saveChat payload s = (Returned (Doc chat), s') ->
     exists id, chat_id chat = Some id /\ getChat id s' = (Returned (Doc chat), s'))
  /\ (forall chatId messageId,
        addMessageToChat chatId messageId s = (Returned (Doc chat), s') ->
        chat_id chat = Some chatId /\ getChat chatId s' = (Returned (Doc chat), s'))
  /\ (forall chatId userId,
        addParticipantToChat chatId userId s = (Returned (Doc chat), s') ->
        chat_id chat = Some chatId /\ getChat chatId s' = (Returned (Doc chat), s')).
Proof.
  split; [|split].
  - intros payload Hsave.
    destruct (saveChat_result s payload chat s' Hsave) as (doc & Hc & _ & _ & Hnew & ->).
    exists (doc_id doc). split; [done|]. rewrite getChat_run. unfold find_chat.
    by rewrite Hc, (find_new_chat (chats s) doc).
  - intros chatId messageId. rewrite addMessageToChat_run.
    destruct (find_chat s chatId) as [d|] eqn:Hd; [|done]. intros [= <- <-].
    destruct (find_chat_Some s chatId d Hd) as [_ Hid]. simpl. split; [by rewrite Hid|].
    rewrite getChat_run. unfold find_chat in *. simpl.
    by rewrite find_update_first, Hd.
  - intros chatId userId. rewrite addParticipantToChat_run.
    destruct (find_user_by_id s userId); [|done].
    destruct (find_chat s chatId) as [d|] eqn:Hd; [|done]. intros [= <- <-].
    destruct (find_chat_Some s chatId d Hd) as [_ Hid]. simpl. split; [by rewrite Hid|].
    rewrite getChat_run. unfold find_chat in *. simpl.
    by rewrite find_update_first, Hd.
Qed.

(** X7, on an example: a chat between alice and bob is saved and read
    back. *)
Lemma getChat_returns_what_was_written_witness :
  exists id chat s',
    saveChat {| cp_participants := ["alice"; "bob"]; cp_messages := [] |} two_users
      = (Returned (Doc chat), s')
    /\ chat_id chat = Some id
    /\ getChat id s' = (Returned (Doc chat), s').
Proof.
  destruct (saveChat_saves two_users
              {| cp_participants := ["alice"; "bob"]; cp_messages := [] |}
              fresh_two_users (List.Forall_nil _)) as (chat & s' & Hsave).
  destruct (getChat_returns_what_was_written two_users s' chat) as [H _].
  destruct (H _ Hsave) as (id & Hid & Hget).
  by exists id, chat, s'.
Defined.

(** The add-message route on a working database, for a request that
    passes validation. *)
Lemma addMessageToChatRoute_run now req (w : World Store) :
  isAddMessageRequestValid req = true -> fresh (db w) ->
  addMessageToChatRoute now req w =
    match find_chat (db w) (field (am_chatId req)) with
    | None =>
        (Returned
           (server_error "Error when adding message to chat: "
              "Error: Error occurred when adding message to chat: Error: Chat not found or failed to update"),
         {| db := with_message (db w) (new_message now req (db w));
            outbox := outbox w |})
    | Some d =>
        (Returned
           {| status := 200;
              sent :=
                Json (populate
                        (with_reference
                           (with_message (db w) (new_message now req (db w)))
                           (field (am_chatId req)) (oid (next_oid (db w))))
                        (push_message (oid (next_oid (db w))) d)) |},
         {| db := with_reference
                    (with_message (db w) (new_message now req (db w)))
                    (field (am_chatId req)) (oid (next_oid (db w)));
            outbox :=
              outbox w
              ++ [chat_update (Room (field (am_chatId req)))
                    (populate
                       (with_reference
                          (with_message (db w) (new_message now req (db w)))
                          (field (am_chatId req)) (oid (next_oid (db w))))
                       (push_message (oid (next_oid (db w))) d))
                    "newMessage"] |})
    end.
Proof.
  intros Hv Hfresh. unfold addMessageToChatRoute. rewrite Hv.
  unfold try_catch at 1. unfold bind at 1. unfold await at 1. cbn [negb]. cbv beta iota.
  change (createMessage _ (db w)) with (createMessage (direct_message now req) (db w)).
  rewrite createMessage_run by done.
  destruct (Hfresh (next_oid (db w))) as [Hn _]; [done|].
  rewrite bool_decide_eq_false_2 by done.
  cbv beta iota zeta. unfold stored_as at 1. cbn [msg_id].
  fold (new_message now req (db w)). fold (with_message (db w) (new_message now req (db w))).
  unfold bind at 1. unfold await at 1. cbn [db]. unfold toString at 1.
  rewrite addMessageToChat_run.
  change (find_chat (with_message (db w) (new_message now req (db w)))
            (field (am_chatId req)))
    with (find_chat (db w) (field (am_chatId req))).
  destruct (find_chat (db w) (field (am_chatId req))) as [d|] eqn:Hd; [|done].
  cbv beta iota zeta. unfold bind at 1. unfold await at 1. cbn [db].
  change (@populateDocument Store models) with populate_document.
  fold (with_reference (with_message (db w) (new_message now req (db w)))
          (field (am_chatId req)) (oid (next_oid (db w)))).
  unfold populate_document. cbn [populate chat_id fmap option_fmap option_map toString].
  destruct (find_chat_Some _ _ _ Hd) as [_ Hid].
  assert (Hfind : find_chat
            (with_reference (with_message (db w) (new_message now req (db w)))
               (field (am_chatId req)) (oid (next_oid (db w))))
            (doc_id d)
          = Some (push_message (oid (next_oid (db w))) d)).
  { rewrite Hid. unfold find_chat, with_reference in *. simpl.
    by rewrite find_update_first, Hd. }
  change (doc_id (push_message (oid (next_oid (db w))) d)) with (doc_id d).
  unfold toString at 1. rewrite Hfind. done.
Qed.

(** X8: an add-message request for a chat that does not exist is
    answered 500, but the message has been created by then and stays in
    the messages collection, referenced by no chat; chats are as before
    and nothing is emitted. *)
Theorem failed_add_message_leaves_the_message now req (w : World Store) :
  isAddMessageRequestValid req = true -> fresh (db w) ->
  find_chat (db w) (field (am_chatId req)) = None ->
  (addMessageToChatRoute now req w).1
    = Returned
        (server_error "Error when adding message to chat: "
           "Error: Error occurred when adding message to chat: Error: Chat not found or failed to update")
  /\ stored_messages (db (addMessageToChatRoute now req w).2)
     = stored_messages (db w) ++ [new_message now req (db w)]
  /\ chats (db (addMessageToChatRoute now req w).2) = chats (db w)
  /\ outbox (addMessageToChatRoute now req w).2 = outbox w.
Proof.
  intros Hv Hfresh Hnone. rewrite addMessageToChatRoute_run by done. by rewrite Hnone.
Qed.

(** X8, on an example: ["hello"] for the chat ["oid0"], which the
    database with two users and no chat does not have. *)
Lemma failed_add_message_leaves_the_message_witness :
  stored_messages (db (addMessageToChatRoute 7%Z say_hello (quiet two_users)).2)
  = [] ++ [new_message 7%Z say_hello two_users]
  /\ chats (db (addMessageToChatRoute 7%Z say_hello (quiet two_users)).2) = [].
Proof.
  destruct (failed_add_message_leaves_the_message 7%Z say_hello (quiet two_users)
              eq_refl fresh_two_users eq_refl) as (_ & Hm & Hc & _).
  by split.
Defined.

(** X9: an add-message request for an existing chat, on a working
    database, is answered 200 with the updated chat, which is also the
    chat that is emitted: its messages are the messages it had followed
    by the new message, its participants are unchanged, and the
    database holds the new message and lists its id last in the chat. *)
Theorem add_message_puts_the_message_last now req (w : World Store) d :
  isAddMessageRequestValid req = true -> fresh (db w) ->
  find_chat (db w) (field (am_chatId req)) = Some d ->
  exists chat w',
    addMessageToChatRoute now req w
      = (Returned {| status := 200; sent := Json chat |}, w')
    /\ outbox w' =
         outbox w ++ [chat_update (Room (field (am_chatId req))) chat "newMessage"]
    /\ messages chat =
         omap (find_message (with_message (db w) (new_message now req (db w))))
              (doc_messages d)
         ++ [new_message now req (db w)]
    /\ participants chat = doc_participants d
    /\ stored_messages (db w')
       = stored_messages (db w) ++ [new_message now req (db w)]
    /\ exists d', find_chat (db w') (field (am_chatId req)) = Some d'
                  /\ doc_messages d' = doc_messages d ++ [oid (next_oid (db w))].
Proof.
  intros Hv Hfresh Hd. rewrite addMessageToChatRoute_run by done. rewrite Hd.
  do 2 eexists. split; [done|]. simpl. split; [done|]. split; [|split; [done|split; [done|]]].
  - rewrite omap_app. f_equal. simpl. unfold find_message. simpl.
    destruct (Hfresh (next_oid (db w))) as [Hn _]; [done|].
    by rewrite (find_new_message _ (new_message now req (db w)) (oid (next_oid (db w)))).
  - exists (push_message (oid (next_oid (db w))) d). split; [|done].
    unfold find_chat in *. simpl. by rewrite find_update_first, Hd.
Qed.

(** X9, on an example: ["hello"] is the first message of chat ["oid0"]. *)
Lemma add_message_puts_the_message_last_witness :
  exists chat,
    (addMessageToChatRoute 7%Z say_hello (quiet one_chat)).1
      = Returned {| status := 200; sent := Json chat |}
    /\ messages chat = [] ++ [new_message 7%Z say_hello one_chat].
Proof.
  destruct (add_message_puts_the_message_last 7%Z say_hello (quiet one_chat)
              {| doc_id := "oid0"; doc_participants := ["u-alice"; "u-bob"];
                 doc_messages := [] |} eq_refl fresh_one_chat eq_refl)
    as (chat & w' & Hrun & _ & Hm & _).
  exists chat. by rewrite Hrun.
Defined.

(** ** More on chats by participants *)

Lemma found_usernames (s : Store) (p : list string) name :
  name ∈ map username (List.filter (fun u => bool_decide (username u ∈ p)) (users s))
  <-> name ∈ p /\ name ∈ map username (users s).
Proof.
  rewrite !list_elem_of_fmap. split.
  - intros (u & -> & Hu). apply list_elem_of_In, filter_In in Hu as [Hu Hp].
    apply bool_decide_eq_true in Hp. split; [done|]. exists u. split; [done|].
    by apply list_elem_of_In.
  - intros (Hp & u & -> & Hu). exists u. split; [done|].
    apply list_elem_of_In, filter_In. split; [by apply list_elem_of_In|].
    by apply bool_decide_eq_true.
Qed.

(** With unique usernames, the users found for distinct, existing
    usernames are as many as the usernames. *)
Lemma found_users_all (s : Store) (p : list string) :
  NoDup (map username (users s)) -> NoDup p ->
  (forall name, name ∈ p -> name ∈ map username (users s)) ->
  length (List.filter (fun u => bool_decide (username u ∈ p)) (users s)) = length p.
Proof.
  intros Hnd Hp Hall. rewrite <- (length_map username). apply Nat.le_antisymm.
  - apply submseteq_length, NoDup_submseteq; [by apply NoDup_map_filter|].
    intros x Hx. by apply found_usernames in Hx as [? _].
  - apply submseteq_length, NoDup_submseteq; [done|].
    intros x Hx. apply found_usernames. split; [done|]. by apply Hall.
Qed.

(** With unique usernames, a repeated username leaves fewer users than
    usernames. *)
Lemma found_users_fewer_dup (s : Store) (p : list string) :
  NoDup (map username (users s)) -> ~ NoDup p ->
  length (List.filter (fun u => bool_decide (username u ∈ p)) (users s)) < length p.
Proof.
  intros Hnd Hp. rewrite <- (length_map username).
  apply Nat.le_lt_trans with (length (remove_dups p)).
  - apply submseteq_length, NoDup_submseteq; [by apply NoDup_map_filter|].
    intros x Hx. apply elem_of_remove_dups. by apply found_usernames in Hx as [? _].
  - destruct (decide (length (remove_dups p) < length p)) as [?|Hge]; [done|].
    destruct Hp.
    assert (Hsub : remove_dups p ⊆+ p).
    { apply NoDup_submseteq; [apply NoDup_remove_dups|].
      intros x. apply elem_of_remove_dups. }
    assert (Hperm : remove_dups p ≡ₚ p).
    { apply submseteq_length_Permutation; [done|lia]. }
    rewrite <- Hperm. apply NoDup_remove_dups.
Qed.

Lemma find_user_by_username_unique (s : Store) u :
  NoDup (map username (users s)) -> u ∈ users s ->
  find_user_by_username s (username u) = Some u.
Proof.
  unfold find_user_by_username. induction (users s) as [|v l IH]; simpl.
  - by intros _ ?%elem_of_nil.
  - intros [Hv Hnd]%NoDup_cons [->|Hin]%elem_of_cons.
    + by rewrite bool_decide_eq_true_2.
    + rewrite bool_decide_eq_false_2; [by apply IH|].
      intros Heq. apply Hv. rewrite Heq. apply list_elem_of_fmap. by exists u.
Qed.

(** With unique usernames, the ids of the users found are the resolved
    usernames. *)
Lemma has_all_includes_all (s : Store) (p : list string) d :
  NoDup (map username (users s)) -> p <> [] ->
  (forall name, name ∈ p -> name ∈ map username (users s)) ->
  length (List.filter (fun u => bool_decide (username u ∈ p)) (users s)) = length p ->
  has_all (map user_id (List.filter (fun u => bool_decide (username u ∈ p)) (users s))) d
  = includes_all s p d.
Proof.
  intros Hnd Hne Hall Hlen. unfold has_all, includes_all.
  destruct (map user_id _) as [|i ids] eqn:Hids.
  { apply (f_equal length) in Hids. rewrite length_map, Hlen in Hids.
    by destruct p. }
  rewrite <- Hids. clear i ids Hids.
  apply eq_true_iff_eq. rewrite !forallb_forall. split.
  - intros H name Hname%list_elem_of_In. apply bool_decide_eq_true.
    pose proof (Hall name Hname) as Hin.
    apply list_elem_of_fmap in Hin as (u & -> & Hu).
    unfold resolve. rewrite find_user_by_username_unique by done.
    specialize (H (user_id u)). rewrite bool_decide_eq_true in H. apply H.
    apply list_elem_of_In, list_elem_of_fmap. exists u. split; [done|].
    apply list_elem_of_In, filter_In. split; [by apply list_elem_of_In|].
    by apply bool_decide_eq_true.
  - intros H i Hi%list_elem_of_In. apply list_elem_of_fmap in Hi as (u & -> & Hu).
    apply list_elem_of_In, filter_In in Hu as [Hu Hp]. apply bool_decide_eq_true in Hp.
    apply list_elem_of_In in Hu.
    specialize (H (username u)). rewrite bool_decide_eq_true in H.
    unfold resolve in H. rewrite find_user_by_username_unique in H by done.
    apply bool_decide_eq_true, H. by apply list_elem_of_In.
Qed.

(** X10: which chats [getChatsByParticipants] returns.  Provided that
    no two users share a username, for a non-empty list of distinct
    usernames of existing users it returns, populated and in stored
    order, exactly the chats that have the id of every named user among
    their participants; it only reads. *)
Theorem getChatsByParticipants_finds_common_chats (s : Store) (p : list string) :
  NoDup (map username (users s)) -> NoDup p -> p <> [] ->
  (forall name, name ∈ p -> name ∈ map username (users s)) ->
  getChatsByParticipants p s
  = (Returned (map (populate s) (List.filter (includes_all s p) (chats s))), s).
Proof.
  intros Hnd Hp Hne Hall. pose proof (found_users_all s p Hnd Hp Hall) as Hlen.
  unfold getChatsByParticipants, try_catch, bind. simpl.
  rewrite Hlen, Nat.eqb_refl. simpl. unfold ret. do 3 f_equal.
  apply filter_ext_in_iff; intros d _. by apply has_all_includes_all.
Qed.

(** X10, on an example: alice and bob have one chat in common. *)
Lemma getChatsByParticipants_finds_common_chats_witness :
  getChatsByParticipants ["bob"; "alice"] one_chat
  = (Returned [{| chat_id := Some "oid0";
                  participants := ["u-alice"; "u-bob"];
                  messages := [] |}], one_chat).
Proof.
  apply (getChatsByParticipants_finds_common_chats one_chat ["bob"; "alice"]).
  - simpl. apply NoDup_cons. split; [by intros ?%list_elem_of_singleton|].
    apply NoDup_singleton.
  - apply NoDup_cons. split; [by intros ?%list_elem_of_singleton|]. apply NoDup_singleton.
  - done.
  - intros name [->|[->|[]%elem_of_nil]%elem_of_cons]%elem_of_cons; simpl.
    + right. by left.
    + by left.
Defined.

(** X11: two cases in which [getChatsByParticipants] returns nothing
    although every username is that of an existing user: the empty list
    of usernames, and, provided that no two users share a username, a
    list in which a username occurs twice. *)
Theorem getChatsByParticipants_empty_or_repeated (s : Store) :
  getChatsByParticipants [] s = (Returned [], s)
  /\ (forall p, NoDup (map username (users s)) -> ~ NoDup p ->
        getChatsByParticipants p s = (Returned [], s)).
Proof.
  split.
  - apply getChatsByParticipants_no_match. intros d _. simpl.
    by induction (users s).
  - intros p Hnd Hp. pose proof (found_users_fewer_dup s p Hnd Hp) as Hlt.
    unfold getChatsByParticipants, try_catch, bind. simpl.
    destruct (Nat.eqb_spec
                (length (List.filter (fun u => bool_decide (username u ∈ p)) (users s)))
                (length p)) as [Heq|Hne]; [lia|done].
Qed.

(** X11, on an example: alice named twice. *)
Lemma getChatsByParticipants_empty_or_repeated_witness :
  getChatsByParticipants ["alice"; "alice"] one_chat = (Returned [], one_chat).
Proof.
  destruct (getChatsByParticipants_empty_or_repeated one_chat) as [_ H]. apply H.
  - simpl. apply NoDup_cons. split; [by intros ?%list_elem_of_singleton|].
    apply NoDup_singleton.
  - intros [Hn _]%NoDup_cons. apply Hn. by left.
Defined.

(** ** More on saving a chat *)

(** X12: [saveChat] on a store whose generated ids are not in use, for
    messages that bring no id.  It returns a chat, never an error: the
    participants are the resolved ones in the order given, the messages
    are the given ones in the order given, each under a newly generated
    id.  The messages are appended to the stored messages in that
    order, one chat document is appended, and users are untouched. *)
Theorem saveChat_stores_messages_in_order (s : Store) payload :
  fresh s -> Forall (fun m => msg_id m = None) (cp_messages payload) ->
  exists chat s',
    saveChat payload s = (Returned (Doc chat), s')
    /\ participants chat = map (resolve s) (cp_participants payload)
    /\ messages chat = stored_from (next_oid s) (cp_messages payload)
    /\ users s' = users s
    /\ stored_messages s'
       = stored_messages s ++ stored_from (next_oid s) (cp_messages payload)
    /\ exists doc, chats s' = chats s ++ [doc].
Proof.
  intros Hf Hms. destruct (saveChat_run s payload Hf Hms) as (s' & Hrun & Hu & Hm & Hc).
  by do 2 eexists.
Qed.

(** X12, on an example: a chat with two messages. *)
Lemma saveChat_stores_messages_in_order_witness :
  exists chat s',
    saveChat {| cp_participants := ["alice"; "nobody"];
                cp_messages := [direct_message 7%Z say_hello; direct_message 8%Z say_hello] |}
      one_chat = (Returned (Doc chat), s')
    /\ participants chat = ["u-alice"; "nobody"]
    /\ map msg_id (messages chat) = [Some "oid1"; Some "oid2"]
    /\ map msgDateTime (messages chat) = [7%Z; 8%Z].
Proof.
  edestruct (saveChat_stores_messages_in_order one_chat
               {| cp_participants := ["alice"; "nobody"];
                  cp_messages := [direct_message 7%Z say_hello; direct_message 8%Z say_hello] |}
               fresh_one_chat)
    as (chat & s' & Hrun & Hp & Hm & _).
  { by repeat constructor. }
  exists chat, s'. by rewrite Hp, Hm.
Defined.

(** X13: [saveChat] does not undo what it has stored when it fails.  On
    a store whose generated ids are not in use, when a message of the
    payload carries an id that a stored message already has, while the
    messages before it bring no id: the duplicate-key error is returned
    as an error value, no chat is created, and the messages before the
    failing one stay stored. *)
Theorem saveChat_keeps_messages_on_failure (s : Store) payload ms m rest i :
  fresh s -> cp_messages payload = ms ++ m :: rest ->
  Forall (fun m => msg_id m = None) ms ->
  msg_id m = Some i -> Some i ∈ map msg_id (stored_messages s) ->
  exists s',
    saveChat payload s
    = (Returned (ErrorResponse
         ("Error occurred when saving chat: " +:+ exn_to_string duplicate_key)), s')
    /\ chats s' = chats s /\ users s' = users s
    /\ stored_messages s' = stored_messages s ++ stored_from (next_oid s) ms.
Proof.
  intros Hf Hpay Hms Hm Hin. unfold saveChat. unfold try_catch. unfold bind at 1.
  rewrite save_participants_loop. cbv beta iota zeta. unfold bind at 1.
  rewrite Hpay, for_of_app. unfold bind at 1.
  destruct (save_messages_loop_run s ms [] Hf Hms) as (s1 & Hloop & Hu & Hc & Hst & _).
  rewrite Hloop. simpl. unfold bind at 1. simpl. unfold bind at 1.
  unfold create_message. rewrite Hm. simpl.
  rewrite bool_decide_eq_true_2.
  - exists s1. by unfold ret.
  - rewrite Hst, map_app. apply elem_of_app. by left.
Qed.

(** X13, on an example: the second of two messages reuses the id that
    the first has just been given. *)
Lemma saveChat_keeps_messages_on_failure_witness :
  exists error s',
    saveChat {| cp_participants := ["alice"];
                cp_messages := [direct_message 7%Z say_hello;
                                direct_message 8%Z say_hello;
                                stored_as "m0" (direct_message 9%Z say_hello)] |}
      (with_message one_chat (stored_as "m0" (direct_message 1%Z say_hello)))
    = (Returned (ErrorResponse error), s')
    /\ map msg_id (stored_messages s') = [Some "m0"; Some "oid2"; Some "oid3"]
    /\ length (chats s') = 1.
Proof.
  edestruct (saveChat_keeps_messages_on_failure
               (with_message one_chat (stored_as "m0" (direct_message 1%Z say_hello)))
               {| cp_participants := ["alice"];
                  cp_messages := [direct_message 7%Z say_hello;
                                  direct_message 8%Z say_hello;
                                  stored_as "m0" (direct_message 9%Z say_hello)] |}
               [direct_message 7%Z say_hello; direct_message 8%Z say_hello]
               (stored_as "m0" (direct_message 9%Z say_hello)) [] "m0")
    as (s' & Hrun & Hc & _ & Hm).
  - intros n Hle. simpl in *. split.
    + intros Hin%list_elem_of_singleton. injection Hin as Hin.
      by destruct n as [|[|]].
    + intros Hin%list_elem_of_singleton.
      change "oid0" with (oid 0) in Hin. apply oid_inj in Hin. lia.
  - done.
  - by repeat constructor.
  - done.
  - simpl. by left.
  - do 2 eexists. split; [exact Hrun|]. by rewrite Hc, Hm.
Defined.

(** ** Saving a chat while the database stops answering *)

Lemma flaky_participants_loop (s : Store) ps acc n :
  for_of ps acc
    (fun participantIds participant =>
       user <- UserModel_findOne (toString participant) ;;
       match user with
       | Some user => ret (participantIds ++ [user_id user])
       | None => ret (participantIds ++ [participant])
       end) (length ps + n, s)
  = (Returned (acc ++ map (resolve s) ps), (n, s)).
Proof.
  revert acc. induction ps as [|p ps IH]; intros acc; simpl.
  - by rewrite app_nil_r.
  - unfold bind at 1. simpl. unfold bind at 1. simpl. unfold toString, resolve at 1.
    destruct (find_user_by_username s p) eqn:E; simpl;
      (etrans; [apply IH|]); by rewrite <- app_assoc.
Qed.

Lemma flaky_messages_loop (s : Store) ms acc n :
  fresh s -> Forall (fun m => msg_id m = None) ms ->
  exists s',
    for_of ms acc
      (fun messageIds messageData =>
         message <- MessageModel_create messageData ;;
         match message with
         | None => throw (Error "Failed to create message")
         | Some message => ret (messageIds ++ [msg_id message])
         end) (length ms + n, s)
    = (Returned (acc ++ map msg_id (stored_from (next_oid s) ms)), (n, s'))
    /\ users s' = users s /\ chats s' = chats s
    /\ stored_messages s' = stored_messages s ++ stored_from (next_oid s) ms
    /\ fresh s'.
Proof.
  intros Hf Hms. revert acc s Hf.
  induction Hms as [|m ms Hm Hms IH]; intros acc s Hf; simpl.
  - exists s. rewrite !app_nil_r. by unfold ret.
  - unfold bind at 1. simpl. unfold bind at 1. simpl.
    unfold create_message. rewrite Hm. simpl.
    destruct (Hf (next_oid s)) as [Hn _]; [done|].
    rewrite bool_decide_eq_false_2 by done.
    destruct (create_message_fresh s m Hf Hm) as (doc & s1 & Hrun & Hf1).
    unfold create_message in Hrun. rewrite Hm in Hrun. simpl in Hrun.
    rewrite bool_decide_eq_false_2 in Hrun by done. injection Hrun as <- <-.
    edestruct (IH (acc ++ [Some (oid (next_oid s))])) as (s' & Hloop & Hu & Hc & Hm' & Hf');
      [exact Hf1|].
    exists s'. split; [etrans; [exact Hloop|]; simpl; by rewrite <- app_assoc|].
    simpl in *. rewrite Hu, Hc, Hm', <- app_assoc. simpl.
    split; [done|]. split; [done|]. split; [reflexivity|done].
Qed.

(** X14: [saveChat] can return an error although the chat has been
    stored.  When the database creates the chat document and then stops
    answering, so that reading the new chat back fails, [saveChat]
    returns the error as an error value; the chat document, with the
    resolved participants, and the messages stay stored. *)
Theorem saveChat_error_after_the_chat_is_stored (s : Store) payload :
  fresh s -> Forall (fun m => msg_id m = None) (cp_messages payload) ->
  exists s' doc,
    saveChat payload
      (length (cp_participants payload) + (length (cp_messages payload) + 1), s)
    = (Returned (ErrorResponse
         "Error occurred when saving chat: MongoNetworkError: connection lost"), (0, s'))
    /\ chats s' = chats s ++ [doc]
    /\ doc_participants doc = map (resolve s) (cp_participants payload)
    /\ stored_messages s'
       = stored_messages s ++ stored_from (next_oid s) (cp_messages payload).
Proof.
  intros Hf Hms. unfold saveChat. unfold try_catch. unfold bind at 1.
  rewrite flaky_participants_loop. cbv beta iota zeta. unfold bind at 1.
  destruct (flaky_messages_loop s (cp_messages payload) [] 1 Hf Hms)
    as (s1 & Hloop & Hu & Hc & Hm & Hf1).
  rewrite Hloop. unfold bind at 1. simpl. unfold create_chat.
  destruct (Hf1 (next_oid s1)) as [_ Hnew]; [done|].
  rewrite bool_decide_eq_false_2 by done. simpl.
  do 2 eexists. split; [reflexivity|]. simpl. rewrite Hc, Hm. done.
Qed.

(** X14, on an example: the database answers three times. *)
Lemma saveChat_error_after_the_chat_is_stored_witness :
  exists error s',
    saveChat {| cp_participants := ["alice"; "bob"]; cp_messages := [] |} (3, two_users)
    = (Returned (ErrorResponse error), (0, s'))
    /\ length (chats s') = 1.
Proof.
  edestruct (saveChat_error_after_the_chat_is_stored two_users
               {| cp_participants := ["alice"; "bob"]; cp_messages := [] |}
               fresh_two_users)
    as (s' & doc & Hrun & Hc & _).
  { constructor. }
  do 2 eexists. split; [exact Hrun|]. by rewrite Hc.
Defined.

(** ** The list of a user's chats is complete or an error *)

Section AllOrNothing.
Context {D : Type} `{!Models D}.

(** One turn of the loop: the populated chat is pushed, or the fixed
    error is thrown. *)
Lemma populate_into_run acc chat (w : World D) :
  populate_into acc chat w
  = match populateDocument (chat_id chat) "chat" (db w) with
    | (Returned (Doc populated), d') =>
        (Returned (acc ++ [populated]), {| db := d'; outbox := outbox w |})
    | (_, d') =>
        (Threw (Error "Failed populating chats"), {| db := d'; outbox := outbox w |})
    end.
Proof.
  unfold populate_into. run.
  by destruct (populateDocument _ _ (db w)) as [[[p|e]|x] d1].
Qed.

(** The whole loop: every chat is populated, in order, or the fixed
    error is thrown. *)
Lemma populate_loop_run chats acc (w : World D) :
  match populated_each chats (db w) with
  | Some (l, d') =>
      for_of chats acc populate_into w
      = (Returned (acc ++ l), {| db := d'; outbox := outbox w |})
  | None =>
      (for_of chats acc populate_into w).1 = Threw (Error "Failed populating chats")
  end.
Proof.
  revert acc w. induction chats as [|c cs IH]; intros acc w; simpl.
  - unfold ret. rewrite app_nil_r. by destruct w.
  - unfold bind. rewrite populate_into_run.
    destruct (populateDocument (chat_id c) "chat" (db w)) as [[[p|e]|x] d1]; simpl;
      [|done..].
    specialize (IH (acc ++ [p]) {| db := d1; outbox := outbox w |}). simpl in IH.
    destruct (populated_each cs d1) as [[l d2]|]; [|done].
    rewrite IH. by rewrite <- app_assoc.
Qed.

(** What [populated_each] returns is, chat by chat, what
    [populateDocument] returned. *)
Lemma populated_each_each chats (d : D) l d' :
  populated_each chats d = Some (l, d') ->
  Forall2 (fun chat populated =>
             exists d1 d2,
               populateDocument (chat_id chat) "chat" d1 = (Returned (Doc populated), d2))
          chats l.
Proof.
  revert d l. induction chats as [|c cs IH]; intros d l; simpl.
  - intros [= <- _]. constructor.
  - destruct (populateDocument (chat_id c) "chat" d) as [[[p|e]|x] d1] eqn:Hp; try done.
    destruct (populated_each cs d1) as [[l1 d2]|] eqn:Hrest; [|done].
    intros [= <- <-]. constructor; [by exists d, d1|]. by apply (IH d1).
Qed.

(** X15: the chats-by-user route never answers with part of the list.
    Once [getChatsByParticipants] has returned the chats of the user,
    either [populateDocument] returns a chat for every one of them, and
    the route answers 200 with exactly these populated chats, one for
    each chat found and in the same order; or it answers 500 with the
    fixed text ["Error retrieving chat: Error: Failed populating chats"],
    whatever went wrong while populating. *)
Theorem chats_by_user_is_all_or_nothing req (w : World D) chats d1 :
  truthy_opt (gc_username req) = true ->
  getChatsByParticipants [field (gc_username req)] (db w) = (Returned chats, d1) ->
  (populated_each chats d1 = None
   /\ (getChatsByUserRoute req w).1
      = Returned (server_error "Error retrieving chat: " "Error: Failed populating chats"))
  \/ exists l d2,
       populated_each chats d1 = Some (l, d2)
       /\ getChatsByUserRoute req w
          = (Returned {| status := 200; sent := JsonList l |},
             {| db := d2; outbox := outbox w |})
       /\ Forall2 (fun chat populated =>
                     exists d d',
                       populateDocument (chat_id chat) "chat" d
                       = (Returned (Doc populated), d'))
                  chats l
       /\ length l = length chats.
Proof.
  intros Ht Hg.
  pose proof (populate_loop_run chats [] {| db := d1; outbox := outbox w |}) as Hloop.
  simpl in Hloop.
  assert (Hrun : getChatsByUserRoute req w
                 = match for_of chats [] populate_into
                           {| db := d1; outbox := outbox w |} with
                   | (Returned l, w') =>
                       (Returned {| status := 200; sent := JsonList l |}, w')
                   | (Threw e, w') =>
                       (Returned (server_error "Error retrieving chat: "
                                    (exn_to_string e)), w')
                   end).
  { unfold getChatsByUserRoute. rewrite Ht. simpl.
    unfold try_catch, bind at 1, await. rewrite Hg. simpl. unfold bind.
    by destruct (for_of chats [] populate_into _) as [[ps|e] w1]. }
  rewrite Hrun.
  destruct (populated_each chats d1) as [[l d2]|] eqn:Heach.
  - right. exists l, d2. rewrite Hloop. split; [done|]. split; [done|].
    pose proof (populated_each_each chats d1 l d2 Heach) as Hall.
    split; [done|]. symmetry. by apply Forall2_length in Hall.
  - left. split; [done|].
    destruct (for_of chats [] populate_into _) as [[ps|e] w1]; simpl in *; [done|].
    by injection Hloop as ->.
Qed.

End AllOrNothing.

(** X15, on an example: alice has one chat and it is returned,
    populated. *)
Lemma chats_by_user_is_all_or_nothing_witness :
  (getChatsByUserRoute {| gc_username := Some "alice" |} (quiet one_chat)).1
  = Returned {| status := 200;
                sent := JsonList [{| chat_id := Some "oid0";
                                     participants := ["u-alice"; "u-bob"];
                                     messages := [] |}] |}.
Proof.
  destruct (chats_by_user_is_all_or_nothing {| gc_username := Some "alice" |}
              (quiet one_chat)
              [{| chat_id := Some "oid0"; participants := ["u-alice"; "u-bob"];
                  messages := [] |}] one_chat eq_refl)
    as [[Hnone _]|(l & d2 & Heach & Hrun & _)].
  - by vm_compute.
  - by vm_compute in Hnone.
  - rewrite Hrun. vm_compute in Heach. by injection Heach as <- _.
Defined.

(** ** Leaving a chat room *)

Lemma leaveChat_room_left (io : gmap string (gset string)) sid chatId rooms :
  io !! sid = Some rooms -> truthy chatId = true ->
  socket_step io (LeaveChat sid (Some chatId)) !! sid = Some (rooms ∖ {[chatId]})
  /\ forall chat type,
       receives (socket_step io (LeaveChat sid (Some chatId))) sid
         (chat_update (Room chatId) chat type) = false.
Proof.
  intros Hsid Ht.
  assert (Hstep : socket_step io (LeaveChat sid (Some chatId)) !! sid
                  = Some (rooms ∖ {[chatId]})).
  { unfold socket_step. rewrite lookup_alter_eq, Hsid. simpl. by rewrite Ht. }
  split; [done|]. intros chat type. unfold receives. rewrite Hstep. simpl.
  apply bool_decide_eq_false. intros [_ Hn]%elem_of_difference.
  apply Hn. by apply elem_of_singleton.
Qed.

(** X16: ['leaveChat'] on the socket server.  With a non-empty chat id
    it takes the socket out of that room and out of no other: the
    socket no longer receives what is emitted to that room, still
    receives what is emitted to its other rooms and to everybody, and
    the rooms of the other sockets are untouched.  With an undefined or
    empty chat id, ['leaveChat'] changes nothing, and neither does
    ['joinChat'] with an empty one. *)
Theorem leaveChat_leaves_one_room (io : gmap string (gset string)) (sid : string) :
  (forall chatId rooms,
     io !! sid = Some rooms -> truthy chatId = true ->
     socket_step io (LeaveChat sid (Some chatId)) !! sid = Some (rooms ∖ {[chatId]})
     /\ (forall chat type,
           receives (socket_step io (LeaveChat sid (Some chatId))) sid
             (chat_update (Room chatId) chat type) = false)
     /\ (forall room chat type, room <> chatId ->
           receives (socket_step io (LeaveChat sid (Some chatId))) sid
             (chat_update (Room room) chat type)
           = receives io sid (chat_update (Room room) chat type))
     /\ (forall chat type,
           receives (socket_step io (LeaveChat sid (Some chatId))) sid
             (chat_update AllSockets chat type) = true)
     /\ (forall other, other <> sid ->
           socket_step io (LeaveChat sid (Some chatId)) !! other = io !! other))
  /\ (forall chatId, truthy_opt chatId = false ->
        socket_step io (LeaveChat sid chatId) = io)
  /\ socket_step io (JoinChat sid "") = io.
Proof.
  split; [|split].
  - intros chatId rooms Hsid Ht.
    assert (Hstep : socket_step io (LeaveChat sid (Some chatId)) !! sid
                    = Some (rooms ∖ {[chatId]})).
    { unfold socket_step. rewrite lookup_alter_eq, Hsid. simpl. by rewrite Ht. }
    split; [done|]. split; [|split; [|split]].
    + intros chat type. unfold receives. rewrite Hstep. simpl.
      apply bool_decide_eq_false. intros [_ Hn]%elem_of_difference.
      apply Hn. by apply elem_of_singleton.
    + intros room chat type Hne. unfold receives. rewrite Hstep, Hsid. simpl.
      apply bool_decide_ext. rewrite elem_of_difference, elem_of_singleton. tauto.
    + intros chat type. unfold receives. by rewrite Hstep.
    + intros other Hne. simpl. by rewrite lookup_alter_ne.
  - intros chatId Ht. simpl. apply map_eq. intros k.
    destruct (decide (k = sid)) as [->|Hne].
    + rewrite lookup_alter_eq. destruct (io !! sid) as [rooms|]; simpl; [|done].
      destruct chatId as [c|]; simpl in *; [|done]. by rewrite Ht.
    + by rewrite lookup_alter_ne.
  - simpl. apply map_eq. intros k.
    destruct (decide (k = sid)) as [->|Hne].
    + rewrite lookup_alter_eq. by destruct (io !! sid).
    + by rewrite lookup_alter_ne.
Qed.

(** X16, on an example: a socket joins the chat ["oid0"] and leaves it
    again. *)
Lemma leaveChat_leaves_one_room_witness :
  receives (sockets_after [Connect "s1"; JoinChat "s1" "oid0";
                           LeaveChat "s1" (Some "oid0")]) "s1"
    (chat_update (Room "oid0")
       {| chat_id := Some "oid0"; participants := ["u-alice"; "u-bob"]; messages := [] |}
       "newMessage") = false.
Proof.
  destruct (leaveChat_leaves_one_room
              (sockets_after [Connect "s1"; JoinChat "s1" "oid0"]) "s1") as [H _].
  destruct (H "oid0" ({[ "oid0" ]} ∪ {[ "s1" ]})) as (_ & Hno & _); [|done|apply Hno].
  unfold sockets_after. simpl. by rewrite lookup_alter_eq, lookup_insert_eq.
Defined.

(** ** The names on a chat card *)

Lemma omap_imap_kept {A} (g : A -> Z -> bool) k (l : list A) :
  omap (fun '(index, element) =>
          if g element (Z.of_nat index) then Some element else None)
       (imap (fun i => pair (k + i)) l)
  = kept_from g k l.
Proof.
  revert k. induction l as [|x l IH]; intros k; simpl; [done|].
  rewrite Nat.add_0_r.
  rewrite (imap_ext _ (fun i => pair (S k + i))) by (intros; simpl; f_equal; lia).
  rewrite IH. by destruct (g x (Z.of_nat k)).
Qed.

Lemma filter_indexed_kept {A} (f : A -> Z -> list A -> bool) (array : list A) :
  Page.filter_indexed f array = kept_from (fun e i => f e i array) 0 array.
Proof. exact (omap_imap_kept (fun e i => f e i array) 0 array). Qed.

Lemma kept_from_elem {A} (f : A -> Z -> bool) k l x :
  x ∈ kept_from f k l ->
  exists n, k <= n /\ f x (Z.of_nat n) = true /\ l !! (n - k) = Some x.
Proof.
  revert k. induction l as [|y l IH]; intros k; simpl.
  - by intros ?%elem_of_nil.
  - intros [Hin|Hin]%elem_of_app.
    + destruct (f y (Z.of_nat k)) eqn:E; [|by apply elem_of_nil in Hin].
      apply list_elem_of_singleton in Hin as ->. exists k.
      rewrite Nat.sub_diag. by repeat split.
    + destruct (IH _ Hin) as (n & Hle & Hf & Hl). exists n.
      split; [lia|]. split; [done|].
      replace (n - k) with (S (n - S k)) by lia. done.
Qed.

Lemma elem_kept_from {A} (f : A -> Z -> bool) k l n x :
  l !! n = Some x -> f x (Z.of_nat (k + n)) = true -> x ∈ kept_from f k l.
Proof.
  revert k n. induction l as [|y l IH]; intros k n; simpl; [done|].
  destruct n as [|n]; simpl.
  - intros [= ->]. rewrite Nat.add_0_r. intros ->. apply elem_of_app. left. by left.
  - intros Hl Hf. apply elem_of_app. right. apply (IH (S k) n); [done|].
    by replace (S k + n) with (k + S n) by lia.
Qed.

Lemma NoDup_kept_from {A} (f : A -> Z -> bool) k l :
  (forall x n m, f x n = true -> f x m = true -> n = m) ->
  NoDup (kept_from f k l).
Proof.
  intros Hfun. revert k. induction l as [|y l IH]; intros k; simpl; [constructor|].
  destruct (f y (Z.of_nat k)) eqn:E; simpl; [|apply IH].
  apply NoDup_cons. split; [|apply IH].
  intros (n & Hle & Hf & _)%kept_from_elem.
  pose proof (Hfun _ _ _ E Hf). lia.
Qed.

Lemma sublist_kept_from {A} (f : A -> Z -> bool) k l : sublist (kept_from f k l) l.
Proof.
  revert k. induction l as [|y l IH]; intros k; simpl; [constructor|].
  destruct (f y (Z.of_nat k)); simpl; [by apply sublist_skip|by apply sublist_cons].
Qed.

(** [indexOf] finds a position of an element that occurs. *)
Lemma indexOf_found (x : option string) array :
  x ∈ array -> exists n, Page.indexOf x array = Z.of_nat n /\ array !! n = Some x.
Proof.
  induction array as [|y l IH]; simpl.
  - by intros ?%elem_of_nil.
  - intros Hin. destruct (decide (x = y)) as [->|Hne].
    + exists 0. by rewrite bool_decide_eq_true_2.
    + rewrite bool_decide_eq_false_2 by done.
      apply elem_of_cons in Hin as [?|Hin]; [done|].
      destruct (IH Hin) as (n & -> & Hl). exists (S n).
      destruct (Z.eqb_spec (Z.of_nat n) (-1)); [lia|]. split; [lia|done].
Qed.

(** X17: the names on a chat card.  [ChatsListCard] shows the usernames
    of the users of the chat's messages, not the participants of the
    chat: each non-empty username that occurs is shown, none is shown
    twice, and they keep the order of the messages.  A chat none of
    whose messages carries a user, and so a chat without messages, is
    shown with an empty name. *)
Theorem card_names_are_the_distinct_senders (ms : list Page.CardMessage) :
  NoDup (Page.card_names ms)
  /\ (forall name, name ∈ Page.card_names ms
        <-> name ∈ Page.card_usernames ms /\ truthy_opt name = true)
  /\ sublist (Page.card_names ms) (Page.card_usernames ms)
  /\ (Forall (fun m => Page.card_user m = None) ms -> Page.participantNames ms = "").
Proof.
  assert (Hmem : forall name, name ∈ Page.card_names ms
            <-> name ∈ Page.card_usernames ms /\ truthy_opt name = true).
  { intros name. unfold Page.card_names. rewrite filter_indexed_kept. split.
    - intros (n & _ & Hf & Hl)%kept_from_elem.
      apply andb_true_iff in Hf as [Ht _]. split; [|done].
      by apply list_elem_of_lookup_2 in Hl.
    - intros [Hin Ht]. destruct (indexOf_found _ _ Hin) as (n & Hidx & Hl).
      apply (elem_kept_from _ 0 _ n); [done|]. simpl.
      rewrite Ht, Hidx. simpl. by apply Z.eqb_eq. }
  split; [|split; [exact Hmem|split]].
  - unfold Page.card_names. rewrite filter_indexed_kept. apply NoDup_kept_from.
    intros x n m [_ Hn%Z.eqb_eq]%andb_true_iff [_ Hm%Z.eqb_eq]%andb_true_iff. lia.
  - unfold Page.card_names. rewrite filter_indexed_kept. apply sublist_kept_from.
  - intros Hno. unfold Page.participantNames.
    destruct (Page.card_names ms) as [|name l] eqn:E; [done|].
    destruct (proj1 (Hmem name)) as [Hin Ht]; [by left|].
    unfold Page.card_usernames in Hin.
    apply list_elem_of_fmap in Hin as (m & -> & Hm).
    rewrite Forall_forall in Hno. by rewrite (Hno m Hm) in Ht.
Qed.

(** X17, on an example: bob, a message without user, alice, and bob
    again. *)
Lemma card_names_are_the_distinct_senders_witness :
  NoDup (Page.card_names
           [{| Page.card_user := Some {| Page.su_id := None; Page.su_username := "bob" |} |};
            {| Page.card_user := None |};
            {| Page.card_user := Some alice_user |};
            {| Page.card_user := Some {| Page.su_id := None; Page.su_username := "bob" |} |}])
  /\ Page.participantNames [{| Page.card_user := None |}] = "".
Proof.
  split.
  - apply card_names_are_the_distinct_senders.
  - apply card_names_are_the_distinct_senders. by repeat constructor.
Defined.

(** ** Selecting and creating a chat on the page *)

(** [handleChatSelect] when the server answers with a chat. *)
Lemma select_with_success api socket (p : Page.Page) chatID chat :
  truthy chatID = true -> Page.api_getChatById api chatID = Returned chat ->
  exists p',
    Page.select api socket (Some chatID) p = (Returned tt, p')
    /\ hook_of p'
       = hook_with (hook_of p) (Some chat)
           (Client.st_chats (hook_of p)) (Client.st_newMessage (hook_of p))
    /\ Client.requests (Page.browser p') = Client.requests (Page.browser p)
    /\ Page.emitted p'
       = Page.emitted p ++ (if socket then [Page.EmitJoinChat chatID] else [])
    /\ Page.calls p' = Page.calls p ++ [Page.GetChatById chatID].
Proof.
  intros Ht Hapi. unfold Page.select, Page.handleChatSelect. simpl. rewrite Ht. simpl.
  unfold try_catch, bind, Page.getChatById, Page.call, Page.handleJoinChat. simpl.
  rewrite Hapi. simpl. destruct socket; simpl; eexists; (split; [reflexivity|]); simpl;
    rewrite ?app_nil_r; done.
Qed.

(** X18: [handleChatSelect].  Without a chat id it does nothing, not
    even a call.  When the server answers with a chat, that chat
    becomes the selected chat and, if there is a socket, ['joinChat'] is
    emitted with the chat id that was asked for; the chats list and the
    text being typed stay.  When the call fails, the error is caught:
    nothing is selected anew and nothing is emitted. *)
Theorem handleChatSelect_selects_and_joins api socket (p : Page.Page) :
  (forall chatID, truthy_opt chatID = false ->
     Page.select api socket chatID p = (Returned tt, p))
  /\ (forall chatID chat,
        truthy chatID = true -> Page.api_getChatById api chatID = Returned chat ->
        exists p',
          Page.select api socket (Some chatID) p = (Returned tt, p')
          /\ hook_of p'
             = hook_with (hook_of p) (Some chat)
                 (Client.st_chats (hook_of p)) (Client.st_newMessage (hook_of p))
          /\ Client.requests (Page.browser p') = Client.requests (Page.browser p)
          /\ Page.emitted p'
             = Page.emitted p ++ (if socket then [Page.EmitJoinChat chatID] else [])
          /\ Page.calls p' = Page.calls p ++ [Page.GetChatById chatID])
  /\ (forall chatID e,
        truthy chatID = true -> Page.api_getChatById api chatID = Threw e ->
        exists p',
          Page.select api socket (Some chatID) p = (Returned tt, p')
          /\ Page.browser p' = Page.browser p
          /\ Page.emitted p' = Page.emitted p
          /\ Page.calls p' = Page.calls p ++ [Page.GetChatById chatID]).
Proof.
  unfold Page.select, Page.handleChatSelect. split; [|split].
  - intros chatID Ht. by rewrite Ht.
  - intros chatID chat. apply select_with_success.
  - intros chatID e Ht Hapi. simpl. rewrite Ht. simpl.
    unfold try_catch, bind, Page.getChatById, Page.call. simpl.
    rewrite Hapi. simpl. eexists. split; [reflexivity|]. simpl. by destruct p as [[] ? ?].
Qed.

(** X18, on an example: alice selects the chat ["oid0"], and then a
    chat the server does not have. *)
Lemma handleChatSelect_selects_and_joins_witness :
  (exists p',
     Page.select sample_api true (Some "oid0") alice_page = (Returned tt, p')
     /\ Page.emitted p' = [Page.EmitJoinChat "oid0"])
  /\ (exists p',
        Page.select sample_api true (Some "oid9") alice_page = (Returned tt, p')
        /\ Page.browser p' = Page.browser alice_page /\ Page.emitted p' = []).
Proof.
  destruct (handleChatSelect_selects_and_joins sample_api true alice_page)
    as (_ & Hok & Hfail).
  split.
  - edestruct (Hok "oid0") as (p' & Hrun & _ & _ & Hem & _); [done|reflexivity|].
    by exists p'.
  - edestruct (Hfail "oid9") as (p' & Hrun & Hb & Hem & _); [done|reflexivity|].
    by exists p'.
Defined.

Lemma sockets_after_snoc evs ev :
  sockets_after (evs ++ [ev]) = socket_step (sockets_after evs) ev.
Proof. unfold sockets_after. by rewrite foldl_app. Qed.

Lemma server_sockets_emit sid (p p' : Page.Page) m :
  Page.emitted p' = Page.emitted p ++ [m] ->
  server_sockets sid p' = socket_step (server_sockets sid p) (Page.as_client_event sid m).
Proof.
  intros E. unfold server_sockets. rewrite E, map_app. simpl.
  by rewrite app_comm_cons, sockets_after_snoc.
Qed.

(** The socket of the page stays connected. *)
Lemma server_sockets_connected sid (p : Page.Page) :
  exists rooms, server_sockets sid p !! sid = Some rooms.
Proof.
  unfold server_sockets. induction (Page.emitted p) as [|m ms IH] using rev_ind.
  - exists {[sid]}. unfold sockets_after. simpl. by rewrite lookup_insert_eq.
  - destruct IH as [rooms IH]. rewrite map_app. simpl.
    rewrite app_comm_cons, sockets_after_snoc.
    destruct m; simpl; rewrite lookup_alter_eq, IH; simpl; eauto.
Qed.

(** X19: the page and the socket server together.  With a socket, after
    a chat has been selected with success the socket of the page
    receives what the server emits to the room of that chat id; after
    [handleCreateChat] has created a chat that has an id, likewise for
    the room of the new chat; and after the clean-up of the effect the
    socket no longer receives what is emitted to the room of the chat
    that was selected. *)
Theorem page_rooms_follow_the_selection sid api (p : Page.Page) :
  (forall chatID chat c type,
     truthy chatID = true -> Page.api_getChatById api chatID = Returned chat ->
     receives (server_sockets sid (Page.select api true (Some chatID) p).2) sid
       (chat_update (Room chatID) c type) = true)
  /\ (forall sel cid c type,
        Client.st_selectedChat (hook_of p) = Some sel ->
        chat_id sel = Some cid -> truthy cid = true ->
        receives (server_sockets sid (Page.unmount true p).2) sid
          (chat_update (Room cid) c type) = false).
Proof.
  split.
  - intros chatID chat c type Ht Hapi.
    destruct (select_with_success api true p chatID chat Ht Hapi)
      as (p' & -> & _ & _ & Hem & _). simpl.
    rewrite (server_sockets_emit sid p p' _ Hem). unfold Page.as_client_event.
    destruct (server_sockets_connected sid p) as [rooms Hr].
    apply receives_room. eexists. split; [by apply joinChat_joins|].
    rewrite Ht. apply elem_of_union. left. by apply elem_of_singleton.
  - intros sel cid c type Hsel Hid Ht.
    unfold Page.unmount, Page.cleanup. unfold hook_of in Hsel. rewrite Hsel. simpl.
    rewrite Hid. simpl. rewrite Ht. unfold Page.emit. simpl.
    erewrite (server_sockets_emit sid p); [|reflexivity].
    unfold Page.as_client_event, toString.
    destruct (server_sockets_connected sid p) as [rooms Hr].
    destruct (leaveChat_room_left (server_sockets sid p) sid cid rooms Hr Ht) as [_ Hno].
    apply Hno.
Qed.

(** X19, on an example: alice's page selects the chat ["oid0"]. *)
Lemma page_rooms_follow_the_selection_witness :
  receives
    (server_sockets "s1" (Page.select sample_api true (Some "oid0") alice_page).2) "s1"
    (chat_update (Room "oid0")
       {| chat_id := Some "oid0"; participants := ["u-alice"; "u-bob"]; messages := [] |}
       "newMessage") = true.
Proof.
  destruct (page_rooms_follow_the_selection "s1" sample_api alice_page) as [H _].
  by eapply H.
Defined.

(** [handleCreateChat] when it gets as far as a new chat. *)
Lemma create_with_success api socket user (p : Page.Page) participants newChat :
  can_create api user (Client.st_chatToCreate (hook_of p)) participants newChat ->
  exists p',
    Page.create api socket user p = (Returned tt, p')
    /\ hook_of p'
       = {| Client.st_showCreatePanel := false;
            Client.st_chatToCreate := "";
            Client.st_selectedChat := Some newChat;
            Client.st_chats := Client.st_chats (hook_of p) ++ [newChat];
            Client.st_newMessage := Client.st_newMessage (hook_of p) |}
    /\ Client.requests (Page.browser p') = Client.requests (Page.browser p)
    /\ Page.emitted p'
       = Page.emitted p
         ++ (if socket && truthy_opt (chat_id newChat)
             then [Page.EmitJoinChat (field (chat_id newChat))] else [])
    /\ Page.calls p'
       = Page.calls p ++ [Page.GetUserByUsername (Client.st_chatToCreate (hook_of p));
                          Page.CreateChat participants].
Proof.
  intros (Hname & mine & other & theirs & Hmine & Htm & Hother & Htheirs & Htt & -> & Hnew).
  unfold Page.create, Page.handleCreateChat, hook_of in *.
  rewrite Hname, Hmine. simpl. rewrite Htm. simpl.
  unfold try_catch, bind at 1, Page.getUserByUsername, Page.call. rewrite Hother. simpl.
  rewrite Htheirs. simpl. rewrite Htt. simpl.
  unfold bind at 1, Page.createChat, Page.call. simpl. unfold toString. rewrite Hnew.
  unfold bind, Page.handleJoinChat, Page.in_browser, Page.emit. simpl.
  destruct socket, (truthy_opt (chat_id newChat)); simpl;
    eexists; (split; [reflexivity|]); simpl; rewrite <- ?app_assoc, ?app_nil_r; done.
Qed.

(** X20: [handleCreateChat] when there is a name to create a chat with,
    both users have an id and the server answers both calls.  The chat
    is created for the two ids, the user's own first; the new chat is
    appended to the chats list, whether or not the list already holds a
    chat with that id, and becomes the selected chat; ['joinChat'] is
    emitted for it if there is a socket and the chat has an id; the
    create panel is closed and the name is cleared. *)
Theorem handleCreateChat_creates_selects_and_joins api socket user (p : Page.Page)
    participants newChat :
  can_create api user (Client.st_chatToCreate (hook_of p)) participants newChat ->
  exists p',
    Page.create api socket user p = (Returned tt, p')
    /\ Client.st_chats (hook_of p') = Client.st_chats (hook_of p) ++ [newChat]
    /\ Client.st_selectedChat (hook_of p') = Some newChat
    /\ Client.st_showCreatePanel (hook_of p') = false
    /\ Client.st_chatToCreate (hook_of p') = ""
    /\ keeps_draft p p'
    /\ Page.emitted p'
       = Page.emitted p
         ++ (if socket && truthy_opt (chat_id newChat)
             then [Page.EmitJoinChat (field (chat_id newChat))] else [])
    /\ Page.calls p'
       = Page.calls p ++ [Page.GetUserByUsername (Client.st_chatToCreate (hook_of p));
                          Page.CreateChat participants].
Proof.
  intros Hcan.
  destruct (create_with_success api socket user p participants newChat Hcan)
    as (p' & Hrun & Hhook & Hreq & Hem & Hcalls).
  exists p'. unfold keeps_draft. rewrite Hhook. simpl. by repeat split.
Qed.

Lemma alice_can_create :
  can_create sample_api alice_user "bob" ["u-alice"; "u-bob"]
    {| chat_id := Some "oid1"; participants := ["u-alice"; "u-bob"]; messages := [] |}.
Proof. split; [done|]. by exists "u-alice", {| Page.su_id := Some "u-bob"; Page.su_username := "bob" |}, "u-bob". Qed.

(** X20, on an example: alice creates a chat with bob. *)
Lemma handleCreateChat_creates_selects_and_joins_witness :
  exists p',
    Page.create sample_api true alice_user alice_page = (Returned tt, p')
    /\ map chat_id (Client.st_chats (hook_of p')) = [Some "oid1"]
    /\ Page.emitted p' = [Page.EmitJoinChat "oid1"]
    /\ Page.calls p' = [Page.GetUserByUsername "bob"; Page.CreateChat ["u-alice"; "u-bob"]].
Proof.
  destruct (handleCreateChat_creates_selects_and_joins sample_api true alice_user
              alice_page _ _ alice_can_create)
    as (p' & Hrun & Hchats & _ & _ & _ & _ & Hem & Hcalls).
  exists p'. by rewrite Hchats, Hem, Hcalls.
Defined.

Lemma existsb_no_such_id (chat : Chat) (l : list Chat) :
  (forall c, c ∈ l -> chat_id c <> chat_id chat) ->
  existsb (fun c => bool_decide (chat_id c = chat_id chat)) l = false.
Proof.
  induction l as [|c l IH]; simpl; [done|]. intros Hno.
  rewrite bool_decide_eq_false_2 by (apply Hno; by left). simpl.
  apply IH. intros c' Hc'. apply Hno. by right.
Qed.

(** A ['created'] update on the page: the chat is appended unless a
    chat of that id is listed. *)
Lemma on_chatUpdate_created (p : Page.Page) chat :
  exists p',
    Page.on_chatUpdate (created chat) p = (Returned tt, p')
    /\ Client.st_chats (hook_of p')
       = (if existsb (fun c => bool_decide (chat_id c = chat_id chat))
               (Client.st_chats (hook_of p))
          then Client.st_chats (hook_of p)
          else Client.st_chats (hook_of p) ++ [chat])
    /\ Client.st_chatToCreate (hook_of p') = Client.st_chatToCreate (hook_of p).
Proof.
  unfold Page.on_chatUpdate, Page.in_browser, Client.receive, Client.handleChatUpdate.
  simpl. eexists. split; [reflexivity|]. by simpl.
Qed.

(** X21: the two ways in which the creator of a chat learns of it do
    not commute.  When [handleCreateChat] has added the new chat, the
    ['created'] update for that chat leaves the chats list as it is.
    When the update has been handled first, for a chat whose id was not
    listed, [handleCreateChat] adds the chat once more and the list
    holds it twice. *)
Theorem created_update_then_handleCreateChat_duplicates api socket user (p : Page.Page)
    participants newChat :
  can_create api user (Client.st_chatToCreate (hook_of p)) participants newChat ->
  (forall c, c ∈ Client.st_chats (hook_of p) -> chat_id c <> chat_id newChat) ->
  Client.st_chats
    (hook_of (Page.on_chatUpdate (created newChat) (Page.create api socket user p).2).2)
  = Client.st_chats (hook_of p) ++ [newChat]
  /\ Client.st_chats
       (hook_of (Page.create api socket user (Page.on_chatUpdate (created newChat) p).2).2)
     = Client.st_chats (hook_of p) ++ [newChat; newChat].
Proof.
  intros Hcan Hno. split.
  - destruct (create_with_success api socket user p participants newChat Hcan)
      as (p1 & -> & Hhook & _). cbn [snd].
    destruct (on_chatUpdate_created p1 newChat) as (p2 & -> & Hchats & _). cbn [snd].
    rewrite Hchats, Hhook. simpl. rewrite existsb_app. simpl.
    rewrite bool_decide_eq_true_2 by done. by rewrite orb_true_r.
  - destruct (on_chatUpdate_created p newChat) as (p1 & -> & Hchats & Hname). cbn [snd].
    rewrite existsb_no_such_id in Hchats by done.
    rewrite <- Hname in Hcan.
    destruct (create_with_success api socket user p1 participants newChat Hcan)
      as (p2 & -> & Hhook & _). cbn [snd]. rewrite Hhook. simpl.
    by rewrite Hchats, <- app_assoc.
Qed.

(** X21, on an example: alice's page learns of the chat with bob from
    the server's update and then from the answer to its own request. *)
Lemma created_update_then_handleCreateChat_duplicates_witness :
  map chat_id
    (Client.st_chats
       (hook_of (Page.create sample_api true alice_user
                   (Page.on_chatUpdate
                      (created {| chat_id := Some "oid1";
                                  participants := ["u-alice"; "u-bob"];
                                  messages := [] |}) alice_page).2).2))
  = [Some "oid1"; Some "oid1"].
Proof.
  destruct (created_update_then_handleCreateChat_duplicates sample_api true alice_user
              alice_page _ _ alice_can_create) as [_ H].
  - by intros c ?%elem_of_nil.
  - by rewrite H.
Defined.

(** ** What the handlers of the page never do *)

(** X22: the handlers of the hook other than [handleChatUpdate] never
    throw, whatever the server answers, and none of them sends an
    add-message request or touches the text being typed.
    [fetchChats] replaces the chats list by the server's answer, or by
    the empty list when the call fails, and emits nothing;
    [handleUserSelect] sets the name to create a chat with; the
    clean-up of the effect changes no state and makes no call. *)
Theorem page_handlers_never_throw api socket user (p : Page.Page) :
  (forall chatID, exists p',
     Page.select api socket chatID p = (Returned tt, p') /\ keeps_draft p p')
  /\ (exists p',
        Page.create api socket user p = (Returned tt, p') /\ keeps_draft p p')
  /\ (exists p',
        Page.fetchChats api user p = (Returned tt, p') /\ keeps_draft p p'
        /\ Client.st_chats (hook_of p')
           = match Page.api_getChatsByUser api (Page.su_username user) with
             | Returned userChats => userChats
             | Threw _ => []
             end
        /\ Client.st_selectedChat (hook_of p') = Client.st_selectedChat (hook_of p)
        /\ Page.emitted p' = Page.emitted p)
  /\ (forall selectedUser, exists p',
        Page.handleUserSelect selectedUser p = (Returned tt, p') /\ keeps_draft p p'
        /\ Client.st_chatToCreate (hook_of p') = Page.su_username selectedUser
        /\ Client.st_chats (hook_of p') = Client.st_chats (hook_of p))
  /\ (exists p',
        Page.unmount socket p = (Returned tt, p')
        /\ Page.browser p' = Page.browser p /\ Page.calls p' = Page.calls p).
Proof.
  unfold keeps_draft, hook_of. split; [|split; [|split; [|split]]].
  - intros chatID. unfold Page.select, Page.handleChatSelect.
    destruct (truthy_opt chatID); simpl; [|by eexists].
    unfold try_catch, bind, Page.getChatById, Page.call, Page.handleJoinChat. simpl.
    destruct (Page.api_getChatById api _); simpl; [destruct socket; simpl|];
      eexists; (split; [reflexivity|]); done.
  - unfold Page.create, Page.handleCreateChat.
    destruct (truthy _); simpl; [|by eexists].
    destruct (truthy_opt (Page.su_id user)); simpl; [|by eexists].
    unfold try_catch, bind at 1, Page.getUserByUsername, Page.call. simpl.
    destruct (Page.api_getUserByUsername api _) as [other|e]; simpl;
      [|eexists; (split; [reflexivity|]); done].
    destruct (truthy_opt (Page.su_id other)); simpl;
      [|eexists; (split; [reflexivity|]); done].
    unfold bind at 1, Page.createChat, Page.call. simpl.
    destruct (Page.api_createChat api _) as [newChat|e]; simpl;
      [|eexists; (split; [reflexivity|]); done].
    unfold bind, Page.handleJoinChat, Page.in_browser, Page.emit. simpl.
    destruct (truthy_opt (chat_id newChat)), socket; simpl;
      eexists; (split; [reflexivity|]); done.
  - unfold Page.fetchChats, try_catch, bind, Page.getChatsByUser, Page.call. simpl.
    destruct (Page.api_getChatsByUser api _); simpl;
      eexists; (split; [reflexivity|]); done.
  - intros selectedUser. unfold Page.handleUserSelect. simpl.
    eexists. split; [reflexivity|]. done.
  - unfold Page.unmount, Page.cleanup.
    destruct socket; [|by eexists].
    destruct (truthy_opt _); simpl; eexists; (split; [reflexivity|]); done.
Qed.

(** X23: when [handleCreateChat] gives up.  Without a name or without
    an id of the user it does nothing, not even a call.  When the user
    of that name cannot be fetched or has no id, or when the chat cannot
    be created, the error is caught and the state is as before: no chat
    is added or selected, nothing is emitted, and the create panel and
    the name stay as they are. *)
Theorem handleCreateChat_gives_up_quietly api socket user (p : Page.Page) :
  (truthy (Client.st_chatToCreate (hook_of p)) = false
   \/ truthy_opt (Page.su_id user) = false ->
   Page.create api socket user p = (Returned tt, p))
  /\ (truthy (Client.st_chatToCreate (hook_of p)) = true ->
      truthy_opt (Page.su_id user) = true ->
      (exists e, Page.api_getUserByUsername api (Client.st_chatToCreate (hook_of p))
                 = Threw e)
      \/ (exists other,
            Page.api_getUserByUsername api (Client.st_chatToCreate (hook_of p))
            = Returned other
            /\ (truthy_opt (Page.su_id other) = false
                \/ exists e,
                     Page.api_createChat api
                       [field (Page.su_id user); field (Page.su_id other)] = Threw e)) ->
      exists p',
        Page.create api socket user p = (Returned tt, p')
        /\ Page.browser p' = Page.browser p
        /\ Page.emitted p' = Page.emitted p).
Proof.
  unfold hook_of, Page.create, Page.handleCreateChat. split.
  - intros [-> | Hu]; [done|]. rewrite Hu. by rewrite orb_true_r.
  - intros -> ->. simpl.
    unfold try_catch, bind at 1, Page.getUserByUsername, Page.call. simpl.
    intros [[e ->]|(other & -> & Hother)]; simpl.
    + eexists. split; [reflexivity|]. simpl. by destruct p as [[] ? ?].
    + destruct (truthy_opt (Page.su_id other)) eqn:Ht; simpl.
      * destruct Hother as [?|[e He]]; [done|].
        unfold bind at 1, Page.createChat, Page.call. simpl. unfold toString.
        rewrite He. simpl. eexists. split; [reflexivity|]. simpl.
        by destruct p as [[] ? ?].
      * eexists. split; [reflexivity|]. simpl. by destruct p as [[] ? ?].
Qed.

(** X23, on an example: nobody is called carol. *)
Lemma handleCreateChat_gives_up_quietly_witness :
  exists p',
    Page.create sample_api true alice_user
      (Page.handleUserSelect {| Page.su_id := None; Page.su_username := "carol" |}
         alice_page).2
    = (Returned tt, p')
    /\ Client.st_chats (hook_of p') = []
    /\ Client.st_showCreatePanel (hook_of p') = true
    /\ Page.emitted p' = [].
Proof.
  destruct (handleCreateChat_gives_up_quietly sample_api true alice_user
              (Page.handleUserSelect {| Page.su_id := None; Page.su_username := "carol" |}
                 alice_page).2) as [_ H].
  destruct H as (p' & Hrun & Hb & Hem); [done|done| |].
  - left. by eexists.
  - exists p'. unfold hook_of. by rewrite Hb, Hem.
Defined.
